(** * Financial agent: routing, tool execution and PII redaction

    A shallow embedding of
      - helper_modules/function_tools.py   (database_query_tool,
        pii_protection_tool and its nested helpers, the choice of ticker
        symbols of finance_market_search_tool), and
      - helper_modules/agent_coordinator.py (_detect_pii_fields,
        _check_and_apply_pii_protection, _route_query, query,
        get_available_tools, get_status, list_available_tools,
        _intelligent_routing),
    followed by the properties established about them.

    Conventions of the embedding.
      - A Python [str] is a [string]; only ASCII text is modelled, so
        [lower], [strip], [\s] and [\d] act on ASCII characters.
      - A raised exception is [Raise msg], where [msg] is [str(e)]: the code
        only ever formats exceptions with an f-string.
      - Calls that leave the process (the completion service, sqlite, the
        query engines of the document tools, the market tool) are events of
        a program tree [prog]; a handler gives them a meaning.
      - What a tool returns is read as the [str] that the annotations of
        the callers announce: [tool.call] of a function tool stands for the
        text of its result. [_route_query] hands the object that
        [tool.call] returns to [_check_and_apply_pii_protection] without
        [str()], where its document path applies [str()]; what is stated
        below of the check is stated of a [str] argument, and nothing is
        stated of a result object in which the test for the COLUMNS mark
        does not look at the text.
      - [int] is unbounded, and [int(x)] refuses a run of more than 4300
        digits; [ast.literal_eval] is a parameter of the functions that
        call it. *)

From Stdlib Require Import String Ascii List Bool Arith Lia ListSet DecimalString Sorted.
Import ListNotations.
Local Open Scope list_scope.
Local Open Scope string_scope.

(** ** Python string primitives *)

Module Py.

(** The characters [chr n]. *)
Definition chr (n : nat) : ascii := ascii_of_nat n.
Definition nl : string := String (chr 10) "".
Definition dquote : string := String (chr 34) "".
Definition squote : string := "'".

(** [str.isspace] on ASCII: tab, newline, vertical tab, form feed, carriage
    return, the four separators 0x1c-0x1f and the space. *)
Definition is_space (c : ascii) : bool :=
  let n := nat_of_ascii c in
  (((9 <=? n) && (n <=? 13)) || ((28 <=? n) && (n <=? 32)))%nat.

(** [\d] on ASCII. *)
Definition is_digit (c : ascii) : bool :=
  let n := nat_of_ascii c in ((48 <=? n) && (n <=? 57))%nat.

Definition lower_char (c : ascii) : ascii :=
  let n := nat_of_ascii c in
  if ((65 <=? n) && (n <=? 90))%nat then ascii_of_nat (n + 32) else c.

(** [s.lower()]. *)
Fixpoint lower (s : string) : string :=
  match s with
  | "" => ""
  | String c t => String (lower_char c) (lower t)
  end.

(** [s.startswith(p)]. *)
Fixpoint startswith (p s : string) : bool :=
  match p with
  | "" => true
  | String a p' =>
      match s with
      | "" => false
      | String b s' => Ascii.eqb a b && startswith p' s'
      end
  end.

(** [sub in s]. *)
Fixpoint contains (sub s : string) : bool :=
  if startswith sub s then true
  else match s with
       | "" => false
       | String _ t => contains sub t
       end.

(** [s.find(sub)], with [None] for -1. *)
Fixpoint find (sub s : string) : option nat :=
  if startswith sub s then Some 0
  else match s with
       | "" => None
       | String _ t => option_map S (find sub t)
       end.

Fixpoint lstrip (s : string) : string :=
  match s with
  | "" => ""
  | String c t => if is_space c then lstrip t else s
  end.

Fixpoint rstrip (s : string) : string :=
  match s with
  | "" => ""
  | String c t =>
      match rstrip t with
      | "" => if is_space c then "" else String c ""
      | t' => String c t'
      end
  end.

(** [s.strip()]. *)
Definition strip (s : string) : string := rstrip (lstrip s).

(** [s.split(sep)] for a one-character separator: never empty. *)
Fixpoint split (sep : ascii) (s : string) : list string :=
  match s with
  | "" => [""]
  | String c t =>
      if Ascii.eqb c sep then "" :: split sep t
      else match split sep t with
           | h :: r => String c h :: r
           | [] => [String c ""]
           end
  end.

(** [s.split(sep, 1)]: one or two parts. *)
Fixpoint split1 (sep : ascii) (s : string) : list string :=
  match s with
  | "" => [""]
  | String c t =>
      if Ascii.eqb c sep then [""; t]
      else match split1 sep t with
           | h :: r => String c h :: r
           | [] => [String c ""]
           end
  end.

(** [sep.join(parts)]. *)
Definition join (sep : string) (parts : list string) : string :=
  String.concat sep parts.

(** [c * n] for a one-character string. *)
Fixpoint times (c : ascii) (n : nat) : string :=
  match n with
  | O => ""
  | S k => String c (times c k)
  end.

(** [s[:n]] and [s[n:]]. *)
Fixpoint take (n : nat) (s : string) : string :=
  match n, s with
  | S k, String c t => String c (take k t)
  | _, _ => ""
  end.

Fixpoint drop (n : nat) (s : string) : string :=
  match n, s with
  | S k, String _ t => drop k t
  | _, _ => s
  end.

(** [s[-n:]] for [n > 0]. *)
Definition last_chars (n : nat) (s : string) : string :=
  drop (String.length s - n) s.

(** [re.sub(r'[^\d]', '', s)]. *)
Fixpoint only_digits (s : string) : string :=
  match s with
  | "" => ""
  | String c t => if is_digit c then String c (only_digits t) else only_digits t
  end.

(** [s.replace(old, new)] for a non-empty [old]: occurrences are taken from
    the left and do not overlap; [skip] counts the characters of the
    occurrence just replaced that are still to be dropped. *)
Fixpoint replace_from (old new : string) (skip : nat) (s : string) : string :=
  match s with
  | "" => ""
  | String c t =>
      match skip with
      | S k => replace_from old new k t
      | O =>
          if startswith old s
          then new ++ replace_from old new (String.length old - 1) t
          else String c (replace_from old new 0 t)
      end
  end.

(** [s.replace("", new)] puts [new] before every character and at the end. *)
Fixpoint interleave (new s : string) : string :=
  new ++ match s with
         | "" => ""
         | String c t => String c (interleave new t)
         end.

Definition replace (old new s : string) : string :=
  match old with
  | "" => interleave new s
  | _ => replace_from old new 0 s
  end.

(** [re.findall(q + '([^' + q + ']+)' + q, s)] for a quote character [q]:
    at a quote, the longest run of other characters is taken; it is a match
    when the run is not empty and a quote closes it, and the scan resumes
    after that quote. [run] is the run read so far inside an open quote. *)
Fixpoint findall_quoted_from (q : ascii) (run : option string) (s : string)
  : list string :=
  match s with
  | "" => []
  | String c t =>
      match run with
      | None =>
          if Ascii.eqb c q then findall_quoted_from q (Some "") t
          else findall_quoted_from q None t
      | Some r =>
          if Ascii.eqb c q then
            match r with
            | "" => findall_quoted_from q (Some "") t
            | _ => r :: findall_quoted_from q None t
            end
          else findall_quoted_from q (Some (r ++ String c "")) t
      end
  end.

Definition findall_quoted (q : ascii) (s : string) : list string :=
  findall_quoted_from q None s.

(** [re.findall(r'\d+', s)]: the maximal runs of digits. *)
Fixpoint findall_digits_from (run : string) (s : string) : list string :=
  match s with
  | "" => match run with "" => [] | _ => [run] end
  | String c t =>
      if is_digit c then findall_digits_from (run ++ String c "") t
      else match run with
           | "" => findall_digits_from "" t
           | _ => run :: findall_digits_from "" t
           end
  end.

Definition findall_digits (s : string) : list string :=
  findall_digits_from "" s.

(** The number that a run of decimal digits writes. *)
Definition int_of_digits (s : string) : nat :=
  fold_left (fun acc c => 10 * acc + (nat_of_ascii c - 48))
            (list_ascii_of_string s) 0.

(** [str(n)] for a natural number. *)
Definition str_of_nat (n : nat) : string :=
  NilZero.string_of_uint (Nat.to_uint n).

(** [repr(s)] of an ASCII [str]: double quotes are chosen when the text has
    a single quote and no double quote; backslash, the chosen quote and
    control characters are escaped. *)
Definition hex_digit (n : nat) : ascii :=
  if (n <? 10)%nat then ascii_of_nat (48 + n) else ascii_of_nat (87 + n).

Definition repr_char (q : ascii) (c : ascii) : string :=
  let n := nat_of_ascii c in
  if Ascii.eqb c q || Ascii.eqb c "\"%char then String "\"%char (String c "")
  else if (n =? 9)%nat then "\t"
  else if (n =? 10)%nat then "\n"
  else if (n =? 13)%nat then "\r"
  else if ((n <? 32) || (n =? 127))%nat
       then "\x" ++ String (hex_digit (n / 16)) (String (hex_digit (n mod 16)) "")
  else String c "".

Fixpoint repr_body (q : ascii) (s : string) : string :=
  match s with
  | "" => ""
  | String c t => repr_char q c ++ repr_body q t
  end.

Definition repr_str (s : string) : string :=
  let q := if contains squote s && negb (contains dquote s)
           then chr 34 else chr 39 in
  String q (repr_body q s) ++ String q "".

(** [str(names)] for a list of [str]. *)
Definition repr_list (names : list string) : string :=
  "[" ++ join ", " (map repr_str names) ++ "]".

End Py.

(** ** Exceptions and calls that leave the process *)

(** What a Python call gives back: a value, or a raised exception carrying its
    message [str(e)]. *)
Inductive outcome (A : Type) : Type :=
| Ok (a : A)
| Raise (msg : string).
Arguments Ok {A} a.
Arguments Raise {A} msg.

(** [int(x)] on a run of decimal digits. CPython converts a run of at most
    4300 digits, the default of [sys.get_int_max_str_digits()], leading
    zeros counted, and raises a ValueError on a longer one. *)
Definition max_str_digits : nat := 4300.

Definition int (x : string) : outcome nat :=
  if (String.length x <=? max_str_digits)%nat then Ok (Py.int_of_digits x)
  else Raise ("Exceeds the limit (4300 digits) for integer string conversion: value has "
              ++ Py.str_of_nat (String.length x)
              ++ " digits; use sys.set_int_max_str_digits() to increase the limit").

(** The comprehension [[int(x) for x in runs]]: the first run that cannot
    be converted ends it. *)
Fixpoint ints (runs : list string) : outcome (list nat) :=
  match runs with
  | [] => Ok []
  | x :: rest =>
      match int x with
      | Raise e => Raise e
      | Ok n =>
          match ints rest with
          | Raise e => Raise e
          | Ok ns => Ok (n :: ns)
          end
      end
  end.

(** What sqlite hands back for a statement: [cursor.description] reduced to
    the column names and [cursor.fetchall()], each cell as its [str()]. *)
Record table : Type := { columns : list string; fetched : list (list string) }.

(** The external calls.
    - [LlmComplete p]: [str(self.llm.complete(p).text)], or the exception.
    - [SqlExecute q]: connect, [cursor.execute(q)], description, fetchall.
    - [Invoke name q]: a tool whose body lies outside these two modules (the
      query engine of a document tool, the market tool), called with [q]. *)
Inductive event : Type -> Type :=
| LlmComplete (prompt : string) : event (outcome string)
| SqlExecute (sql : string) : event (outcome table)
| Invoke (tool query : string) : event (outcome string).

(** A program is a finite tree of external calls. *)
Inductive prog (A : Type) : Type :=
| Ret (a : A)
| Vis (X : Type) (e : event X) (k : X -> prog A).
Arguments Ret {A} a.
Arguments Vis {A X} e k.

Fixpoint bind {A B : Type} (p : prog A) (f : A -> prog B) : prog B :=
  match p with
  | Ret a => f a
  | Vis e k => Vis e (fun x => bind (k x) f)
  end.

Definition trigger {X : Type} (e : event X) : prog X := Vis e Ret.

Declare Scope prog_scope.
Delimit Scope prog_scope with prog.
Notation "x <- p ;; q" := (bind p (fun x => q))
  (at level 61, p at next level, right associativity) : prog_scope.
Notation "' pat <- p ;; q" := (bind p (fun x => match x with pat => q end))
  (at level 61, pat pattern, p at next level, right associativity) : prog_scope.
Local Open Scope prog_scope.

(** [try: p except Exception as e: h e], for a body whose value is returned. *)
Definition try_except {A : Type} (p : prog (outcome A)) (h : string -> prog (outcome A))
  : prog (outcome A) :=
  r <- p ;;
  match r with
  | Ok a => Ret (Ok a)
  | Raise e => h e
  end.

(** One performed call, and the meaning of calls: a handler answers each event
    from the state [W] of the outside world. *)
Inductive call : Type :=
| Call (X : Type) (e : event X).
Arguments Call {X} e.

Definition handler (W : Type) : Type := forall X : Type, event X -> W -> X * W.

(** [run h p w]: the value of [p], the final world and the calls made, in
    order. *)
Fixpoint run {W A : Type} (h : handler W) (p : prog A) (w : W) : A * W * list call :=
  match p with
  | Ret a => (a, w, [])
  | Vis e k =>
      let '(x, w1) := h _ e w in
      let '(a, w2, tr) := run h (k x) w1 in
      (a, w2, Call e :: tr)
  end.

(** What [ast.literal_eval] can hand back, as far as its two callers tell the
    values apart: a list of [str] (the names), or a value that cannot be
    iterated (a number, [None], a boolean), of which only the truth value and
    the type name, as the TypeError prints it, are used. Other literals
    (nested or mixed lists, dicts, a bare string) are not modelled. *)
Inductive literal : Type :=
| LitNames (names : list string)
| LitScalar (truthy : bool) (type_name : string).

(** The message of [for x in value] on a value that is not iterable. *)
Definition not_iterable (type_name : string) : string :=
  "'" ++ type_name ++ "' object is not iterable".

(** The arguments a function tool is called with: [tool.call(query)], or
    [tool.call(database_results=..., column_names=...)]. *)
Inductive tool_input : Type :=
| Positional (query : string)
| PiiKeywords (database_results column_names : string).

(** The tools as the coordinator uses them: [tool.metadata.name],
    [tool.metadata.description], and [tool.query_engine.query] of a document
    tool or [tool.call] of a function tool, each taken as its [str()]: for a
    function tool this is the text that the wrapped function returns. *)
Record DocumentTool : Type := {
  doc_name : string;
  doc_description : string;
  query_engine_query : string -> prog (outcome string)
}.

Record FunctionTool : Type := {
  fn_name : string;
  fn_description : string;
  fn_call : tool_input -> prog (outcome string)
}.

(** ** function_tools.py *)

Module FunctionTools.

(** A row as the dict built by [execute_sql]: keys in insertion order,
    assigning to a present key overwrites its value in place. *)
Definition row_dict : Type := list (string * string).

Fixpoint dict_set (k v : string) (d : row_dict) : row_dict :=
  match d with
  | [] => [(k, v)]
  | (k', v') :: r => if k' =? k then (k', v) :: r else (k', v') :: dict_set k v r
  end.

(** [for i, col_name in enumerate(column_names): row_dict[col_name] = row[i]];
    [row[i]] raises IndexError on a row that is too short. *)
Fixpoint fill_row (column_names row : list string) (d : row_dict) : outcome row_dict :=
  match column_names with
  | [] => Ok d
  | c :: cs =>
      match row with
      | [] => Raise "tuple index out of range"
      | v :: vs => fill_row cs vs (dict_set c v d)
      end
  end.

Fixpoint fill_rows (column_names : list string) (rows : list (list string))
  : outcome (list row_dict) :=
  match rows with
  | [] => Ok []
  | r :: rs =>
      match fill_row column_names r [] with
      | Raise e => Raise e
      | Ok d =>
          match fill_rows column_names rs with
          | Raise e => Raise e
          | Ok ds => Ok (d :: ds)
          end
      end
  end.

(** [re.sub(fence + r'\s*', '', s)]: every occurrence of [fence], with the
    white space after it, is dropped. [skip] counts the characters of the
    fence still to drop, [ws] tells that white space is being dropped. *)
Fixpoint remove_fence (fence : string) (skip : nat) (ws : bool) (s : string) : string :=
  match s with
  | "" => ""
  | String c t =>
      match skip with
      | S k => remove_fence fence k true t
      | O =>
          if ws && Py.is_space c then remove_fence fence 0 true t
          else if Py.startswith fence s
               then remove_fence fence (String.length fence - 1) true t
               else String c (remove_fence fence 0 false t)
      end
  end.

(** The clean-up of the model's answer in [generate_sql]. *)
Definition clean_sql (text : string) : string :=
  let sql_query := Py.strip text in
  let sql_query := remove_fence "```sql" 0 false sql_query in
  let sql_query := remove_fence "```" 0 false sql_query in
  let sql_query := Py.strip sql_query in
  if Py.contains ";" sql_query
  then Py.strip (hd "" (Py.split ";" sql_query))
  else sql_query.

(** [f"  {col_name}: {value}\n"] for the items of a row. *)
Definition format_row (row : row_dict) : string :=
  fold_left (fun acc kv => acc ++ "  " ++ fst kv ++ ": " ++ snd kv ++ Py.nl) row "".

(** The rows, numbered from 1: [f"Row {i}:\n"], the items, an empty line. *)
Fixpoint format_rows (i : nat) (results : list row_dict) : string :=
  match results with
  | [] => ""
  | row :: rest =>
      "Row " ++ Py.str_of_nat i ++ ":" ++ Py.nl ++ format_row row ++ Py.nl
      ++ format_rows (S i) rest
  end.

(** [f"{column_names}"]. *)
Definition str_of_columns (column_names : option (list string)) : string :=
  match column_names with
  | None => "None"
  | Some names => Py.repr_list names
  end.

(** The text returned for an executed statement; the [COLUMNS:] line is the
    mark the coordinator looks for. *)
Definition format_result (sql_query : string) (results : option (list row_dict))
           (column_names : option (list string)) : string :=
  "SQL Query: " ++ sql_query ++ Py.nl ++ Py.nl
  ++ "COLUMNS: " ++ str_of_columns column_names ++ Py.nl ++ Py.nl
  ++ "Database Results:" ++ Py.nl
  ++ match results with
     | None | Some [] => "No results found."
     | Some rs => format_rows 1 rs
     end.

Section DatabaseQueryTool.

(** [self.db_schema], read once when the manager is built. *)
Variable db_schema : string.

Definition sql_prompt (query_text : string) (error_context : option string) : string :=
  "You are a SQL expert. Convert the following natural language query into a valid SQLite SQL query."
  ++ Py.nl ++ Py.nl
  ++ "Database Schema:" ++ Py.nl
  ++ db_schema ++ Py.nl ++ Py.nl
  ++ "Natural Language Query: " ++ query_text ++ Py.nl
  ++ match error_context with
     | None | Some "" => ""
     | Some err =>
         Py.nl ++ "Previous SQL query failed with error: " ++ err ++ Py.nl
         ++ "Please fix the SQL query."
     end
  ++ Py.nl ++ Py.nl
  ++ "Generate ONLY the SQL query, no explanations, no markdown formatting. Return only the SQL statement.".

(** [generate_sql]: a failed completion call yields ["SELECT 1"]. *)
Definition generate_sql (query_text : string) (error_context : option string)
  : prog string :=
  response <- trigger (LlmComplete (sql_prompt query_text error_context)) ;;
  match response with
  | Ok text => Ret (clean_sql text)
  | Raise _ => Ret "SELECT 1"
  end.

(** [execute_sql]: [(success, results, column_names, error)]. *)
Definition execute_sql (sql_query : string)
  : prog (bool * option (list row_dict) * option (list string) * string) :=
  answer <- trigger (SqlExecute sql_query) ;;
  match answer with
  | Raise error_msg => Ret (false, None, None, error_msg)
  | Ok t =>
      match fill_rows (columns t) (fetched t) with
      | Raise error_msg => Ret (false, None, None, error_msg)
      | Ok results => Ret (true, Some results, Some (columns t), "")
      end
  end.

(** [database_query_tool]. Nothing in its body raises once [generate_sql]
    and [execute_sql] have caught their own exceptions, so the outer
    handler ("Database system error") has no run here. *)
Definition database_query_tool (query : string) : prog string :=
  sql_query <- generate_sql query None ;;
  '(success, results, column_names, error) <- execute_sql sql_query ;;
  '(sql_query, (success, results, column_names, error)) <-
    (if negb success
     then sql_retry <- generate_sql query (Some error) ;;
          again <- execute_sql sql_retry ;;
          Ret (sql_retry, again)
     else Ret (sql_query, (success, results, column_names, error))) ;;
  if negb success
  then Ret ("Database query failed: " ++ error ++ Py.nl ++ "SQL attempted: " ++ sql_query)
  else Ret (format_result sql_query results column_names).

End DatabaseQueryTool.

(** *** pii_protection_tool *)

(** The [column_names] argument: a [str], or already a list. *)
Inductive column_arg : Type :=
| ColumnsText (s : string)
| ColumnsList (names : list string).

(** The set [pii_patterns] of [detect_pii_fields]. *)
Definition pii_patterns : list string :=
  [ "email"; "email_address"; "e_mail"; "e-mail"; "email_addr";
    "phone"; "phone_number"; "telephone"; "mobile"; "cell"; "contact_number";
    "first_name"; "last_name"; "full_name"; "customer_name"; "name";
    "given_name"; "surname";
    "address"; "street_address"; "mailing_address"; "home_address";
    "physical_address";
    "ssn"; "social_security_number"; "tax_id"; "tax_id_number"; "ssn_number" ].

(** One turn of the loop of [detect_pii_fields]: the direct match, then the
    search for a pattern inside the lower-cased name. *)
Definition detect_step (detected_pii : set string) (field_name : string) : set string :=
  let field_lower := Py.strip (Py.lower field_name) in
  if set_mem string_dec field_lower pii_patterns
  then set_add string_dec field_name detected_pii
  else if existsb (fun pattern => Py.contains pattern field_lower) pii_patterns
       then set_add string_dec field_name detected_pii
       else detected_pii.

Definition detect_pii_fields (field_names : list string) : set string :=
  fold_left detect_step field_names (empty_set string).

(** [mask_field_value]. *)
Definition mask_field_value (field_name value : string) : string :=
  if value =? "" then value
  else
      let field_lower := Py.lower field_name in
      let value_str := value in
      if Py.contains "email" field_lower then
        if Py.contains "@" value_str then
          match Py.split "@" value_str with
          | [_; domain] => "***@" ++ domain
          | _ => "***"
          end
        else "***"
      else if Py.contains "phone" field_lower || Py.contains "telephone" field_lower then
        let digits := Py.only_digits value_str in
        if (4 <=? String.length digits)%nat
        then "***-***-" ++ Py.last_chars 4 digits
        else "***-***-****"
      else if Py.contains "name" field_lower then
        if (0 <? String.length value_str)%nat
        then Py.times "*" (Nat.min (String.length value_str) 4)
        else "****"
      else if Py.contains "address" field_lower then
        if (5 <? String.length value_str)%nat
        then Py.take 2 value_str ++ Py.times "*" (String.length value_str - 2)
        else "***"
      else if Py.contains "ssn" field_lower || Py.contains "social" field_lower then
        let digits := Py.only_digits value_str in
        if (4 <=? String.length digits)%nat
        then "***-**-" ++ Py.last_chars 4 digits
        else "***-**-****"
      else
        if (0 <? String.length value_str)%nat
        then Py.times "*" (Nat.min (String.length value_str) 4)
        else "****".

(** The body of [for col in cols] on one line: the line is split at its
    first colon again on every turn, since the turn before may have
    rewritten it. The state is the line and [masked_fields_notice]. *)
Definition mask_step (pii_fields : set string) (st : string * list string)
           (col : string) : string * list string :=
  let '(line, notice) := st in
  if Py.contains col line then
    match Py.split1 ":" line with
    | [part0; part1] =>
        let field_name := Py.strip part0 in
        let value := Py.strip part1 in
        if set_mem string_dec field_name pii_fields then
          let masked_value := mask_field_value field_name value in
          (Py.replace value masked_value line,
           if set_mem string_dec field_name notice then notice
           else (notice ++ [field_name])%list)
        else st
    | _ => st
    end
  else st.

(** One line of the results. *)
Definition protect_line (cols : list string) (pii_fields : set string)
           (line : string) (notice : list string) : string * list string :=
  if Py.contains ":" line && existsb (fun col => Py.contains col line) cols
  then fold_left (mask_step pii_fields) cols (line, notice)
  else (line, notice).

(** The loop over the lines: [(protected_lines, masked_fields_notice)]. *)
Definition protect_lines_step (cols : list string) (pii_fields : set string)
           (st : list string * list string) (line : string)
  : list string * list string :=
  let '(protected_lines, notice) := st in
  let '(line', notice') := protect_line cols pii_fields line notice in
  ((protected_lines ++ [line'])%list, notice').

Definition applied_notice (masked_fields_notice : list string) : string :=
  Py.nl ++ Py.nl
  ++ "[PII Protection Applied] The following fields have been masked for privacy: "
  ++ Py.join ", " masked_fields_notice.

Definition error_notice (e : string) : string :=
  Py.nl ++ Py.nl ++ "[PII Protection Error] Could not apply masking: " ++ e.

Section PiiProtectionTool.

(** [ast.literal_eval]; it raises on text that is not a Python literal. *)
Variable literal_eval : string -> outcome literal.

(** The names read from [column_names]; when [literal_eval] raises, the
    quoted pieces are taken, then the pieces between commas. *)
Definition parse_columns (column_names : column_arg) : literal :=
  match column_names with
  | ColumnsText s =>
      match literal_eval s with
      | Ok cols => cols
      | Raise _ =>
          let cols := Py.findall_quoted (Py.chr 39) s in
          let cols := match cols with
                      | [] => Py.findall_quoted (Py.chr 34) s
                      | _ => cols
                      end in
          let cols := match cols with
                      | [] => map Py.strip (Py.split "," s)
                      | _ => cols
                      end in
          LitNames cols
      end
  | ColumnsList names => LitNames names
  end.

(** The body under the outer [try]. *)
Definition pii_protection_body (database_results : string) (column_names : column_arg)
  : outcome string :=
  match parse_columns column_names with
  | LitScalar _ type_name => Raise (not_iterable type_name)
  | LitNames cols =>
      let pii_fields := detect_pii_fields cols in
      match pii_fields with
      | [] => Ok database_results
      | _ =>
          let lines := Py.split (Py.chr 10) database_results in
          let '(protected_lines, masked_fields_notice) :=
            fold_left (protect_lines_step cols pii_fields) lines ([], []) in
          let protected_result := Py.join Py.nl protected_lines in
          match masked_fields_notice with
          | [] => Ok protected_result
          | _ => Ok (protected_result ++ applied_notice masked_fields_notice)
          end
      end
  end.

Definition pii_protection_tool (database_results : string) (column_names : column_arg)
  : string :=
  match pii_protection_body database_results column_names with
  | Ok protected_result => protected_result
  | Raise e => database_results ++ error_notice e
  end.

End PiiProtectionTool.

(** *** finance_market_search_tool: the tickers to fetch *)

(** The dict [company_mappings], in the order of its items. *)
Definition company_mappings : list (string * string) :=
  [("apple", "AAPL"); ("aapl", "AAPL"); ("tesla", "TSLA"); ("tsla", "TSLA");
   ("google", "GOOGL"); ("googl", "GOOGL"); ("alphabet", "GOOGL")].

(** One turn of the loop over the items: the ticker of a keyword found in the
    query is appended unless it is there already. *)
Definition symbol_step (query_lower : string) (symbols_to_fetch : list string)
           (item : string * string) : list string :=
  let '(keyword, symbol) := item in
  if Py.contains keyword query_lower then
    if set_mem string_dec symbol symbols_to_fetch then symbols_to_fetch
    else (symbols_to_fetch ++ [symbol])%list
  else symbols_to_fetch.

(** [symbols_to_fetch] as it stands when the tool starts to fetch: the
    tickers of the companies the query names, or all three when it names
    none. What the tool does with each ticker (the HTTP call and the
    formatting of floating-point prices) is not modelled. *)
Definition symbols_to_fetch (query : string) : list string :=
  match fold_left (symbol_step (Py.lower query)) company_mappings [] with
  | [] => ["AAPL"; "TSLA"; "GOOGL"]
  | symbols => symbols
  end.

End FunctionTools.

(** ** agent_coordinator.py *)

Module AgentCoordinator.

(** The set [pii_patterns] of [_detect_pii_fields]. *)
Definition pii_patterns : list string :=
  [ "email"; "email_address"; "e_mail"; "e-mail"; "email_addr";
    "phone"; "phone_number"; "telephone"; "mobile"; "cell"; "contact_number";
    "first_name"; "last_name"; "full_name"; "customer_name"; "name";
    "given_name"; "surname";
    "address"; "street_address"; "mailing_address"; "home_address";
    "physical_address";
    "ssn"; "social_security_number"; "tax_id"; "tax_id_number"; "ssn_number" ].

(** [_detect_pii_fields]: the loop over the field names. *)
Fixpoint detect_loop (field_names : list string) (detected_pii : set string)
  : set string :=
  match field_names with
  | [] => detected_pii
  | field_name :: rest =>
      let field_lower := Py.strip (Py.lower field_name) in
      if set_mem string_dec field_lower pii_patterns
      then detect_loop rest (set_add string_dec field_name detected_pii)
      else if existsb (fun pattern => Py.contains pattern field_lower) pii_patterns
           then detect_loop rest (set_add string_dec field_name detected_pii)
           else detect_loop rest detected_pii
  end.

Definition _detect_pii_fields (field_names : list string) : set string :=
  detect_loop field_names (empty_set string).

(** [re.search(r'COLUMNS:\s*(.+)', result)], as [group(1)].
    After the marker the white space is skipped; the group runs to the end
    of the line. When only white space follows the marker, [\s*] gives
    characters back until [.+] finds one that is not a newline. *)
Fixpoint span_space (s : string) : string * string :=
  match s with
  | "" => ("", "")
  | String c t =>
      if Py.is_space c
      then let '(w, r) := span_space t in (String c w, r)
      else ("", s)
  end.

Fixpoint line_head (s : string) : string :=
  match s with
  | "" => ""
  | String c t => if Ascii.eqb c (Py.chr 10) then "" else String c (line_head t)
  end.

Fixpoint last_not_newline (w : string) : option ascii :=
  match w with
  | "" => None
  | String c t =>
      match last_not_newline t with
      | Some d => Some d
      | None => if Ascii.eqb c (Py.chr 10) then None else Some c
      end
  end.

Definition columns_group (after_marker : string) : option string :=
  let '(w, r) := span_space after_marker in
  match r with
  | String _ _ => Some (line_head r)
  | "" =>
      match last_not_newline w with
      | Some c => Some (String c "")
      | None => None
      end
  end.

Fixpoint search_columns (s : string) : option string :=
  match (if Py.startswith "COLUMNS:" s then columns_group (Py.drop 8 s) else None) with
  | Some g => Some g
  | None =>
      match s with
      | "" => None
      | String _ t => search_columns t
      end
  end.

(** [if not cols]. *)
Definition falsy (cols : literal) : bool :=
  match cols with
  | LitNames [] => true
  | LitNames _ => false
  | LitScalar truthy _ => negb truthy
  end.

(** The keyword lists of the lexical fallback of [_route_query]. *)
Definition database_keywords : list string := ["customer"; "portfolio"; "holding"; "database"].
Definition market_keywords : list string := ["price"; "stock"; "market"; "current"].
Definition filing_keywords : list string :=
  ["apple"; "aapl"; "google"; "googl"; "tesla"; "tsla";
   "company"; "business"; "strategy"; "revenue"].

(** [any(kw in query_lower for kw in kws)]. *)
Definition any_in (kws : list string) (query_lower : string) : bool :=
  existsb (fun kw => Py.contains kw query_lower) kws.

(** The [if]/[elif] chain of the fallback for one tool: does it append the
    index of the tool? *)
Definition fallback_selects (tool_name query_lower : string) : bool :=
  let name := Py.lower tool_name in
  if Py.contains "database" name && any_in database_keywords query_lower then true
  else if Py.contains "market" name && any_in market_keywords query_lower then true
  else if Py.contains "10k" name || Py.contains "filing" name then
    if any_in filing_keywords query_lower then
      if Py.contains "aapl" name
         && (Py.contains "apple" query_lower || Py.contains "aapl" query_lower)
      then true
      else if Py.contains "googl" name
              && (Py.contains "google" query_lower || Py.contains "googl" query_lower
                  || Py.contains "alphabet" query_lower)
      then true
      else if Py.contains "tsla" name
              && (Py.contains "tesla" query_lower || Py.contains "tsla" query_lower)
      then true
      else false
    else false
  else false.

(** [for idx, (tool_name, ...) in enumerate(all_tools)], from index [idx]. *)
Fixpoint fallback_from (idx : nat) (tool_names : list string) (query_lower : string)
  : list nat :=
  match tool_names with
  | [] => []
  | tool_name :: rest =>
      if fallback_selects tool_name query_lower
      then idx :: fallback_from (S idx) rest query_lower
      else fallback_from (S idx) rest query_lower
  end.

(** [sorted(list(set(valid_indices)))]. *)
Fixpoint insert_sorted (n : nat) (l : list nat) : list nat :=
  match l with
  | [] => [n]
  | m :: r =>
      if n <? m then n :: l
      else if n =? m then l
      else m :: insert_sorted n r
  end%nat.

Definition sorted_set (l : list nat) : list nat :=
  fold_right insert_sorted [] l.

(** [f"{i}. {tool_name}: {tool_desc}"], counting from [i]. *)
Fixpoint describe (i : nat) (tools : list (string * string)) : list string :=
  match tools with
  | [] => []
  | (tool_name, tool_desc) :: rest =>
      (Py.str_of_nat i ++ ". " ++ tool_name ++ ": " ++ tool_desc)
        :: describe (S i) rest
  end.

(** The arrow of the routing guidelines, U+2192 in UTF-8. *)
Definition arrow : string :=
  String (Py.chr 226) (String (Py.chr 134) (String (Py.chr 146) "")).

(** The third component of an entry of [all_tools] with its tag
    ['document'] or ['function']. *)
Inductive tool_ref : Type :=
| DocumentRef (tool : DocumentTool)
| FunctionRef (tool : FunctionTool).

(** The fixed answer of [query] when routing gave nothing. *)
Definition unable_message : string :=
  "Unable to process query. No appropriate tools found or error occurred.".

Section Coordinator.

Variable literal_eval : string -> outcome literal.
Variable document_tools : list DocumentTool.
Variable function_tools : list FunctionTool.

(** [_check_and_apply_pii_protection]. *)
Definition _check_and_apply_pii_protection (tool_name result : string)
  : prog (outcome string) :=
  if negb (Py.contains "database_query_tool" tool_name) then Ret (Ok result)
  else if negb (Py.contains "COLUMNS:" result) then Ret (Ok result)
  else
    match search_columns result with
    | None => Ret (Ok result)
    | Some group1 =>
        let columns_str := Py.strip group1 in
        let cols :=
          match literal_eval columns_str with
          | Ok cols => cols
          | Raise _ =>
              match Py.findall_quoted (Py.chr 39) columns_str with
              | [] => LitNames (Py.findall_quoted (Py.chr 34) columns_str)
              | cols => LitNames cols
              end
          end in
        if falsy cols then Ret (Ok result)
        else
          match cols with
          | LitScalar _ type_name => Ret (Raise (not_iterable type_name))
          | LitNames names =>
              match _detect_pii_fields names with
              | [] => Ret (Ok result)
              | _ =>
                  match List.find (fun tool => Py.contains "pii" (Py.lower (fn_name tool)))
                                  function_tools with
                  | None => Ret (Ok result)
                  | Some pii_tool =>
                      try_except
                        (fn_call pii_tool (PiiKeywords result (Py.repr_list names)))
                        (fun _ => Ret (Ok result))
                  end
              end
          end
    end.

(** [all_tools]: the document tools, then the function tools. *)
Definition all_tools : list (string * string * tool_ref) :=
  (map (fun tool => (doc_name tool, doc_description tool, DocumentRef tool)) document_tools
   ++ map (fun tool => (fn_name tool, fn_description tool, FunctionRef tool)) function_tools)%list.

Definition tool_descriptions : list string :=
  (describe 0 (map (fun tool => (doc_name tool, doc_description tool)) document_tools)
   ++ describe (List.length document_tools)
        (map (fun tool => (fn_name tool, fn_description tool)) function_tools))%list.

Definition routing_prompt (query : string) : string :=
  "You are a financial agent coordinator. Analyze the user query and select the appropriate tools to answer it."
  ++ Py.nl ++ Py.nl
  ++ "User Query: " ++ query ++ Py.nl ++ Py.nl
  ++ "Available Tools:" ++ Py.nl
  ++ Py.join Py.nl tool_descriptions ++ Py.nl ++ Py.nl
  ++ "Routing Guidelines:" ++ Py.nl
  ++ "- Questions about customers, portfolios, holdings " ++ arrow
  ++ " use database_query_tool" ++ Py.nl
  ++ "- Questions about current stock prices, market data " ++ arrow
  ++ " use finance_market_search_tool" ++ Py.nl
  ++ "- Questions about company business, strategy, financials from SEC filings "
  ++ arrow
  ++ " use document tools (AAPL_10k_filing_tool, GOOGL_10k_filing_tool, TSLA_10k_filing_tool)"
  ++ Py.nl
  ++ "- Complex queries may require multiple tools" ++ Py.nl ++ Py.nl
  ++ "Select the tool(s) needed to answer this query. Return ONLY a comma-separated list of tool indices (0-based), nothing else."
  ++ Py.nl
  ++ "For example: " ++ Py.dquote ++ "0,3" ++ Py.dquote ++ " or "
  ++ Py.dquote ++ "1,2,4" ++ Py.dquote ++ " or " ++ Py.dquote ++ "5" ++ Py.dquote
  ++ Py.nl ++ Py.nl
  ++ "Selected tools:".

(** The indices chosen from the answer of the model: the numbers in it
    that are in range, or, when there is none, the lexical fallback; then
    sorted without repetition. The conversion of the runs of digits raises
    on a run that [int] refuses. *)
Definition select_indices (query response_text : string) : outcome (list nat) :=
  let selected_indices_str := Py.strip response_text in
  match ints (Py.findall_digits selected_indices_str) with
  | Raise e => Raise e
  | Ok indices =>
      let valid_indices := filter (fun idx => idx <? List.length all_tools)%nat indices in
      let valid_indices :=
        match valid_indices with
        | [] => fallback_from 0 (map (fun entry => fst (fst entry)) all_tools) (Py.lower query)
        | _ => valid_indices
        end in
      Ok (sorted_set valid_indices)
  end.

(** The body of the inner [try] for one tool: [None] stands for the
    [continue] taken on the PII tool. The result of a function tool reaches
    the check as its text, see the conventions: the code passes on what
    [tool.call] returned. *)
Definition invoke_tool (query tool_name : string) (tool : tool_ref)
  : prog (outcome (option string)) :=
  called <-
    match tool with
    | DocumentRef doc =>
        result <- query_engine_query doc query ;;
        Ret (match result with Ok text => Ok (Some text) | Raise e => Raise e end)
    | FunctionRef fn =>
        if Py.contains "database" (Py.lower tool_name)
        then result <- fn_call fn (Positional query) ;;
             Ret (match result with Ok text => Ok (Some text) | Raise e => Raise e end)
        else if Py.contains "market" (Py.lower tool_name)
        then result <- fn_call fn (Positional query) ;;
             Ret (match result with Ok text => Ok (Some text) | Raise e => Raise e end)
        else if Py.contains "pii" (Py.lower tool_name)
        then Ret (Ok None)
        else result <- fn_call fn (Positional query) ;;
             Ret (match result with Ok text => Ok (Some text) | Raise e => Raise e end)
    end ;;
  match called with
  | Raise e => Ret (Raise e)
  | Ok None => Ret (Ok None)
  | Ok (Some result_str) =>
      protected <- _check_and_apply_pii_protection tool_name result_str ;;
      Ret (match protected with Ok text => Ok (Some text) | Raise e => Raise e end)
  end.

(** One turn of the loop over [valid_indices]: what it appends to
    [results]. *)
Definition execute_tool (query : string) (entry : string * string * tool_ref)
  : prog (list (string * string * string)) :=
  let '(tool_name, tool_desc, tool) := entry in
  attempt <- invoke_tool query tool_name tool ;;
  match attempt with
  | Ok (Some result_str) => Ret [(tool_name, tool_desc, result_str)]
  | Ok None => Ret []
  | Raise e => Ret [(tool_name, tool_desc, "Error: " ++ e)]
  end.

Fixpoint execute_tools (query : string) (valid_indices : list nat)
  : prog (list (string * string * string)) :=
  match valid_indices with
  | [] => Ret []
  | idx :: rest =>
      appended <-
        match nth_error all_tools idx with
        | Some entry => execute_tool query entry
        | None => Ret []
        end ;;
      results <- execute_tools query rest ;;
      Ret (appended ++ results)%list
  end.

(** [_route_query]: the completion call, the reading of its answer and
    the loop over the tools all sit in the outer [try], whose handler returns
    the empty list. *)
Definition _route_query (query : string) : prog (list (string * string * string)) :=
  response <- trigger (LlmComplete (routing_prompt query)) ;;
  match response with
  | Raise _ => Ret []
  | Ok text =>
      match select_indices query text with
      | Raise _ => Ret []
      | Ok valid_indices => execute_tools query valid_indices
      end
  end.

(** The synthesis prompt of [query]. *)
Fixpoint synthesis_items (i : nat) (tool_results : list (string * string * string))
  : string :=
  match tool_results with
  | [] => ""
  | (tool_name, tool_desc, result) :: rest =>
      Py.nl ++ Py.str_of_nat i ++ ". " ++ tool_name ++ " (" ++ tool_desc ++ "):"
      ++ Py.nl ++ result ++ Py.nl ++ synthesis_items (S i) rest
  end.

Definition synthesis_prompt (question : string)
           (tool_results : list (string * string * string)) : string :=
  "You are a financial analyst assistant. Synthesize the following information from multiple sources into a comprehensive, coherent answer."
  ++ Py.nl ++ Py.nl
  ++ "Original Query: " ++ question ++ Py.nl ++ Py.nl
  ++ "Information from Tools:" ++ Py.nl
  ++ synthesis_items 1 tool_results
  ++ Py.nl ++ Py.nl
  ++ "Provide a comprehensive answer that integrates all the information above. Be clear, concise, and ensure all relevant details are included.".

Fixpoint fallback_blocks (tool_results : list (string * string * string)) : string :=
  match tool_results with
  | [] => ""
  | (tool_name, _, result) :: rest =>
      "From " ++ tool_name ++ ":" ++ Py.nl ++ result ++ Py.nl ++ Py.nl
      ++ fallback_blocks rest
  end.

(** [query], once the tools are set up. *)
Definition query (question : string) : prog string :=
  tool_results <- _route_query question ;;
  match tool_results with
  | [] => Ret unable_message
  | [(_, _, result)] => Ret result
  | _ =>
      synthesis_response <- trigger (LlmComplete (synthesis_prompt question tool_results)) ;;
      match synthesis_response with
      | Ok text => Ret (Py.strip text)
      | Raise _ =>
          Ret ("Query: " ++ question ++ Py.nl ++ Py.nl ++ fallback_blocks tool_results)
      end
  end.

End Coordinator.

Section Status.

Variable companies : list string.
Variable document_tools : list DocumentTool.
Variable function_tools : list FunctionTool.

(** The dict returned by [get_available_tools]. *)
Record available_tools : Type := {
  available_document_tools : list string;
  available_function_tools : list string;
  available_total_tools : nat;
  document_tool_count : nat;
  function_tool_count : nat
}.

Definition get_available_tools : available_tools :=
  {| available_document_tools :=
       if (3 <=? List.length document_tools)%nat then ["apple"; "google"; "tesla"] else [];
     available_function_tools :=
       if (3 <=? List.length function_tools)%nat then ["sql"; "market"; "pii"] else [];
     available_total_tools := List.length document_tools + List.length function_tools;
     document_tool_count := List.length document_tools;
     function_tool_count := List.length function_tools |}.

(** The dict returned by [get_status]. *)
Record status : Type := {
  status_companies : list string;
  status_document_tools : nat;
  status_function_tools : nat;
  status_total_tools : nat;
  status_ready : bool;
  status_architecture : string;
  status_coordinator_ready : bool;
  status_available_companies : list string;
  status_capabilities : list string;
  status_system_ready : bool
}.

Definition get_status : status :=
  let tool_count := List.length document_tools + List.length function_tools in
  let system_ready :=
    ((3 <=? List.length document_tools) && (3 <=? List.length function_tools))%nat in
  {| status_companies := companies;
     status_document_tools := List.length document_tools;
     status_function_tools := List.length function_tools;
     status_total_tools := tool_count;
     status_ready := system_ready;
     status_architecture := "modular";
     status_coordinator_ready := system_ready;
     status_available_companies := ["AAPL"; "GOOGL"; "TSLA"];
     status_capabilities :=
       ["Document analysis (10-K filings)";
        "Database queries (customer portfolios)";
        "Real-time market data";
        "PII protection";
        "Multi-tool coordination";
        "Intelligent routing"];
     status_system_ready := system_ready |}.

(** [list_available_tools], once the tools are set up: every tool of the
    model has its [metadata.name]. *)
Definition list_available_tools : list string :=
  (fold_left (fun tool_names tool => tool_names ++ [fn_name tool])
             function_tools
             (fold_left (fun tool_names tool => tool_names ++ [doc_name tool])
                        document_tools []))%list.

(** [_intelligent_routing], the alias of [_route_query]. *)
Definition _intelligent_routing (literal_eval : string -> outcome literal) (query : string)
  : prog (list (string * string * string)) :=
  _route_query literal_eval document_tools function_tools query.

End Status.

End AgentCoordinator.

(** ** The tools of the running system *)

Module Catalog.

(** A tool whose body is outside the two modules: calling it is an external
    call that answers with a text or raises. *)
Definition document_tool (name description : string) : DocumentTool :=
  {| doc_name := name;
     doc_description := description;
     query_engine_query := fun query => trigger (Invoke name query) |}.

(** The three function tools built by [create_function_tools], in the order
    in which they are appended: the database tool, the market tool, whose
    body is not modelled, and the PII tool. A call with the wrong arguments
    is a TypeError. *)
Definition db_tool (db_schema : string) : FunctionTool :=
  {| fn_name := "database_query_tool";
     fn_description :=
       "Query the customer and portfolio database using natural language. "
       ++ "This tool converts natural language queries into SQL and executes them "
       ++ "against the financial database. Use this for questions about customers, "
       ++ "portfolio holdings, company information, and financial metrics. "
       ++ "Returns formatted results with column information.";
     fn_call := fun input =>
       match input with
       | Positional query =>
           (text <- FunctionTools.database_query_tool db_schema query ;; Ret (Ok text))%prog
       | PiiKeywords _ _ =>
           Ret (Raise "database_query_tool() got an unexpected keyword argument 'database_results'")
       end |}.

Definition market_tool : FunctionTool :=
  {| fn_name := "finance_market_search_tool";
     fn_description :=
       "Get real-time stock market data from Yahoo Finance API. "
       ++ "Use this tool to fetch current stock prices, trading volumes, "
       ++ "price changes, and market capitalization for Apple (AAPL), "
       ++ "Tesla (TSLA), and Google (GOOGL). Query should mention company "
       ++ "names or stock symbols.";
     fn_call := fun input =>
       match input with
       | Positional query => trigger (Invoke "finance_market_search_tool" query)
       | PiiKeywords _ _ =>
           Ret (Raise "finance_market_search_tool() got an unexpected keyword argument 'database_results'")
       end |}.

Definition pii_tool (literal_eval : string -> outcome literal) : FunctionTool :=
  {| fn_name := "pii_protection_tool";
     fn_description :=
       "Automatically mask personally identifiable information (PII) in database results. "
       ++ "This tool detects sensitive fields like email addresses, phone numbers, "
       ++ "customer names, and applies appropriate masking to protect privacy. "
       ++ "Takes database results and column names as input, returns masked results.";
     fn_call := fun input =>
       match input with
       | PiiKeywords database_results column_names =>
           Ret (Ok (FunctionTools.pii_protection_tool literal_eval database_results
                      (FunctionTools.ColumnsText column_names)))
       | Positional _ =>
           Ret (Raise "pii_protection_tool() missing 1 required positional argument: 'column_names'")
       end |}.

Definition function_tools (literal_eval : string -> outcome literal) (db_schema : string)
  : list FunctionTool :=
  [db_tool db_schema; market_tool; pii_tool literal_eval].

(** The document tools under the names the routing prompt gives them; their
    descriptions are written in a third module, and any text does here. *)
Definition document_tools : list DocumentTool :=
  [document_tool "AAPL_10k_filing_tool" "Apple Inc. 10-K filing";
   document_tool "GOOGL_10k_filing_tool" "Alphabet Inc. 10-K filing";
   document_tool "TSLA_10k_filing_tool" "Tesla Inc. 10-K filing"].

(** A reader standing in for [ast.literal_eval] in the examples. It reads
    - a bracketed list of names, each between single or between double
      quotes, separated by a comma and optional spaces;
    - one such quoted text alone, a [str], which its two callers only
      iterate: the value is given as the list of its characters;
    - a decimal integer without sign, of at most [max_str_digits] digits.
    A quoted text is made of printable characters other than its quote and
    the backslash. On any other text the reader raises. It agrees with
    [ast.literal_eval] on the texts it reads and on the texts that are no
    Python literal; on the other literals (tuples, sets, dicts, floats,
    escapes, adjacent strings, signs, surrounding blanks) [ast.literal_eval]
    returns a value and the reader does not stand in for it. *)
Definition name_char (quote c : ascii) : bool :=
  let n := nat_of_ascii c in
  ((32 <=? n) && (n <? 127) && negb (n =? 92))%nat && negb (Ascii.eqb c quote).

Definition is_quote (c : ascii) : bool := Ascii.eqb c "'" || Ascii.eqb c (Py.chr 34).

Inductive reader_state : Type :=
| BeforeList
| BeforeItem (first : bool)
| InItem (quote : ascii) (item : string)
| AfterItem
| AfterList.

Fixpoint read_names (st : reader_state) (acc : list string) (s : string)
  : option (list string) :=
  match s with
  | "" => match st with AfterList => Some acc | _ => None end
  | String c t =>
      match st with
      | BeforeList =>
          if Ascii.eqb c "[" then read_names (BeforeItem true) acc t else None
      | BeforeItem first =>
          if Ascii.eqb c " " then read_names st acc t
          else if is_quote c then read_names (InItem c "") acc t
          else if Ascii.eqb c "]" && first then read_names AfterList acc t
          else None
      | InItem quote item =>
          if Ascii.eqb c quote then read_names AfterItem (acc ++ [item])%list t
          else if name_char quote c then read_names (InItem quote (item ++ String c "")) acc t
          else None
      | AfterItem =>
          if Ascii.eqb c " " then read_names st acc t
          else if Ascii.eqb c "," then read_names (BeforeItem false) acc t
          else if Ascii.eqb c "]" then read_names AfterList acc t
          else None
      | AfterList => None
      end
  end.

(** The characters of a quoted text, each as a [str] of length one. *)
Fixpoint read_str_body (quote : ascii) (acc : list string) (s : string)
  : option (list string) :=
  match s with
  | "" => None
  | String c t =>
      if Ascii.eqb c quote then match t with "" => Some acc | _ => None end
      else if name_char quote c then read_str_body quote (acc ++ [String c ""])%list t
      else None
  end.

Definition read_str (s : string) : option (list string) :=
  match s with
  | "" => None
  | String c t => if is_quote c then read_str_body c [] t else None
  end.

Definition read_int (s : string) : option nat :=
  match s with
  | "" => None
  | String c t =>
      if forallb Py.is_digit (list_ascii_of_string s)
         && (negb (Ascii.eqb c "0") || forallb (Ascii.eqb "0") (list_ascii_of_string t))
         && (String.length s <=? max_str_digits)%nat
      then Some (Py.int_of_digits s)
      else None
  end.

Definition literal_eval (s : string) : outcome literal :=
  match read_names BeforeList [] s with
  | Some names => Ok (LitNames names)
  | None =>
      match read_str s with
      | Some chars => Ok (LitNames chars)
      | None =>
          match read_int s with
          | Some n => Ok (LitScalar (negb (n =? 0)%nat) "int")
          | None => Raise "invalid syntax"
          end
      end
  end.

End Catalog.


(** * The vocabulary of the statements

    What the statements below speak of beyond the code itself: names that
    match the lexicon, the cell lines that the database tool prints, the call
    the coordinator makes on a tool, and sample worlds for the external
    calls. *)

(** ** Names, values and lines *)

(** A name matches the lexicon: its lower-cased, trimmed form is an entry, or
    has an entry inside it. *)
Definition matches_lexicon (name : string) : bool :=
  let lowered := Py.strip (Py.lower name) in
  set_mem string_dec lowered FunctionTools.pii_patterns
  || existsb (fun pattern => Py.contains pattern lowered) FunctionTools.pii_patterns.

(** The names of the "Name patterns" group of the lexicon. *)
Definition name_patterns : list string :=
  ["first_name"; "last_name"; "full_name"; "customer_name"; "name";
   "given_name"; "surname"].

(** A cell as [database_query_tool] prints it, and the part before the
    value. *)
Definition cell_line (col value : string) : string := "  " ++ col ++ ": " ++ value.
Definition label (col : string) : string := "  " ++ col ++ ": ".

(** A line as the PII tool rewrites it for the columns [cols]. *)
Definition rewrite_line (cols : list string) (line : string) : string :=
  fst (FunctionTools.protect_line cols (FunctionTools.detect_pii_fields cols) line []).

(** [masked_fields_notice] after the name [c] has been noted. *)
Definition noted (c : string) (notice : list string) : list string :=
  if set_mem string_dec c notice then notice else (notice ++ [c])%list.

(** What the rewriting of a line needs of a mask: it is not empty, it is
    trimmed, and masking it again gives it back. *)
Definition settled (field_name m : string) : Prop :=
  m <> "" /\ Py.strip m = m /\ FunctionTools.mask_field_value field_name m = m.

(** A text made of digits only. *)
Definition all_digits (s : string) : bool := forallb Py.is_digit (list_ascii_of_string s).

(** The names the PII tool takes from a text that [ast.literal_eval]
    rejects: the single-quoted pieces, else the double-quoted pieces, else
    the pieces between commas, trimmed. *)
Definition recovered_names (s : string) : list string :=
  match Py.findall_quoted (Py.chr 39) s with
  | [] =>
      match Py.findall_quoted (Py.chr 34) s with
      | [] => map Py.strip (Py.split "," s)
      | cols => cols
      end
  | cols => cols
  end.

(** ** Routing and execution *)

(** The keywords of the filing branch of the fallback that name no company. *)
Definition context_keywords : list string := ["company"; "business"; "strategy"; "revenue"].

(** The call the loop of [_route_query] makes on a selected tool, and the one
    case in which it makes none: a function tool that the [elif] chain takes
    for the PII tool. *)
Definition tool_invocation (query : string) (tool : AgentCoordinator.tool_ref)
  : prog (outcome string) :=
  match tool with
  | AgentCoordinator.DocumentRef doc => query_engine_query doc query
  | AgentCoordinator.FunctionRef fn => fn_call fn (Positional query)
  end.

Definition passed_over (tool_name : string) (tool : AgentCoordinator.tool_ref) : bool :=
  match tool with
  | AgentCoordinator.DocumentRef _ => false
  | AgentCoordinator.FunctionRef _ =>
      negb (Py.contains "database" (Py.lower tool_name))
      && negb (Py.contains "market" (Py.lower tool_name))
      && Py.contains "pii" (Py.lower tool_name)
  end.

(** ** Sample worlds *)

(** The completion service is down: every completion call raises, sqlite has
    no table, the other tools answer. *)
Definition offline : handler unit :=
  fun X e w =>
    match e in event T return T * unit with
    | LlmComplete _ => (Raise "Connection error.", tt)
    | SqlExecute _ => (Raise "no such table: customers", tt)
    | Invoke tool _ => (Ok ("answer of " ++ tool), tt)
    end.


(** The model picks the market tool and the tool answers. *)
Definition market_only : handler unit :=
  fun X e w =>
    match e in event T return T * unit with
    | LlmComplete _ => (Ok "4", tt)
    | SqlExecute _ => (Raise "no such table: customers", tt)
    | Invoke tool _ => (Ok ("answer of " ++ tool), tt)
    end.

(** The first statement written by the model names a column that does not
    exist; asked again with the error, the model writes the right statement
    inside a code fence. The world counts the executions. *)
Definition first_sql : string := "SELECT id, fone FROM customers".
Definition second_sql : string := "SELECT id, phone FROM customers".

Definition flaky_database : handler nat :=
  fun X e n =>
    match e in event T return T * nat with
    | LlmComplete prompt =>
        (Ok (if Py.contains "Previous SQL query failed with error: no such column: fone" prompt
             then "```sql" ++ Py.nl ++ second_sql ++ ";" ++ Py.nl ++ "```"
             else first_sql), n)
    | SqlExecute sql =>
        (if sql =? second_sql
         then Ok {| columns := ["id"; "phone"]; fetched := [["1"; "555-123-4567"]] |}
         else Raise "no such column: fone", S n)
    | Invoke _ _ => (Ok "", n)
    end.

(** ** Texts and notices *)

(** Twelve entries of the lexicon of which every entry holds one. *)
Definition lexicon_roots : list string :=
  ["email"; "e_mail"; "e-mail"; "phone"; "mobile"; "cell"; "contact_number";
   "name"; "address"; "ssn"; "social_security_number"; "tax_id"].

(** A text free of the character [c]. *)
Definition free_of (c : ascii) (s : string) : bool :=
  forallb (fun d => negb (Ascii.eqb d c)) (list_ascii_of_string s).

(** The notice holds flagged names only, each once. *)
Definition sound_notice (pii_fields : set string) (notice : list string) : Prop :=
  NoDup notice /\ forall x, In x notice -> set_In x pii_fields.

(** The label of a line, when it is a flagged name of [cols]. *)
Definition flagged_label (cols : list string) (line : string) : option string :=
  match Py.split1 ":" line with
  | [p0; _] =>
      if set_mem string_dec (Py.strip p0) (FunctionTools.detect_pii_fields cols)
      then Some (Py.strip p0)
      else None
  | _ => None
  end.

(** The branch of [mask_field_value] that a field name takes. *)
Inductive category : Type := Email | Phone | Name | Address | Ssn | Other.

Definition category_of (field_name : string) : category :=
  let field_lower := Py.lower field_name in
  if Py.contains "email" field_lower then Email
  else if Py.contains "phone" field_lower || Py.contains "telephone" field_lower then Phone
  else if Py.contains "name" field_lower then Name
  else if Py.contains "address" field_lower then Address
  else if Py.contains "ssn" field_lower || Py.contains "social" field_lower then Ssn
  else Other.

(** The values of which the mask of the field keeps no copy: for the e-mail
    mask, which keeps the text after the "@", those that do not start with
    "@"; for the phone and SSN masks, which keep the last four digits, those
    with more than four digits; for the other masks, every value. *)
Definition mask_hides (field_name value : string) : bool :=
  match category_of field_name with
  | Email => negb (Py.startswith "@" value)
  | Phone | Ssn => (4 <? String.length (Py.only_digits value))%nat
  | Name | Address | Other => true
  end.

(** ** Tools and the call of a tool *)

(** What [invoke_tool] does after the call of the tool itself. *)
Definition after_call (literal_eval : string -> outcome literal)
           (function_tools : list FunctionTool)
           (tool_name : string) (called : outcome string)
  : prog (outcome (option string)) :=
  match called with
  | Raise e => Ret (Raise e)
  | Ok result_str =>
      protected <- AgentCoordinator._check_and_apply_pii_protection
                     literal_eval function_tools tool_name result_str ;;
      Ret (match protected with Ok text => Ok (Some text) | Raise e => Raise e end)
  end.

(** A catalog whose PII tool raises. *)
Definition broken_pii_tool : FunctionTool :=
  {| fn_name := "pii_protection_tool";
     fn_description := "Mask personally identifiable information";
     fn_call := fun _ => Ret (Raise "masking service unavailable") |}.

(** ** Further sample worlds *)

(** The model names an index that is out of range and the query has no
    keyword of the fallback. *)
Definition nothing_selected : handler unit :=
  fun X e w =>
    match e in event T return T * unit with
    | LlmComplete _ => (Ok "42", tt)
    | SqlExecute _ => (Raise "no such table: customers", tt)
    | Invoke tool _ => (Ok ("answer of " ++ tool), tt)
    end.

(** The model selects the PII tool. *)
Definition pii_selected : handler unit :=
  fun X e w =>
    match e in event T return T * unit with
    | LlmComplete _ => (Ok "5", tt)
    | SqlExecute _ => (Raise "no such table: customers", tt)
    | Invoke tool _ => (Ok ("answer of " ++ tool), tt)
    end.

(** The model picks a filing tool and the market tool; every later
    completion call raises. The world counts the completion calls. *)
Definition synthesis_down : handler nat :=
  fun X e n =>
    match e in event T return T * nat with
    | LlmComplete _ => (if (n =? 0)%nat then Ok "2,4" else Raise "Connection error.", S n)
    | SqlExecute _ => (Raise "no such table: customers", n)
    | Invoke tool _ => (Ok ("answer of " ++ tool), n)
    end.

(** The model writes the right statement at once. *)
Definition healthy_database : handler nat :=
  fun X e n =>
    match e in event T return T * nat with
    | LlmComplete _ => (Ok "SELECT id, phone FROM customers;", n)
    | SqlExecute _ =>
        (Ok {| columns := ["id"; "phone"]; fetched := [["1"; "555-123-4567"]] |}, S n)
    | Invoke _ _ => (Ok "", n)
    end.

(** sqlite answers with a row of one cell for two columns. *)
Definition short_rows : handler unit :=
  fun X e w =>
    match e in event T return T * unit with
    | LlmComplete _ => (Ok "SELECT id, phone FROM customers", tt)
    | SqlExecute _ => (Ok {| columns := ["id"; "phone"]; fetched := [["1"]] |}, tt)
    | Invoke _ _ => (Ok "", tt)
    end.

(** * Properties *)

(** ** The primitives on sample texts *)

Example py_replace_all : Py.replace "ab" "*" "xabyabab" = "x*y**".
Proof. reflexivity. Qed.
Example py_replace_empty : Py.replace "" "-" "ab" = "-a-b-".
Proof. reflexivity. Qed.
Example py_split_ex : Py.split "," "a,,b" = ["a"; ""; "b"].
Proof. reflexivity. Qed.
Example py_split1_ex : Py.split1 ":" "  a: b:c" = ["  a"; " b:c"].
Proof. reflexivity. Qed.
Example py_strip_ex : Py.strip "  a b  " = "a b".
Proof. reflexivity. Qed.
Example py_findall_quoted_ex :
  Py.findall_quoted "'" "['id', 'e mail', '']x'y" = ["id"; "e mail"; "]x"].
Proof. reflexivity. Qed.
Example py_findall_digits_ex :
  map Py.int_of_digits (Py.findall_digits "0, 3 and 12.") = [0; 3; 12].
Proof. reflexivity. Qed.
Example py_repr_list_ex : Py.repr_list ["id"; "phone"] = "['id', 'phone']".
Proof. reflexivity. Qed.
Example py_repr_quote_ex : Py.repr_str "it's" = Py.dquote ++ "it's" ++ Py.dquote.
Proof. reflexivity. Qed.
Example py_str_of_nat_ex : Py.str_of_nat 12 = "12".
Proof. reflexivity. Qed.
Example literal_eval_names :
  Catalog.literal_eval "['id', 'phone']" = Ok (LitNames ["id"; "phone"]).
Proof. reflexivity. Qed.
Example literal_eval_int : Catalog.literal_eval "5" = Ok (LitScalar true "int").
Proof. reflexivity. Qed.
Example literal_eval_open_bracket : Catalog.literal_eval "[id" = Raise "invalid syntax".
Proof. reflexivity. Qed.

(** ** Program trees *)

Lemma run_bind {W A B : Type} (h : handler W) (p : prog A) (f : A -> prog B) (w : W) :
  run h (bind p f) w =
  let '(a, w1, t1) := run h p w in
  let '(b, w2, t2) := run h (f a) w1 in
  (b, w2, (t1 ++ t2)%list).
Proof.
  revert w; induction p as [a | X e k IH]; intros w; simpl.
  - destruct (run h (f a) w) as [[b w2] t2]; reflexivity.
  - destruct (h X e w) as [x w1].
    rewrite IH.
    destruct (run h (k x) w1) as [[a w2] t1].
    destruct (run h (f a) w2) as [[b w3] t2]; reflexivity.
Qed.

(** ** Detection of PII field names *)

Lemma lexicons_agree : AgentCoordinator.pii_patterns = FunctionTools.pii_patterns.
Proof. reflexivity. Qed.

Lemma detect_step_spec (detected : set string) (name : string) :
  FunctionTools.detect_step detected name =
  if matches_lexicon name then set_add string_dec name detected else detected.
Proof.
  unfold FunctionTools.detect_step, matches_lexicon.
  destruct (set_mem string_dec (Py.strip (Py.lower name)) FunctionTools.pii_patterns);
    [reflexivity|].
  rewrite orb_false_l.
  destruct (existsb _ FunctionTools.pii_patterns); reflexivity.
Qed.

Lemma detect_loop_fold (names : list string) (detected : set string) :
  AgentCoordinator.detect_loop names detected =
  fold_left FunctionTools.detect_step names detected.
Proof.
  revert detected; induction names as [|name rest IH]; intros detected;
    cbn [AgentCoordinator.detect_loop fold_left].
  - reflexivity.
  - unfold FunctionTools.detect_step at 2.
    rewrite lexicons_agree.
    destruct (set_mem string_dec (Py.strip (Py.lower name)) FunctionTools.pii_patterns).
    + apply IH.
    + destruct (existsb _ FunctionTools.pii_patterns); apply IH.
Qed.

Lemma coordinator_detection (names : list string) :
  AgentCoordinator._detect_pii_fields names = FunctionTools.detect_pii_fields names.
Proof. apply detect_loop_fold. Qed.

(** C10. The detection of the coordinator and the detection nested in the PII
    tool return the same set of names for every list of field names. *)
Theorem detect_pii_fields_agree (field_names : list string) :
  AgentCoordinator._detect_pii_fields field_names =
  FunctionTools.detect_pii_fields field_names.
Proof.
  unfold AgentCoordinator._detect_pii_fields, FunctionTools.detect_pii_fields.
  apply detect_loop_fold.
Qed.

Lemma detect_fold_none (names : list string) (detected : set string) :
  (forall c, In c names -> matches_lexicon c = false) ->
  fold_left FunctionTools.detect_step names detected = detected.
Proof.
  revert detected; induction names as [|name rest IH]; intros detected Hno; simpl.
  - reflexivity.
  - rewrite detect_step_spec, (Hno name (or_introl eq_refl)).
    apply IH; intros c Hc; apply Hno; right; exact Hc.
Qed.

Lemma detect_fold_keeps (names : list string) (detected : set string) (c : string) :
  set_In c detected -> set_In c (fold_left FunctionTools.detect_step names detected).
Proof.
  revert detected; induction names as [|name rest IH]; intros detected Hin; simpl.
  - exact Hin.
  - apply IH. rewrite detect_step_spec.
    destruct (matches_lexicon name); [apply set_add_intro1|]; exact Hin.
Qed.

Lemma detect_fold_adds (names : list string) (detected : set string) (c : string) :
  In c names -> matches_lexicon c = true ->
  set_In c (fold_left FunctionTools.detect_step names detected).
Proof.
  revert detected; induction names as [|name rest IH]; intros detected Hin Hm; simpl.
  - destruct Hin.
  - destruct Hin as [-> | Hin].
    + apply detect_fold_keeps. rewrite detect_step_spec, Hm.
      apply set_add_intro2; reflexivity.
    + apply IH; assumption.
Qed.

(** A flagged name is a name of the list that matches the lexicon. *)
Lemma detect_pii_fields_flagged (names : list string) (c : string) :
  In c names -> matches_lexicon c = true ->
  set_mem string_dec c (FunctionTools.detect_pii_fields names) = true.
Proof.
  intros Hin Hm. apply set_mem_correct2.
  apply detect_fold_adds; assumption.
Qed.

Lemma detect_pii_fields_none (names : list string) :
  (forall c, In c names -> matches_lexicon c = false) ->
  FunctionTools.detect_pii_fields names = [].
Proof. intros Hno. apply detect_fold_none; exact Hno. Qed.

(** ** Masking of one value *)

(** C3, as stated, fails on the empty value: the guard at the head of
    [mask_field_value] returns it as it is. *)
Lemma mask_empty_name_not_stars :
  In (Py.lower "first_name") name_patterns
  /\ FunctionTools.mask_field_value "first_name" "" = ""
  /\ FunctionTools.mask_field_value "first_name" "" <> "****".
Proof.
  split; [left; reflexivity|].
  split; [reflexivity | discriminate].
Qed.

(** C3, amended. For a field whose lower-cased name is in the personal-name
    group, a value that is not empty is masked as ['*'] repeated
    [min(len(value), 4)] times, and the empty value is returned unchanged. *)
Theorem mask_name_field (field_name value : string) :
  In (Py.lower field_name) name_patterns ->
  FunctionTools.mask_field_value field_name value =
  if value =? "" then ""
  else Py.times "*" (Nat.min (String.length value) 4).
Proof.
  intros Hname. unfold FunctionTools.mask_field_value.
  destruct value as [|c t]; [reflexivity|].
  cbn [String.eqb].
  assert (Hlen : (0 <? String.length (String c t))%nat = true) by reflexivity.
  unfold name_patterns in Hname. simpl in Hname.
  repeat (destruct Hname as [<- | Hname]; [rewrite Hlen; reflexivity|]).
  destruct Hname.
Qed.

Lemma mask_name_field_witness :
  FunctionTools.mask_field_value "Last_Name" "Johnson" = "****".
Proof.
  apply (mask_name_field "Last_Name" "Johnson").
  right; left; reflexivity.
Defined.

(** ** No flagged column: the results pass unchanged *)

Lemma tool_unchanged_without_pii
      (literal_eval : string -> outcome literal) (results : string) (cols : list string) :
  FunctionTools.detect_pii_fields cols = [] ->
  FunctionTools.pii_protection_tool literal_eval results (FunctionTools.ColumnsList cols)
  = results.
Proof.
  intros Hnone.
  unfold FunctionTools.pii_protection_tool, FunctionTools.pii_protection_body.
  cbn [FunctionTools.parse_columns]. rewrite Hnone. reflexivity.
Qed.

(** C8. When no name of the column list matches the lexicon, the PII tool
    returns the results as they are, whether it is given the list or a text
    that evaluates to it, and so does the check of the coordinator. *)
Theorem no_pii_columns_unchanged
        (literal_eval : string -> outcome literal) (function_tools : list FunctionTool)
        (results : string) (cols : list string) :
  (forall c, In c cols -> matches_lexicon c = false) ->
  FunctionTools.pii_protection_tool literal_eval results (FunctionTools.ColumnsList cols)
  = results
  /\ (forall s, literal_eval s = Ok (LitNames cols) ->
        FunctionTools.pii_protection_tool literal_eval results (FunctionTools.ColumnsText s)
        = results)
  /\ (forall tool_name,
        (forall group1, AgentCoordinator.search_columns results = Some group1 ->
                        literal_eval (Py.strip group1) = Ok (LitNames cols)) ->
        AgentCoordinator._check_and_apply_pii_protection
          literal_eval function_tools tool_name results = Ret (Ok results)).
Proof.
  intros Hno.
  pose proof (detect_pii_fields_none cols Hno) as Hnone.
  split; [|split].
  - unfold FunctionTools.pii_protection_tool, FunctionTools.pii_protection_body.
    simpl. rewrite Hnone. reflexivity.
  - intros s Hs.
    unfold FunctionTools.pii_protection_tool, FunctionTools.pii_protection_body.
    simpl. rewrite Hs, Hnone. reflexivity.
  - intros tool_name Hparse.
    unfold AgentCoordinator._check_and_apply_pii_protection.
    destruct (negb (Py.contains "database_query_tool" tool_name)); [reflexivity|].
    destruct (negb (Py.contains "COLUMNS:" results)); [reflexivity|].
    destruct (AgentCoordinator.search_columns results) as [group1|] eqn:Hsearch;
      [|reflexivity].
    rewrite (Hparse group1 eq_refl).
    destruct (AgentCoordinator.falsy (LitNames cols)); [reflexivity|].
    rewrite coordinator_detection, Hnone. reflexivity.
Qed.

Lemma no_pii_columns_unchanged_witness :
  FunctionTools.pii_protection_tool Catalog.literal_eval "  id: 7"
    (FunctionTools.ColumnsList ["id"; "symbol"]) = "  id: 7".
Proof.
  refine (proj1 (no_pii_columns_unchanged Catalog.literal_eval [] "  id: 7"
                   ["id"; "symbol"] _)).
  intros c [<- | [<- | []]]; reflexivity.
Defined.

(** ** The lexical fallback of the router *)

(** C4, as stated, fails: with an answer of the model that holds no index, the
    query "Apple" selects the Apple filing tool (index 0 of the catalog)
    although it has none of the context keywords. *)
Lemma company_name_alone_selects_filing_tool :
  AgentCoordinator.any_in context_keywords (Py.lower "Apple") = false
  /\ AgentCoordinator.select_indices
       Catalog.document_tools (Catalog.function_tools Catalog.literal_eval "")
       "Apple" "none" = Ok [0].
Proof. split; reflexivity. Qed.

Lemma any_in_cons (kw : string) (kws : list string) (q : string) :
  AgentCoordinator.any_in (kw :: kws) q = Py.contains kw q || AgentCoordinator.any_in kws q.
Proof. reflexivity. Qed.

(** C4, amended. In the lexical fallback the filing tool of a company is
    selected exactly when the lower-cased query names that company: for Apple
    and Tesla the name or the ticker alone selects the tool, for Google
    "google" or "googl" alone does, and the alias "alphabet" selects it only
    together with one of the ten keywords of the filing branch. *)
Theorem fallback_filing_tools (query_lower : string) :
  AgentCoordinator.fallback_selects "AAPL_10k_filing_tool" query_lower
  = Py.contains "apple" query_lower || Py.contains "aapl" query_lower
  /\ AgentCoordinator.fallback_selects "GOOGL_10k_filing_tool" query_lower
     = Py.contains "google" query_lower || Py.contains "googl" query_lower
       || (Py.contains "alphabet" query_lower
           && AgentCoordinator.any_in AgentCoordinator.filing_keywords query_lower)
  /\ AgentCoordinator.fallback_selects "TSLA_10k_filing_tool" query_lower
     = Py.contains "tesla" query_lower || Py.contains "tsla" query_lower.
Proof.
  unfold AgentCoordinator.fallback_selects, AgentCoordinator.filing_keywords.
  rewrite !any_in_cons.
  change (AgentCoordinator.any_in [] query_lower) with false.
  change (Py.lower "AAPL_10k_filing_tool") with "aapl_10k_filing_tool".
  change (Py.lower "GOOGL_10k_filing_tool") with "googl_10k_filing_tool".
  change (Py.lower "TSLA_10k_filing_tool") with "tsla_10k_filing_tool".
  repeat match goal with
         | |- context [Py.contains ?k (String ?c ?t)] =>
             let v := eval vm_compute in (Py.contains k (String c t)) in
             change (Py.contains k (String c t)) with v
         end.
  cbn [andb orb].
  repeat match goal with
         | |- context [Py.contains ?k query_lower] =>
             destruct (Py.contains k query_lower); cbn [andb orb]
         end;
    repeat split; reflexivity.
Qed.

(** ** Routing *)

(** C2, as stated, fails: with the completion service down, the query of the
    first scenario gets no tool result and the fixed message, although the
    lexical fallback would pick the database tool (index 3) for it. *)
Lemma routing_failure_is_not_resolved_by_fallback :
  let docs := Catalog.document_tools in
  let fns := Catalog.function_tools Catalog.literal_eval "" in
  let q := "list customers and their emails" in
  AgentCoordinator.fallback_from 0
    (map (fun entry => fst (fst entry)) (AgentCoordinator.all_tools docs fns)) (Py.lower q)
  = [3]
  /\ fst (fst (run offline (AgentCoordinator._route_query Catalog.literal_eval docs fns q) tt))
     = []
  /\ fst (fst (run offline (AgentCoordinator.query Catalog.literal_eval docs fns q) tt))
     = AgentCoordinator.unable_message.
Proof. repeat split; reflexivity. Qed.

(** The conversion of the runs of digits: it succeeds exactly when no run
    has more than [max_str_digits] digits. *)
Lemma ints_cases (runs : list string) :
  match ints runs with
  | Ok indices =>
      indices = map Py.int_of_digits runs
      /\ Forall (fun x => String.length x <= max_str_digits) runs
  | Raise _ => Exists (fun x => max_str_digits < String.length x) runs
  end.
Proof.
  induction runs as [|x rest IH]; [split; constructor|].
  cbn [ints]. unfold int at 1.
  destruct (Nat.leb_spec (String.length x) max_str_digits) as [Hle | Hgt].
  - destruct (ints rest) as [ns | e].
    + destruct IH as [-> Hall]. split; [reflexivity|]. constructor; assumption.
    + apply Exists_cons_tl, IH.
  - apply Exists_cons_hd, Hgt.
Qed.

Lemma ints_short (runs : list string) :
  Forall (fun x => String.length x <= max_str_digits) runs ->
  ints runs = Ok (map Py.int_of_digits runs).
Proof.
  intros Hall. pose proof (ints_cases runs) as Hcases.
  destruct (ints runs) as [ns | e].
  - destruct Hcases as [-> _]. reflexivity.
  - exfalso. apply Exists_exists in Hcases as (x & Hx & Hlong).
    rewrite Forall_forall in Hall. specialize (Hall x Hx). lia.
Qed.

(** What [select_indices] gives, by the two ways the parsing can go. *)
Lemma select_indices_cases
      (document_tools : list DocumentTool) (function_tools : list FunctionTool)
      (query text : string) :
  let tools := AgentCoordinator.all_tools document_tools function_tools in
  let runs := Py.findall_digits (Py.strip text) in
  let named :=
    filter (fun idx => idx <? List.length tools)%nat (map Py.int_of_digits runs) in
  match AgentCoordinator.select_indices document_tools function_tools query text with
  | Ok selected =>
      Forall (fun x => String.length x <= max_str_digits) runs
      /\ selected
         = AgentCoordinator.sorted_set
             match named with
             | [] => AgentCoordinator.fallback_from 0
                       (map (fun entry => fst (fst entry)) tools) (Py.lower query)
             | _ => named
             end
  | Raise _ => Exists (fun x => max_str_digits < String.length x) runs
  end.
Proof.
  cbv zeta. unfold AgentCoordinator.select_indices.
  pose proof (ints_cases (Py.findall_digits (Py.strip text))) as Hcases.
  destruct (ints (Py.findall_digits (Py.strip text))) as [indices | e].
  - destruct Hcases as [-> Hall]. split; [exact Hall | reflexivity].
  - exact Hcases.
Qed.

(** C2, amended. When the completion call of the router raises,
    [_route_query] returns the empty list after that single call, no tool is
    run, and [query] answers with the fixed message. The lexical fallback
    decides the selection only when the call returns a text that holds no
    index in range: a selection made from a text that holds one is the sorted
    set of its indices in range. And the fallback does decide for a text
    without an index in range, provided [int] converts every run of digits of
    the text, that is, none has more than 4300 digits; a text with a longer
    run makes [int] raise, and [_route_query] returns the empty list as it
    does when the call itself raises. *)
Theorem routing_failure_gives_empty_result
        (literal_eval : string -> outcome literal)
        (document_tools : list DocumentTool) (function_tools : list FunctionTool)
        (W : Type) (h : handler W) (query : string) (w w1 : W) (e : string) :
  h _ (LlmComplete (AgentCoordinator.routing_prompt document_tools function_tools query)) w
  = (Raise e, w1) ->
  run h (AgentCoordinator._route_query literal_eval document_tools function_tools query) w
  = ([], w1,
     [Call (LlmComplete (AgentCoordinator.routing_prompt document_tools function_tools query))])
  /\ run h (AgentCoordinator.query literal_eval document_tools function_tools query) w
     = (AgentCoordinator.unable_message, w1,
        [Call (LlmComplete (AgentCoordinator.routing_prompt document_tools function_tools query))])
  /\ (forall text selected,
        let tools := AgentCoordinator.all_tools document_tools function_tools in
        let named :=
          filter (fun idx => idx <? List.length tools)%nat
                 (map Py.int_of_digits (Py.findall_digits (Py.strip text))) in
        AgentCoordinator.select_indices document_tools function_tools query text
        = Ok selected ->
        named <> [] ->
        selected = AgentCoordinator.sorted_set named)
  /\ (forall text,
        let tools := AgentCoordinator.all_tools document_tools function_tools in
        let runs := Py.findall_digits (Py.strip text) in
        Forall (fun x => String.length x <= max_str_digits) runs ->
        filter (fun idx => idx <? List.length tools)%nat (map Py.int_of_digits runs) = [] ->
        AgentCoordinator.select_indices document_tools function_tools query text
        = Ok (AgentCoordinator.sorted_set
                (AgentCoordinator.fallback_from 0
                   (map (fun entry => fst (fst entry)) tools) (Py.lower query))))
  /\ (forall text (w' w'' : W),
        let prompt := AgentCoordinator.routing_prompt document_tools function_tools query in
        h _ (LlmComplete prompt) w' = (Ok text, w'') ->
        Exists (fun x => max_str_digits < String.length x)
               (Py.findall_digits (Py.strip text)) ->
        run h (AgentCoordinator._route_query literal_eval document_tools function_tools
                 query) w'
        = ([], w'', [Call (LlmComplete prompt)])).
Proof.
  intros Hraise.
  assert (Hroute :
    run h (AgentCoordinator._route_query literal_eval document_tools function_tools query) w
    = ([], w1,
       [Call (LlmComplete (AgentCoordinator.routing_prompt document_tools function_tools query))])).
  { unfold AgentCoordinator._route_query, trigger. cbn [bind run].
    rewrite Hraise. reflexivity. }
  split; [exact Hroute|]. split; [|split; [|split]].
  - unfold AgentCoordinator.query. rewrite run_bind, Hroute. reflexivity.
  - intros text selected tools named Hselected Hnamed.
    pose proof (select_indices_cases document_tools function_tools query text) as Hcases.
    cbv zeta in Hcases. rewrite Hselected in Hcases. destruct Hcases as [_ ->].
    fold tools. fold named. destruct named; [contradiction Hnamed|]; reflexivity.
  - intros text tools runs Hshort Hnone.
    unfold AgentCoordinator.select_indices. fold runs.
    rewrite (ints_short runs Hshort). fold tools. rewrite Hnone. reflexivity.
  - intros text w' w'' prompt Hanswer Hlong.
    pose proof (select_indices_cases document_tools function_tools query text) as Hcases.
    cbv zeta in Hcases.
    unfold AgentCoordinator._route_query, trigger. cbn [bind run].
    fold prompt. rewrite Hanswer.
    destruct (AgentCoordinator.select_indices document_tools function_tools query text)
      as [selected | e']; [|reflexivity].
    exfalso. destruct Hcases as [Hshort _].
    apply Exists_exists in Hlong as (x & Hx & Hlen).
    rewrite Forall_forall in Hshort. specialize (Hshort x Hx). lia.
Qed.

Lemma routing_failure_gives_empty_result_witness :
  run offline
      (AgentCoordinator.query Catalog.literal_eval Catalog.document_tools
         (Catalog.function_tools Catalog.literal_eval "") "what is Tesla's current price") tt
  = (AgentCoordinator.unable_message, tt,
     [Call (LlmComplete
              (AgentCoordinator.routing_prompt Catalog.document_tools
                 (Catalog.function_tools Catalog.literal_eval "")
                 "what is Tesla's current price"))]).
Proof.
  refine (proj1 (proj2 (routing_failure_gives_empty_result
                          Catalog.literal_eval Catalog.document_tools
                          (Catalog.function_tools Catalog.literal_eval "")
                          unit offline "what is Tesla's current price" tt tt
                          "Connection error." _))).
  reflexivity.
Defined.

(** ** Execution of the selected tools *)

Section Execution.

Variable literal_eval : string -> outcome literal.
Variable document_tools : list DocumentTool.
Variable function_tools : list FunctionTool.
Variable W : Type.
Variable h : handler W.

Let execute_tools := AgentCoordinator.execute_tools literal_eval document_tools function_tools.
Let execute_tool := AgentCoordinator.execute_tool literal_eval function_tools.
Let invoke_tool := AgentCoordinator.invoke_tool literal_eval function_tools.



Lemma execute_tools_cons (query : string) (idx : nat) (rest : list nat) (w : W) :
  run h (execute_tools query (idx :: rest)) w =
  let '(appended, w1, t1) :=
    run h (match nth_error (AgentCoordinator.all_tools document_tools function_tools) idx with
           | Some entry => execute_tool query entry
           | None => Ret []
           end) w in
  let '(results, w2, t2) := run h (execute_tools query rest) w1 in
  ((appended ++ results)%list, w2, (t1 ++ t2)%list).
Proof.
  unfold execute_tools. cbn [AgentCoordinator.execute_tools].
  rewrite run_bind.
  destruct (run h _ w) as [[appended w1] t1].
  rewrite run_bind.
  destruct (run h _ w1) as [[results w2] t2].
  cbn. rewrite app_nil_r. reflexivity.
Qed.


End Execution.



(** ** The answer of [query] *)

(** C7. When routing yields exactly one tool result, [query] returns the text
    of that result as it is, and makes no call beyond those of the routing:
    the world and the list of calls are those of [_route_query]. *)
Theorem single_result_is_returned_verbatim
        (literal_eval : string -> outcome literal)
        (document_tools : list DocumentTool) (function_tools : list FunctionTool)
        (W : Type) (h : handler W) (question : string) (w w1 : W)
        (tool_name tool_desc result : string) (calls : list call) :
  run h (AgentCoordinator._route_query literal_eval document_tools function_tools question) w
  = ([(tool_name, tool_desc, result)], w1, calls) ->
  run h (AgentCoordinator.query literal_eval document_tools function_tools question) w
  = (result, w1, calls).
Proof.
  intros Hroute. unfold AgentCoordinator.query.
  rewrite run_bind, Hroute. cbn. rewrite app_nil_r. reflexivity.
Qed.

Lemma single_result_is_returned_verbatim_witness :
  run market_only
      (AgentCoordinator.query Catalog.literal_eval Catalog.document_tools
         (Catalog.function_tools Catalog.literal_eval "") "what is Tesla's current price") tt
  = ("answer of finance_market_search_tool", tt,
     [Call (LlmComplete
              (AgentCoordinator.routing_prompt Catalog.document_tools
                 (Catalog.function_tools Catalog.literal_eval "")
                 "what is Tesla's current price"));
      Call (Invoke "finance_market_search_tool" "what is Tesla's current price")]).
Proof.
  apply (single_result_is_returned_verbatim
           Catalog.literal_eval Catalog.document_tools
           (Catalog.function_tools Catalog.literal_eval "") unit market_only
           "what is Tesla's current price" tt tt
           "finance_market_search_tool" (fn_description Catalog.market_tool)).
  reflexivity.
Defined.

(** ** The calls of the database tool *)

Lemma startswith_append (sub rest : string) : Py.startswith sub (sub ++ rest) = true.
Proof.
  induction sub as [|c sub IH]; simpl.
  - reflexivity.
  - rewrite Ascii.eqb_refl. exact IH.
Qed.

Lemma contains_of_startswith (sub s : string) :
  Py.startswith sub s = true -> Py.contains sub s = true.
Proof. intros Hpre. destruct s; simpl; rewrite Hpre; reflexivity. Qed.

Lemma contains_here (sub rest : string) : Py.contains sub (sub ++ rest) = true.
Proof. apply contains_of_startswith, startswith_append. Qed.

Lemma contains_later (sub before s : string) :
  Py.contains sub s = true -> Py.contains sub (before ++ s) = true.
Proof.
  intros Hs. induction before as [|c before IH]; simpl.
  - exact Hs.
  - rewrite IH. destruct (Py.startswith sub (String c (before ++ s))); reflexivity.
Qed.

Lemma contains_empty (s : string) : Py.contains "" s = true.
Proof. destruct s; reflexivity. Qed.

Lemma startswith_before (sub s rest : string) :
  Py.startswith sub s = true -> Py.startswith sub (s ++ rest) = true.
Proof.
  revert s; induction sub as [|c sub IH]; intros s Hs; simpl.
  - reflexivity.
  - destruct s as [|d s]; simpl in *; [discriminate|].
    apply andb_true_iff in Hs as [-> Hs]. simpl. apply IH, Hs.
Qed.

Lemma contains_before (sub s rest : string) :
  Py.contains sub s = true -> Py.contains sub (s ++ rest) = true.
Proof.
  induction s as [|c s IH]; intros Hs.
  - simpl in Hs. destruct (Py.startswith sub "") eqn:Hpre; [|discriminate].
    apply contains_of_startswith.
    apply (startswith_before sub "" rest Hpre).
  - cbn [Py.contains] in Hs.
    destruct (Py.startswith sub (String c s)) eqn:Hpre.
    + apply contains_of_startswith.
      apply (startswith_before sub (String c s) rest Hpre).
    + change (String c s ++ rest) with (String c (s ++ rest)).
      cbn [Py.contains]. rewrite (IH Hs).
      destruct (Py.startswith sub (String c (s ++ rest))); reflexivity.
Qed.

Lemma run_generate_sql (db_schema : string) (W : Type) (h : handler W)
      (query : string) (context : option string) (w : W) :
  exists sql w1,
    run h (FunctionTools.generate_sql db_schema query context) w
    = (sql, w1, [Call (LlmComplete (FunctionTools.sql_prompt db_schema query context))]).
Proof.
  unfold FunctionTools.generate_sql, trigger. cbn [bind run].
  destruct (h _ (LlmComplete (FunctionTools.sql_prompt db_schema query context)) w)
    as [[text | e] w1]; cbn; eauto.
Qed.

Lemma run_execute_sql (W : Type) (h : handler W) (sql : string) (w : W) :
  exists answer w1,
    run h (FunctionTools.execute_sql sql) w = (answer, w1, [Call (SqlExecute sql)]).
Proof.
  unfold FunctionTools.execute_sql, trigger. cbn [bind run].
  destruct (h _ (SqlExecute sql) w) as [[t | e] w1]; cbn; eauto.
  destruct (FunctionTools.fill_rows (columns t) (fetched t)); cbn; eauto.
Qed.

(** ** Replacing a value by its mask *)

Lemma append_empty_r (s : string) : s ++ "" = s.
Proof. induction s as [|c s IH]; simpl; [|rewrite IH]; reflexivity. Qed.

Lemma append_assoc (a b c : string) : (a ++ b) ++ c = a ++ b ++ c.
Proof. induction a as [|x a IH]; simpl; [|rewrite IH]; reflexivity. Qed.

Lemma length_append (a b : string) :
  String.length (a ++ b) = String.length a + String.length b.
Proof. induction a as [|x a IH]; simpl; [|rewrite IH]; reflexivity. Qed.

Lemma startswith_split (p s : string) :
  Py.startswith p s = true -> exists rest, s = p ++ rest.
Proof.
  revert s; induction p as [|a p IH]; intros s Hs; simpl in *.
  - exists s; reflexivity.
  - destruct s as [|b s]; [discriminate|].
    apply andb_true_iff in Hs as [Hab Hs].
    apply Ascii.eqb_eq in Hab as ->.
    destruct (IH s Hs) as [rest ->]. exists rest; reflexivity.
Qed.

Lemma replace_from_skip (old new u rest : string) :
  Py.replace_from old new (String.length u) (u ++ rest)
  = Py.replace_from old new 0 rest.
Proof.
  induction u as [|c u IH]; simpl.
  - destruct rest; reflexivity.
  - exact IH.
Qed.

Lemma replace_from_hit (new rest : string) (c : ascii) (t : string) :
  Py.replace_from (String c t) new 0 (String c t ++ rest)
  = new ++ Py.replace_from (String c t) new 0 rest.
Proof.
  change (String c t ++ rest) with (String c (t ++ rest)).
  cbn [Py.replace_from].
  change (String c (t ++ rest)) with (String c t ++ rest).
  rewrite startswith_append.
  replace (String.length (String c t) - 1) with (String.length t) by (simpl; lia).
  rewrite replace_from_skip. reflexivity.
Qed.

(** When the first occurrence of [old] in [before ++ old] is the one at the
    end, [replace] rewrites just that one. *)
Lemma replace_at_end (old new before : string) :
  old <> "" ->
  Py.find old (before ++ old) = Some (String.length before) ->
  Py.replace old new (before ++ old) = before ++ new.
Proof.
  intros Hne. destruct old as [|c t]; [contradiction|].
  unfold Py.replace.
  induction before as [|a before IH]; intros Hfind.
  - cbn [append].
    rewrite <- (append_empty_r (String c t)) at 2.
    rewrite replace_from_hit. cbn. apply append_empty_r.
  - change (String a before ++ String c t) with (String a (before ++ String c t)) in *.
    cbn [Py.find String.length] in Hfind.
    cbn [Py.replace_from].
    destruct (Py.startswith (String c t) (String a (before ++ String c t)));
      [discriminate|].
    destruct (Py.find (String c t) (before ++ String c t)) as [n|]; [|discriminate].
    cbn in Hfind. injection Hfind as ->.
    rewrite (IH eq_refl). reflexivity.
Qed.

Lemma interleave_empty (s : string) : Py.interleave "" s = s.
Proof. induction s as [|c s IH]; cbn; [|rewrite IH]; reflexivity. Qed.

Lemma replace_from_same (c : ascii) (t : string) (n : nat) :
  forall s, String.length s <= n ->
            Py.replace_from (String c t) (String c t) 0 s = s.
Proof.
  induction n as [|n IH]; intros s Hlen.
  - destruct s; [reflexivity | simpl in Hlen; lia].
  - destruct s as [|a s]; [reflexivity|].
    cbn [Py.replace_from].
    destruct (Py.startswith (String c t) (String a s)) eqn:Hpre.
    + destruct (startswith_split _ _ Hpre) as [rest Hrest].
      change (String c t ++ rest) with (String c (t ++ rest)) in Hrest.
      injection Hrest as -> ->.
      replace (String.length (String c t) - 1) with (String.length t)
        by (simpl; lia).
      rewrite replace_from_skip.
      rewrite IH; [reflexivity|].
      simpl in Hlen. rewrite length_append in Hlen. lia.
    + rewrite IH; [reflexivity | simpl in Hlen; lia].
Qed.

(** Replacing a text by itself changes nothing. *)
Lemma replace_same (old s : string) : Py.replace old old s = s.
Proof.
  destruct old as [|c t]; cbn [Py.replace].
  - apply interleave_empty.
  - apply (replace_from_same _ _ (String.length s)). lia.
Qed.

(** ** Trimmed texts *)

Lemma lstrip_head (s : string) :
  match Py.lstrip s with
  | "" => True
  | String c _ => Py.is_space c = false
  end.
Proof.
  induction s as [|c s IH]; simpl; [exact I|].
  destruct (Py.is_space c) eqn:Hc; [exact IH | exact Hc].
Qed.

Lemma rstrip_keeps_head (c : ascii) (t : string) :
  Py.is_space c = false -> exists t', Py.rstrip (String c t) = String c t'.
Proof.
  intros Hc. cbn [Py.rstrip]. rewrite Hc.
  destruct (Py.rstrip t); eauto.
Qed.

Lemma strip_fixed_head (c : ascii) (t : string) :
  Py.strip (String c t) = String c t -> Py.is_space c = false.
Proof.
  unfold Py.strip. intros Hfix.
  pose proof (lstrip_head (String c t)) as Hhead.
  destruct (Py.lstrip (String c t)) as [|d u]; [discriminate Hfix|].
  destruct (rstrip_keeps_head d u Hhead) as [u' Hu].
  rewrite Hu in Hfix. injection Hfix as -> _. exact Hhead.
Qed.

Lemma strip_fixed_lstrip (v : string) : Py.strip v = v -> Py.lstrip v = v.
Proof.
  destruct v as [|c t]; [reflexivity|].
  intros Hfix. simpl. rewrite (strip_fixed_head c t Hfix). reflexivity.
Qed.

Lemma strip_fixed_rstrip (v : string) : Py.strip v = v -> Py.rstrip v = v.
Proof.
  intros Hfix. pose proof (strip_fixed_lstrip v Hfix) as Hl.
  unfold Py.strip in Hfix. rewrite Hl in Hfix. exact Hfix.
Qed.

Lemma strip_of_parts (v : string) : Py.lstrip v = v -> Py.rstrip v = v -> Py.strip v = v.
Proof. intros Hl Hr. unfold Py.strip. rewrite Hl. exact Hr. Qed.

Lemma strip_after_space (s : string) : Py.strip (String " " s) = Py.strip s.
Proof. reflexivity. Qed.

Lemma rstrip_cons (c : ascii) (t : string) :
  Py.rstrip t = t -> t <> "" -> Py.rstrip (String c t) = String c t.
Proof.
  intros Ht Hne. cbn [Py.rstrip]. rewrite Ht.
  destruct t; [contradiction | reflexivity].
Qed.

Lemma rstrip_last (c : ascii) :
  Py.is_space c = false -> Py.rstrip (String c "") = String c "".
Proof. intros Hc. cbn. rewrite Hc. reflexivity. Qed.

Lemma append_nonempty_r (a t : string) : t <> "" -> a ++ t <> "".
Proof. destruct a; simpl; [auto | discriminate]. Qed.

Lemma rstrip_append (a t : string) :
  Py.rstrip t = t -> t <> "" -> Py.rstrip (a ++ t) = a ++ t.
Proof.
  intros Ht Hne. induction a as [|c a IH]; simpl; [exact Ht|].
  apply rstrip_cons; [exact IH | apply append_nonempty_r, Hne].
Qed.

Lemma rstrip_suffix (a t : string) :
  Py.rstrip (a ++ t) = a ++ t -> t <> "" -> Py.rstrip t = t.
Proof.
  intros Hfix Hne. induction a as [|c a IH]; simpl in *; [exact Hfix|].
  apply IH.
  destruct (Py.rstrip (a ++ t)) as [|d u] eqn:Hr.
  - exfalso. apply (append_nonempty_r a t Hne).
    destruct (Py.is_space c); [discriminate Hfix|].
    injection Hfix as <-. reflexivity.
  - injection Hfix as <-. reflexivity.
Qed.

Lemma rstrip_no_space (s : string) :
  forallb (fun c => negb (Py.is_space c)) (list_ascii_of_string s) = true ->
  Py.rstrip s = s.
Proof.
  induction s as [|c s IH]; simpl; [reflexivity|].
  intros Hall. apply andb_true_iff in Hall as [Hc Hs].
  apply negb_true_iff in Hc.
  rewrite (IH Hs). destruct s; [rewrite Hc|]; reflexivity.
Qed.

(** ** Stars, digits and slices *)

Lemma length_times (c : ascii) (n : nat) : String.length (Py.times c n) = n.
Proof. induction n as [|n IH]; simpl; [|rewrite IH]; reflexivity. Qed.

Lemma rstrip_stars (n : nat) : Py.rstrip (Py.times "*" n) = Py.times "*" n.
Proof.
  apply rstrip_no_space.
  induction n as [|n IH]; simpl; [reflexivity | exact IH].
Qed.

Lemma stars_nonempty (n : nat) : 0 < n -> Py.times "*" n <> "".
Proof. destruct n; [lia | discriminate]. Qed.

Lemma mask_stars_fixed (n : nat) :
  0 < n -> n <= 4 ->
  Py.times "*" (Nat.min (String.length (Py.times "*" n)) 4) = Py.times "*" n.
Proof. intros Hpos Hle. rewrite length_times, Nat.min_l by exact Hle. reflexivity. Qed.

Lemma only_digits_all (s : string) : all_digits (Py.only_digits s) = true.
Proof.
  induction s as [|c s IH]; simpl; [reflexivity|].
  destruct (Py.is_digit c) eqn:Hc; [|exact IH].
  unfold all_digits. simpl. rewrite Hc. exact IH.
Qed.

Lemma only_digits_fixed (s : string) : all_digits s = true -> Py.only_digits s = s.
Proof.
  unfold all_digits. induction s as [|c s IH]; simpl; [reflexivity|].
  intros Hall. apply andb_true_iff in Hall as [Hc Hs].
  rewrite Hc, (IH Hs). reflexivity.
Qed.

Lemma only_digits_append (a b : string) :
  Py.only_digits (a ++ b) = Py.only_digits a ++ Py.only_digits b.
Proof.
  induction a as [|c a IH]; simpl; [reflexivity|].
  destruct (Py.is_digit c); simpl; rewrite IH; reflexivity.
Qed.

Lemma all_digits_drop (n : nat) (s : string) :
  all_digits s = true -> all_digits (Py.drop n s) = true.
Proof.
  unfold all_digits. revert s; induction n as [|n IH]; intros s Hs.
  - destruct s; exact Hs.
  - destruct s as [|c s]; [exact Hs|]. simpl in *.
    apply andb_true_iff in Hs as [_ Hs]. apply IH, Hs.
Qed.

Lemma length_drop (n : nat) (s : string) :
  String.length (Py.drop n s) = String.length s - n.
Proof.
  revert s; induction n as [|n IH]; intros s.
  - destruct s; simpl; lia.
  - destruct s as [|c s]; simpl; [reflexivity | apply IH].
Qed.

Lemma digit_not_space (c : ascii) : Py.is_digit c = true -> Py.is_space c = false.
Proof.
  unfold Py.is_digit, Py.is_space. intros Hd.
  apply andb_true_iff in Hd as [Hlo Hhi].
  apply Nat.leb_le in Hlo. apply Nat.leb_le in Hhi.
  apply orb_false_iff; split; apply andb_false_iff.
  - right. apply Nat.leb_gt. lia.
  - right. apply Nat.leb_gt. lia.
Qed.

Lemma all_digits_rstrip (s : string) : all_digits s = true -> Py.rstrip s = s.
Proof.
  intros Hall. apply rstrip_no_space.
  unfold all_digits in Hall. induction s as [|c s IH]; simpl in *; [reflexivity|].
  apply andb_true_iff in Hall as [Hc Hs].
  rewrite (digit_not_space c Hc), (IH Hs). reflexivity.
Qed.

(** The last four digits, kept by the phone and SSN masks. *)
Lemma last_four (digits : string) :
  all_digits digits = true -> 4 <= String.length digits ->
  let kept := Py.last_chars 4 digits in
  all_digits kept = true /\ String.length kept = 4 /\ Py.last_chars 4 kept = kept.
Proof.
  intros Hall Hlen kept. unfold kept, Py.last_chars.
  split; [apply all_digits_drop, Hall|].
  split; [rewrite length_drop; lia|].
  rewrite length_drop.
  replace (String.length digits - (String.length digits - 4) - 4) with 0 by lia.
  destruct (Py.drop _ digits); reflexivity.
Qed.

Lemma length_take (n : nat) (s : string) :
  n <= String.length s -> String.length (Py.take n s) = n.
Proof.
  revert s; induction n as [|n IH]; intros s Hlen.
  - destruct s; reflexivity.
  - destruct s as [|c s]; simpl in *; [lia|]. rewrite IH; [reflexivity | lia].
Qed.

Lemma take_take_append (n : nat) (s rest : string) :
  n <= String.length s -> Py.take n (Py.take n s ++ rest) = Py.take n s.
Proof.
  revert s; induction n as [|n IH]; intros s Hlen.
  - destruct s; simpl; destruct rest; reflexivity.
  - destruct s as [|c s]; simpl in *; [lia|]. rewrite IH; [reflexivity | lia].
Qed.

(** ** Splitting at a character *)

Lemma split_nonempty (sep : ascii) (s : string) : Py.split sep s <> [].
Proof.
  destruct s as [|c s]; simpl; [discriminate|].
  destruct (Ascii.eqb c sep); [discriminate|].
  destruct (Py.split sep s); discriminate.
Qed.

Lemma split_single (sep : ascii) (s d : string) : Py.split sep s = [d] -> s = d.
Proof.
  revert d; induction s as [|c s IH]; intros d Hs; simpl in Hs.
  - injection Hs as <-. reflexivity.
  - destruct (Ascii.eqb c sep).
    + injection Hs as _ Hs. destruct (split_nonempty sep s Hs).
    + destruct (Py.split sep s) as [|h r] eqn:Hsplit; [injection Hs as <-|].
      * destruct (split_nonempty sep s Hsplit).
      * injection Hs as <- ->. rewrite (IH h eq_refl). reflexivity.
Qed.

Lemma split_two (sep : ascii) (s a d : string) :
  Py.split sep s = [a; d] -> s = a ++ String sep d /\ Py.split sep d = [d].
Proof.
  revert a; induction s as [|c s IH]; intros a Hs; simpl in Hs; [discriminate|].
  destruct (Ascii.eqb c sep) eqn:Hc.
  - injection Hs as <- Hs. apply Ascii.eqb_eq in Hc as ->.
    pose proof (split_single sep s d Hs) as ->.
    split; [reflexivity | exact Hs].
  - destruct (Py.split sep s) as [|h r] eqn:Hsplit; [discriminate|].
    injection Hs as <- ->.
    destruct (IH h eq_refl) as [-> Hd]. split; [reflexivity | exact Hd].
Qed.

(** ** The mask of a value, category by category *)

Section MaskBranches.

Variable field_name : string.
Let field_lower := Py.lower field_name.

Lemma nonempty_eqb (v : string) : v <> "" -> (v =? "") = false.
Proof. intros Hne. apply String.eqb_neq, Hne. Qed.

Lemma mask_email (v : string) :
  v <> "" -> Py.contains "email" field_lower = true ->
  FunctionTools.mask_field_value field_name v =
  if Py.contains "@" v
  then match Py.split "@" v with
       | [_; domain] => "***@" ++ domain
       | _ => "***"
       end
  else "***".
Proof.
  intros Hne He. unfold FunctionTools.mask_field_value.
  rewrite (nonempty_eqb v Hne). fold field_lower. rewrite He. reflexivity.
Qed.

Lemma mask_phone (v : string) :
  v <> "" -> Py.contains "email" field_lower = false ->
  Py.contains "phone" field_lower || Py.contains "telephone" field_lower = true ->
  FunctionTools.mask_field_value field_name v =
  if (4 <=? String.length (Py.only_digits v))%nat
  then "***-***-" ++ Py.last_chars 4 (Py.only_digits v)
  else "***-***-****".
Proof.
  intros Hne He Hp. unfold FunctionTools.mask_field_value.
  rewrite (nonempty_eqb v Hne). fold field_lower. rewrite He, Hp. reflexivity.
Qed.

Lemma mask_name (v : string) :
  v <> "" -> Py.contains "email" field_lower = false ->
  Py.contains "phone" field_lower || Py.contains "telephone" field_lower = false ->
  Py.contains "name" field_lower = true ->
  FunctionTools.mask_field_value field_name v =
  Py.times "*" (Nat.min (String.length v) 4).
Proof.
  intros Hne He Hp Hn. unfold FunctionTools.mask_field_value.
  rewrite (nonempty_eqb v Hne). fold field_lower. rewrite He, Hp, Hn.
  destruct v; [contradiction | reflexivity].
Qed.

Lemma mask_address (v : string) :
  v <> "" -> Py.contains "email" field_lower = false ->
  Py.contains "phone" field_lower || Py.contains "telephone" field_lower = false ->
  Py.contains "name" field_lower = false ->
  Py.contains "address" field_lower = true ->
  FunctionTools.mask_field_value field_name v =
  if (5 <? String.length v)%nat
  then Py.take 2 v ++ Py.times "*" (String.length v - 2)
  else "***".
Proof.
  intros Hne He Hp Hn Ha. unfold FunctionTools.mask_field_value.
  rewrite (nonempty_eqb v Hne). fold field_lower. rewrite He, Hp, Hn, Ha. reflexivity.
Qed.

Lemma mask_ssn (v : string) :
  v <> "" -> Py.contains "email" field_lower = false ->
  Py.contains "phone" field_lower || Py.contains "telephone" field_lower = false ->
  Py.contains "name" field_lower = false ->
  Py.contains "address" field_lower = false ->
  Py.contains "ssn" field_lower || Py.contains "social" field_lower = true ->
  FunctionTools.mask_field_value field_name v =
  if (4 <=? String.length (Py.only_digits v))%nat
  then "***-**-" ++ Py.last_chars 4 (Py.only_digits v)
  else "***-**-****".
Proof.
  intros Hne He Hp Hn Ha Hs. unfold FunctionTools.mask_field_value.
  rewrite (nonempty_eqb v Hne). fold field_lower. rewrite He, Hp, Hn, Ha, Hs.
  reflexivity.
Qed.

Lemma mask_default (v : string) :
  v <> "" -> Py.contains "email" field_lower = false ->
  Py.contains "phone" field_lower || Py.contains "telephone" field_lower = false ->
  Py.contains "name" field_lower = false ->
  Py.contains "address" field_lower = false ->
  Py.contains "ssn" field_lower || Py.contains "social" field_lower = false ->
  FunctionTools.mask_field_value field_name v =
  Py.times "*" (Nat.min (String.length v) 4).
Proof.
  intros Hne He Hp Hn Ha Hs. unfold FunctionTools.mask_field_value.
  rewrite (nonempty_eqb v Hne). fold field_lower. rewrite He, Hp, Hn, Ha, Hs.
  destruct v; [contradiction | reflexivity].
Qed.

Lemma stars_settled (v : string) :
  v <> "" ->
  (forall u, u <> "" ->
     FunctionTools.mask_field_value field_name u
     = Py.times "*" (Nat.min (String.length u) 4)) ->
  settled field_name (Py.times "*" (Nat.min (String.length v) 4)).
Proof.
  intros Hne Hmask.
  assert (Hpos : 0 < Nat.min (String.length v) 4).
  { destruct v; [contradiction | simpl; lia]. }
  pose proof (stars_nonempty _ Hpos) as Hstars.
  split; [exact Hstars|]. split.
  - apply strip_of_parts; [|apply rstrip_stars].
    destruct (Nat.min (String.length v) 4); [lia | reflexivity].
  - rewrite (Hmask _ Hstars). apply mask_stars_fixed; lia.
Qed.

Lemma digits_settled (lead : string) (v : string) :
  Py.only_digits lead = "" -> Py.lstrip lead = lead -> lead <> "" ->
  (forall u, u <> "" ->
     FunctionTools.mask_field_value field_name u
     = if (4 <=? String.length (Py.only_digits u))%nat
       then lead ++ Py.last_chars 4 (Py.only_digits u)
       else lead ++ "****") ->
  settled field_name (if (4 <=? String.length (Py.only_digits v))%nat
           then lead ++ Py.last_chars 4 (Py.only_digits v)
           else lead ++ "****").
Proof.
  intros Hlead Hl Hne Hmask.
  assert (Hnon : forall rest, lead ++ rest <> "").
  { intros rest. destruct lead; [contradiction | discriminate]. }
  assert (Hlstrip : forall rest, Py.lstrip (lead ++ rest) = lead ++ rest).
  { intros rest. destruct lead as [|c lead]; [contradiction|].
    simpl in *. destruct (Py.is_space c); [|reflexivity].
    exfalso. assert (Hlen : String.length (Py.lstrip lead) <= String.length lead).
    { clear. induction lead as [|d lead IH]; simpl; [lia|].
      destruct (Py.is_space d); simpl; lia. }
    rewrite Hl in Hlen. simpl in Hlen. lia. }
  destruct (4 <=? String.length (Py.only_digits v))%nat eqn:Hlen.
  - apply Nat.leb_le in Hlen.
    destruct (last_four _ (only_digits_all v) Hlen) as (Hall & Hfour & Hkept).
    set (kept := Py.last_chars 4 (Py.only_digits v)) in *.
    split; [apply Hnon|]. split.
    + apply strip_of_parts; [apply Hlstrip|].
      apply rstrip_append; [apply all_digits_rstrip, Hall|].
      destruct kept; [discriminate Hfour | discriminate].
    + rewrite (Hmask _ (Hnon kept)).
      rewrite only_digits_append, Hlead, (only_digits_fixed kept Hall).
      cbn [append]. rewrite Hfour, Hkept. reflexivity.
  - split; [apply Hnon|]. split.
    + apply strip_of_parts; [apply Hlstrip|].
      apply rstrip_append; [reflexivity | discriminate].
    + rewrite (Hmask _ (Hnon "****")).
      rewrite only_digits_append, Hlead. reflexivity.
Qed.

(** C1 rests on this: the mask of a trimmed value that is not empty is
    settled, whatever the category of the field. *)
Lemma mask_settled (v : string) :
  v <> "" -> Py.strip v = v ->
  settled field_name (FunctionTools.mask_field_value field_name v).
Proof.
  intros Hne Hfix.
  destruct (Py.contains "email" field_lower) eqn:He.
  { rewrite (mask_email v Hne He).
    assert (Hplain : settled field_name "***").
    { split; [discriminate|]. split; [reflexivity|].
      rewrite mask_email by (discriminate || exact He). reflexivity. }
    destruct (Py.contains "@" v); [|exact Hplain].
    destruct (Py.split "@" v) as [|a [|d [|x r]]] eqn:Hsplit; try exact Hplain.
    destruct (split_two _ _ _ _ Hsplit) as [Hv Hd].
    split; [discriminate|]. split.
    - apply strip_of_parts; [reflexivity|].
      destruct d as [|c d]; [reflexivity|].
      apply (rstrip_append "***@"); [|discriminate].
      pose proof (strip_fixed_rstrip v Hfix) as Hr. rewrite Hv in Hr.
      apply (rstrip_suffix "@"); [|discriminate].
      apply (rstrip_suffix a); [exact Hr | discriminate].
    - rewrite mask_email by (discriminate || exact He).
      cbn. rewrite Hd. reflexivity. }
  destruct (Py.contains "phone" field_lower || Py.contains "telephone" field_lower) eqn:Hp.
  { rewrite (mask_phone v Hne He Hp).
    apply (digits_settled "***-***-"); try reflexivity; try discriminate.
    intros u Hu. apply (mask_phone u Hu He Hp). }
  destruct (Py.contains "name" field_lower) eqn:Hn.
  { rewrite (mask_name v Hne He Hp Hn).
    apply stars_settled; [exact Hne|].
    intros u Hu. apply (mask_name u Hu He Hp Hn). }
  destruct (Py.contains "address" field_lower) eqn:Ha.
  { rewrite (mask_address v Hne He Hp Hn Ha).
    destruct (5 <? String.length v)%nat eqn:Hlen.
    - apply Nat.ltb_lt in Hlen.
      set (m := Py.take 2 v ++ Py.times "*" (String.length v - 2)).
      assert (Hm : String.length m = String.length v).
      { unfold m. rewrite length_append, length_take, length_times; lia. }
      assert (Hmne : m <> "").
      { intros Hm0. rewrite Hm0 in Hm. simpl in Hm. lia. }
      split; [exact Hmne|]. split.
      + apply strip_of_parts.
        * destruct v as [|c [|d t]]; try (simpl in Hlen; lia).
          unfold m. simpl. rewrite (strip_fixed_head _ _ Hfix). reflexivity.
        * unfold m. apply rstrip_append; [apply rstrip_stars|].
          apply stars_nonempty. lia.
      + rewrite (mask_address m Hmne He Hp Hn Ha), Hm.
        apply Nat.ltb_lt in Hlen. rewrite Hlen.
        unfold m at 1. rewrite take_take_append by (apply Nat.ltb_lt in Hlen; lia).
        reflexivity.
    - split; [discriminate|]. split; [reflexivity|].
      rewrite mask_address by (discriminate || assumption). reflexivity. }
  destruct (Py.contains "ssn" field_lower || Py.contains "social" field_lower) eqn:Hs.
  { rewrite (mask_ssn v Hne He Hp Hn Ha Hs).
    apply (digits_settled "***-**-"); try reflexivity; try discriminate.
    intros u Hu. apply (mask_ssn u Hu He Hp Hn Ha Hs). }
  rewrite (mask_default v Hne He Hp Hn Ha Hs).
  apply stars_settled; [exact Hne|].
  intros u Hu. apply (mask_default u Hu He Hp Hn Ha Hs).
Qed.

End MaskBranches.

(** ** One line of the results *)

Lemma cell_line_label (c v : string) : cell_line c v = label c ++ v.
Proof.
  unfold cell_line, label. cbn [append].
  rewrite append_assoc. reflexivity.
Qed.

Lemma In_noted (c : string) (notice : list string) : In c (noted c notice).
Proof.
  unfold noted. destruct (set_mem string_dec c notice) eqn:Hmem.
  - apply (set_mem_correct1 string_dec), Hmem.
  - apply in_or_app; right; left; reflexivity.
Qed.

Lemma noted_keeps (c x : string) (notice : list string) :
  In x notice -> In x (noted c notice).
Proof.
  intros Hx. unfold noted. destruct (set_mem string_dec c notice); [exact Hx|].
  apply in_or_app; left; exact Hx.
Qed.

Lemma noted_twice (c : string) (notice : list string) :
  noted c (noted c notice) = noted c notice.
Proof.
  unfold noted at 1.
  rewrite (set_mem_correct2 string_dec _ _ (In_noted c notice)). reflexivity.
Qed.

Lemma no_char_head (sep a : ascii) (p : string) :
  Py.contains (String sep "") (String a p) = false ->
  Ascii.eqb a sep = false /\ Py.contains (String sep "") p = false.
Proof.
  cbn [Py.contains Py.startswith]. rewrite andb_true_r, Ascii.eqb_sym.
  destruct (Ascii.eqb a sep); [discriminate | auto].
Qed.

Lemma split1_at (sep : ascii) (p rest : string) :
  Py.contains (String sep "") p = false ->
  Py.split1 sep (p ++ String sep rest) = [p; rest].
Proof.
  induction p as [|a p IH]; intros Hno.
  - cbn. rewrite Ascii.eqb_refl. reflexivity.
  - apply no_char_head in Hno as [Ha Hp].
    change (String a p ++ String sep rest) with (String a (p ++ String sep rest)).
    cbn [Py.split1]. rewrite Ha, (IH Hp). reflexivity.
Qed.

Lemma split_no_sep (sep : ascii) (l : string) :
  Py.contains (String sep "") l = false -> Py.split sep l = [l].
Proof.
  induction l as [|a l IH]; intros Hno; [reflexivity|].
  apply no_char_head in Hno as [Ha Hl].
  cbn [Py.split]. rewrite Ha, (IH Hl). reflexivity.
Qed.

Lemma split_at (sep : ascii) (l rest : string) :
  Py.contains (String sep "") l = false ->
  Py.split sep (l ++ String sep rest) = l :: Py.split sep rest.
Proof.
  induction l as [|a l IH]; intros Hno.
  - cbn. rewrite Ascii.eqb_refl. reflexivity.
  - apply no_char_head in Hno as [Ha Hl].
    change (String a l ++ String sep rest) with (String a (l ++ String sep rest)).
    cbn [Py.split]. rewrite Ha, (IH Hl). reflexivity.
Qed.

Lemma split_join (lines : list string) :
  lines <> [] ->
  Forall (fun line => Py.contains Py.nl line = false) lines ->
  Py.split (Py.chr 10) (Py.join Py.nl lines) = lines.
Proof.
  intros Hne Hall. induction Hall as [|l rest Hl Hrest IH]; [contradiction|].
  destruct rest as [|l2 rest].
  - cbn. apply split_no_sep, Hl.
  - change (Py.join Py.nl (l :: l2 :: rest))
      with (l ++ String (Py.chr 10) (Py.join Py.nl (l2 :: rest))).
    rewrite (split_at _ _ _ Hl), IH by discriminate. reflexivity.
Qed.

Section CellLine.

Variable pii_fields : set string.
Variables c v : string.

Hypothesis c_flagged : set_mem string_dec c pii_fields = true.
Hypothesis c_trimmed : Py.strip c = c.
Hypothesis c_no_colon : Py.contains ":" c = false.
Hypothesis v_not_empty : v <> "".
Hypothesis v_trimmed : Py.strip v = v.
Hypothesis v_first : Py.find v (cell_line c v) = Some (String.length (label c)).

Let m := FunctionTools.mask_field_value c v.

Lemma contains_own_name (x : string) : Py.contains c (cell_line c x) = true.
Proof. unfold cell_line. apply contains_later, contains_here. Qed.

Lemma contains_colon (x : string) : Py.contains ":" (cell_line c x) = true.
Proof.
  unfold cell_line. do 2 apply contains_later.
  change (": " ++ x) with (":" ++ " " ++ x). apply contains_here.
Qed.

(** A turn of the loop over the columns on a cell line of [c]: the value is
    replaced by its mask and [c] is noted. *)
Lemma mask_step_cell (x col : string) (notice : list string) :
  Py.strip x = x ->
  Py.contains col (cell_line c x) = true ->
  FunctionTools.mask_step pii_fields (cell_line c x, notice) col
  = (Py.replace x (FunctionTools.mask_field_value c x) (cell_line c x), noted c notice).
Proof.
  intros Hx Hcol. unfold FunctionTools.mask_step. rewrite Hcol.
  change (cell_line c x) with (("  " ++ c) ++ String ":" (String " " x)) at 1.
  rewrite split1_at by exact c_no_colon.
  change (Py.strip ("  " ++ c)) with (Py.strip c).
  change (Py.strip (String " " x)) with (Py.strip x).
  rewrite c_trimmed, Hx, c_flagged. reflexivity.
Qed.

Lemma step_from_raw (col : string) (notice : list string) :
  FunctionTools.mask_step pii_fields (cell_line c v, notice) col
  = (if Py.contains col (cell_line c v)
     then (cell_line c m, noted c notice)
     else (cell_line c v, notice)).
Proof.
  destruct (Py.contains col (cell_line c v)) eqn:Hcol.
  - rewrite (mask_step_cell v col notice v_trimmed Hcol).
    rewrite (cell_line_label c v), replace_at_end, <- cell_line_label.
    + reflexivity.
    + exact v_not_empty.
    + rewrite <- cell_line_label. exact v_first.
  - unfold FunctionTools.mask_step. rewrite Hcol. reflexivity.
Qed.

Lemma step_from_masked (col : string) (notice : list string) :
  FunctionTools.mask_step pii_fields (cell_line c m, noted c notice) col
  = (cell_line c m, noted c notice).
Proof.
  destruct (mask_settled c v v_not_empty v_trimmed) as (_ & Hstrip & Hagain).
  fold m in Hstrip, Hagain.
  destruct (Py.contains col (cell_line c m)) eqn:Hcol.
  - rewrite (mask_step_cell m col _ Hstrip Hcol).
    rewrite Hagain, replace_same, noted_twice. reflexivity.
  - unfold FunctionTools.mask_step. rewrite Hcol. reflexivity.
Qed.

Lemma fold_from_masked (cols : list string) (notice : list string) :
  fold_left (FunctionTools.mask_step pii_fields) cols (cell_line c m, noted c notice)
  = (cell_line c m, noted c notice).
Proof.
  induction cols as [|col cols IH]; [reflexivity|].
  cbn [fold_left]. rewrite step_from_masked. exact IH.
Qed.

Lemma fold_from_raw (cols : list string) (notice : list string) :
  In c cols ->
  fold_left (FunctionTools.mask_step pii_fields) cols (cell_line c v, notice)
  = (cell_line c m, noted c notice).
Proof.
  induction cols as [|col cols IH]; intros Hin; [destruct Hin|].
  cbn [fold_left]. rewrite step_from_raw.
  destruct (Py.contains col (cell_line c v)) eqn:Hcol.
  - apply fold_from_masked.
  - apply IH. destruct Hin as [-> | Hin]; [|exact Hin].
    rewrite contains_own_name in Hcol. discriminate.
Qed.

(** The cell line of a flagged column comes out with the mask in the place
    of the value. *)
Lemma protect_cell_line (cols : list string) (notice : list string) :
  In c cols ->
  FunctionTools.protect_line cols pii_fields (cell_line c v) notice
  = (cell_line c m, noted c notice).
Proof.
  intros Hin. unfold FunctionTools.protect_line.
  rewrite contains_colon.
  replace (existsb (fun col => Py.contains col (cell_line c v)) cols) with true.
  - apply fold_from_raw, Hin.
  - symmetry. apply existsb_exists. exists c. split; [exact Hin|].
    apply contains_own_name.
Qed.

End CellLine.

(** ** All the lines *)

(** The line part of a turn does not depend on the notice, and the notice
    only grows. *)
Lemma mask_step_line (pii_fields : set string) (line col : string) (n1 n2 : list string) :
  fst (FunctionTools.mask_step pii_fields (line, n1) col)
  = fst (FunctionTools.mask_step pii_fields (line, n2) col).
Proof.
  unfold FunctionTools.mask_step.
  destruct (Py.contains col line); [|reflexivity].
  destruct (Py.split1 ":" line) as [|p0 [|p1 [|p2 r]]]; try reflexivity.
  destruct (set_mem string_dec (Py.strip p0) pii_fields); reflexivity.
Qed.

Lemma mask_step_grows (pii_fields : set string) (st : string * list string)
      (col x : string) :
  In x (snd st) -> In x (snd (FunctionTools.mask_step pii_fields st col)).
Proof.
  destruct st as [line notice]. unfold FunctionTools.mask_step. cbn [snd].
  intros Hx.
  destruct (Py.contains col line); [|exact Hx].
  destruct (Py.split1 ":" line) as [|p0 [|p1 [|p2 r]]]; try exact Hx.
  destruct (set_mem string_dec (Py.strip p0) pii_fields); [|exact Hx].
  cbn [snd]. apply (noted_keeps (Py.strip p0) x notice Hx).
Qed.

Lemma fold_mask_line (pii_fields : set string) (cols : list string) :
  forall line n1 n2,
    fst (fold_left (FunctionTools.mask_step pii_fields) cols (line, n1))
    = fst (fold_left (FunctionTools.mask_step pii_fields) cols (line, n2)).
Proof.
  induction cols as [|col cols IH]; intros line n1 n2; [reflexivity|].
  cbn [fold_left].
  pose proof (mask_step_line pii_fields line col n1 n2) as Hline.
  destruct (FunctionTools.mask_step pii_fields (line, n1) col) as [l1 m1].
  destruct (FunctionTools.mask_step pii_fields (line, n2) col) as [l2 m2].
  cbn [fst] in Hline. subst l2. apply IH.
Qed.

Lemma fold_mask_grows (pii_fields : set string) (cols : list string) (x : string) :
  forall st, In x (snd st) ->
             In x (snd (fold_left (FunctionTools.mask_step pii_fields) cols st)).
Proof.
  induction cols as [|col cols IH]; intros st Hx; [exact Hx|].
  cbn [fold_left]. apply IH, mask_step_grows, Hx.
Qed.

Lemma protect_line_line (cols : list string) (line : string) (notice : list string) :
  fst (FunctionTools.protect_line cols (FunctionTools.detect_pii_fields cols) line notice)
  = rewrite_line cols line.
Proof.
  unfold rewrite_line, FunctionTools.protect_line.
  destruct (Py.contains ":" line && existsb _ cols); [|reflexivity].
  apply fold_mask_line.
Qed.

Lemma protect_line_grows (cols : list string) (pii_fields : set string)
      (line x : string) (notice : list string) :
  In x notice -> In x (snd (FunctionTools.protect_line cols pii_fields line notice)).
Proof.
  intros Hx. unfold FunctionTools.protect_line.
  destruct (Py.contains ":" line && existsb _ cols); [|exact Hx].
  apply fold_mask_grows, Hx.
Qed.

Lemma protect_lines_fold (cols : list string) (lines : list string) :
  forall protected notice,
  exists notice',
    fold_left (FunctionTools.protect_lines_step cols (FunctionTools.detect_pii_fields cols))
              lines (protected, notice)
    = ((protected ++ map (rewrite_line cols) lines)%list, notice')
    /\ (forall x, In x notice -> In x notice').
Proof.
  induction lines as [|line lines IH]; intros protected notice.
  - exists notice. cbn. rewrite app_nil_r. auto.
  - cbn [fold_left map]. unfold FunctionTools.protect_lines_step at 2.
    pose proof (protect_line_line cols line notice) as Hline.
    pose proof (fun x => protect_line_grows cols
                  (FunctionTools.detect_pii_fields cols) line x notice) as Hgrow.
    destruct (FunctionTools.protect_line cols _ line notice) as [line' notice1].
    cbn [fst snd] in Hline, Hgrow. subst line'.
    destruct (IH (protected ++ [rewrite_line cols line])%list notice1)
      as (notice' & Hfold & Hkeep).
    exists notice'. rewrite Hfold, <- app_assoc. split; [reflexivity|].
    intros x Hx. apply Hkeep, Hgrow, Hx.
Qed.

(** The coordinator hands a flagged result to the PII tool it finds among the
    function tools, with the column list printed back as text. *)
Lemma coordinator_hands_over
      (literal_eval : string -> outcome literal) (function_tools : list FunctionTool)
      (tool_name result group1 : string) (cols : list string) :
  Py.contains "database_query_tool" tool_name = true ->
  Py.contains "COLUMNS:" result = true ->
  AgentCoordinator.search_columns result = Some group1 ->
  literal_eval (Py.strip group1) = Ok (LitNames cols) ->
  FunctionTools.detect_pii_fields cols <> [] ->
  List.find (fun tool => Py.contains "pii" (Py.lower (fn_name tool))) function_tools
  = Some (Catalog.pii_tool literal_eval) ->
  AgentCoordinator._check_and_apply_pii_protection literal_eval function_tools
    tool_name result
  = Ret (Ok (FunctionTools.pii_protection_tool literal_eval result
               (FunctionTools.ColumnsText (Py.repr_list cols)))).
Proof.
  intros Hname Hmark Hsearch Hparse Hpii Hfind.
  unfold AgentCoordinator._check_and_apply_pii_protection.
  rewrite Hname, Hmark, Hsearch, Hparse. cbn [negb].
  rewrite coordinator_detection.
  destruct cols as [|col cols]; [contradiction Hpii; reflexivity|].
  cbn [AgentCoordinator.falsy].
  destruct (FunctionTools.detect_pii_fields (col :: cols)); [contradiction|].
  rewrite Hfind. reflexivity.
Qed.

(** ** The text after masking, on the fourth scenario *)

(** The fourth scenario: the text of the database tool for the columns [id]
    and [phone], as the check of the coordinator returns it for that text. *)
Example phone_scenario :
  AgentCoordinator._check_and_apply_pii_protection Catalog.literal_eval
    (Catalog.function_tools Catalog.literal_eval "") "database_query_tool"
    (FunctionTools.format_result "SELECT id, phone FROM customers"
       (Some [[("id", "1"); ("phone", "555-123-4567")]]) (Some ["id"; "phone"]))
  = Ret (Ok ("SQL Query: SELECT id, phone FROM customers" ++ Py.nl ++ Py.nl
             ++ "COLUMNS: ['id', 'phone']" ++ Py.nl ++ Py.nl
             ++ "Database Results:" ++ Py.nl
             ++ "Row 1:" ++ Py.nl
             ++ "  id: 1" ++ Py.nl
             ++ "  phone: ***-***-4567" ++ Py.nl ++ Py.nl ++ Py.nl ++ Py.nl
             ++ "[PII Protection Applied] The following fields have been masked for privacy: phone")).
Proof. reflexivity. Qed.

(** ** When the column text cannot be read *)

(** C9, as stated, fails: on the malformed column text "[email" the PII tool
    returns the results unmasked and without any notice, and so does the
    check of the coordinator on a result whose COLUMNS line is malformed. *)
Lemma parse_failure_passes_without_notice :
  let data := "  email: bob@example.com" in
  let result := "COLUMNS: [email" ++ Py.nl ++ data in
  Catalog.literal_eval "[email" = Raise "invalid syntax"
  /\ FunctionTools.pii_protection_tool Catalog.literal_eval data
       (FunctionTools.ColumnsText "[email") = data
  /\ Py.contains "[PII Protection Error]" data = false
  /\ AgentCoordinator._check_and_apply_pii_protection Catalog.literal_eval
       (Catalog.function_tools Catalog.literal_eval "") "database_query_tool" result
     = Ret (Ok result)
  /\ Py.contains "[PII Protection Error]" result = false.
Proof. repeat split; reflexivity. Qed.

(** C9, amended. When [ast.literal_eval] raises on the column text, the PII
    tool attaches no notice: it goes on with the names recovered from the
    text, exactly as if it had been given that list, so that the results come
    back unchanged when none of these names is flagged. The notice
    "[PII Protection Error] Could not apply masking: ..." is appended to the
    unchanged results when an exception leaves the body of the tool, as it
    does when the text evaluates to a value that cannot be iterated. The
    coordinator returns its result unchanged when [ast.literal_eval] raises
    and no quoted name is found. *)
Theorem unreadable_columns
        (literal_eval : string -> outcome literal) (function_tools : list FunctionTool)
        (results s : string) :
  (forall e, literal_eval s = Raise e ->
     FunctionTools.pii_protection_tool literal_eval results (FunctionTools.ColumnsText s)
     = FunctionTools.pii_protection_tool literal_eval results
         (FunctionTools.ColumnsList (recovered_names s))
     /\ ((forall c, In c (recovered_names s) -> matches_lexicon c = false) ->
         FunctionTools.pii_protection_tool literal_eval results
           (FunctionTools.ColumnsText s) = results))
  /\ (forall truthy type_name, literal_eval s = Ok (LitScalar truthy type_name) ->
        FunctionTools.pii_protection_tool literal_eval results (FunctionTools.ColumnsText s)
        = results ++ FunctionTools.error_notice (not_iterable type_name))
  /\ (forall tool_name group1 e,
        AgentCoordinator.search_columns results = Some group1 ->
        literal_eval (Py.strip group1) = Raise e ->
        Py.findall_quoted (Py.chr 39) (Py.strip group1) = [] ->
        Py.findall_quoted (Py.chr 34) (Py.strip group1) = [] ->
        AgentCoordinator._check_and_apply_pii_protection literal_eval function_tools
          tool_name results = Ret (Ok results)).
Proof.
  split; [|split].
  - intros e Hraise.
    assert (Hsame :
      FunctionTools.pii_protection_tool literal_eval results (FunctionTools.ColumnsText s)
      = FunctionTools.pii_protection_tool literal_eval results
          (FunctionTools.ColumnsList (recovered_names s))).
    { unfold FunctionTools.pii_protection_tool, FunctionTools.pii_protection_body.
      cbn [FunctionTools.parse_columns]. rewrite Hraise.
      unfold recovered_names.
      destruct (Py.findall_quoted (Py.chr 39) s); [|reflexivity].
      destruct (Py.findall_quoted (Py.chr 34) s); reflexivity. }
    split; [exact Hsame|].
    intros Hno. rewrite Hsame.
    apply tool_unchanged_without_pii, detect_pii_fields_none, Hno.
  - intros truthy type_name Hscalar.
    unfold FunctionTools.pii_protection_tool, FunctionTools.pii_protection_body.
    cbn [FunctionTools.parse_columns]. rewrite Hscalar. reflexivity.
  - intros tool_name group1 e Hsearch Hraise Hsingle Hdouble.
    unfold AgentCoordinator._check_and_apply_pii_protection.
    destruct (negb (Py.contains "database_query_tool" tool_name)); [reflexivity|].
    destruct (negb (Py.contains "COLUMNS:" results)); [reflexivity|].
    rewrite Hsearch, Hraise, Hsingle, Hdouble. reflexivity.
Qed.

Lemma unreadable_columns_witness :
  (FunctionTools.pii_protection_tool Catalog.literal_eval "  id: 7"
     (FunctionTools.ColumnsText "[id, symbol")
   = FunctionTools.pii_protection_tool Catalog.literal_eval "  id: 7"
       (FunctionTools.ColumnsList ["[id"; "symbol"]))
  /\ FunctionTools.pii_protection_tool Catalog.literal_eval "  id: 7"
       (FunctionTools.ColumnsText "5")
     = "  id: 7" ++ FunctionTools.error_notice "'int' object is not iterable".
Proof.
  split.
  - refine (proj1 (proj1 (unreadable_columns Catalog.literal_eval [] "  id: 7"
                            "[id, symbol") "invalid syntax" _)).
    reflexivity.
  - refine (proj1 (proj2 (unreadable_columns Catalog.literal_eval [] "  id: 7" "5"))
              true "int" _).
    reflexivity.
Defined.

(** * Further properties of the two modules *)

(** ** Detection *)

Lemma detect_fold_in (names : list string) :
  forall (detected : set string) (c : string),
    set_In c (fold_left FunctionTools.detect_step names detected)
    <-> set_In c detected \/ (In c names /\ matches_lexicon c = true).
Proof.
  induction names as [|name rest IH]; intros detected c; cbn [fold_left].
  - split; [auto | intros [H | [[] _]]; exact H].
  - rewrite IH, detect_step_spec.
    destruct (matches_lexicon name) eqn:Hname.
    + split.
      * intros [Hadd | [Hin Hm]].
        -- apply set_add_elim in Hadd as [-> | Hc]; [right; split; [left; reflexivity | exact Hname] | left; exact Hc].
        -- right; split; [right; exact Hin | exact Hm].
      * intros [Hc | [[-> | Hin] Hm]].
        -- left. apply set_add_intro1, Hc.
        -- left. apply set_add_intro2. reflexivity.
        -- right. split; assumption.
    + split.
      * intros [Hc | [Hin Hm]]; [left; exact Hc | right; split; [right; exact Hin | exact Hm]].
      * intros [Hc | [[-> | Hin] Hm]]; [left; exact Hc | congruence | right; split; assumption].
Qed.

Lemma detect_fold_nodup (names : list string) :
  forall detected : set string,
    NoDup detected -> NoDup (fold_left FunctionTools.detect_step names detected).
Proof.
  induction names as [|name rest IH]; intros detected Hnodup; cbn [fold_left].
  - exact Hnodup.
  - apply IH. rewrite detect_step_spec.
    destruct (matches_lexicon name); [apply set_add_nodup|]; exact Hnodup.
Qed.

(** X1. The set returned by [detect_pii_fields] holds exactly the names of
    the list that match the lexicon, each once; [_detect_pii_fields] of the
    coordinator returns the same. *)
Theorem detect_pii_fields_exact (field_names : list string) :
  (forall c, In c (FunctionTools.detect_pii_fields field_names)
             <-> In c field_names /\ matches_lexicon c = true)
  /\ NoDup (FunctionTools.detect_pii_fields field_names)
  /\ AgentCoordinator._detect_pii_fields field_names
     = FunctionTools.detect_pii_fields field_names.
Proof.
  split; [|split].
  - intros c. unfold FunctionTools.detect_pii_fields.
    rewrite detect_fold_in. split; [intros [[] | H]; exact H | auto].
  - apply detect_fold_nodup. constructor.
  - apply coordinator_detection.
Qed.

(** ** The roots of the lexicon *)

Lemma contains_split (sub s : string) :
  Py.contains sub s = true -> exists before rest, s = before ++ sub ++ rest.
Proof.
  induction s as [|c s IH]; cbn [Py.contains]; intros Hs.
  - destruct (Py.startswith sub "") eqn:Hpre; [|discriminate].
    destruct (startswith_split _ _ Hpre) as [rest ->]. exists "", rest. reflexivity.
  - destruct (Py.startswith sub (String c s)) eqn:Hpre.
    + destruct (startswith_split _ _ Hpre) as [rest ->]. exists "", rest. reflexivity.
    + destruct (IH Hs) as (before & rest & ->).
      exists (String c before), rest. reflexivity.
Qed.

Lemma contains_trans (a b s : string) :
  Py.contains a b = true -> Py.contains b s = true -> Py.contains a s = true.
Proof.
  intros Hab Hbs.
  destruct (contains_split _ _ Hab) as (u & w & ->).
  destruct (contains_split _ _ Hbs) as (x & y & ->).
  apply contains_later. rewrite !append_assoc.
  apply contains_later, contains_here.
Qed.

Lemma contains_self (s : string) : Py.contains s s = true.
Proof. rewrite <- (append_empty_r s) at 2. apply contains_here. Qed.

(** X2. A name is flagged exactly when its lower-cased, trimmed form holds
    one of twelve roots: "email", "e_mail", "e-mail", "phone", "mobile",
    "cell", "contact_number", "name", "address", "ssn",
    "social_security_number", "tax_id". The exact match of the code adds
    nothing to the search for an entry inside the name. *)
Theorem lexicon_has_twelve_roots (name : string) :
  matches_lexicon name
  = existsb (fun root => Py.contains root (Py.strip (Py.lower name))) lexicon_roots.
Proof.
  unfold matches_lexicon.
  set (lowered := Py.strip (Py.lower name)).
  assert (Hroot_of : forall p, In p FunctionTools.pii_patterns ->
                               exists r, In r lexicon_roots /\ Py.contains r p = true).
  { assert (Hall : forallb (fun p => existsb (fun r => Py.contains r p) lexicon_roots)
                           FunctionTools.pii_patterns = true) by reflexivity.
    intros p Hp. rewrite forallb_forall in Hall.
    apply existsb_exists, Hall, Hp. }
  assert (Hroots_in : forall r, In r lexicon_roots -> In r FunctionTools.pii_patterns).
  { assert (Hall : forallb (fun r => set_mem string_dec r FunctionTools.pii_patterns)
                           lexicon_roots = true) by reflexivity.
    intros r Hr. rewrite forallb_forall in Hall.
    apply (set_mem_correct1 string_dec), Hall, Hr. }
  apply eq_true_iff_eq. rewrite orb_true_iff, !existsb_exists. split.
  - intros [Hexact | (p & Hp & Hin)].
    + apply (set_mem_correct1 string_dec) in Hexact.
      destruct (Hroot_of _ Hexact) as (r & Hr & Hrp). exists r. split; [exact Hr|exact Hrp].
    + destruct (Hroot_of _ Hp) as (r & Hr & Hrp). exists r. split; [exact Hr|].
      apply (contains_trans r p lowered Hrp Hin).
  - intros (r & Hr & Hin). right. exists r. split; [apply Hroots_in, Hr | exact Hin].
Qed.

(** ** Masking twice *)

Section MaskAgain.

Variable field_name : string.
Let field_lower := Py.lower field_name.

Lemma stars_again (v : string) :
  v <> "" ->
  (forall u, u <> "" ->
     FunctionTools.mask_field_value field_name u
     = Py.times "*" (Nat.min (String.length u) 4)) ->
  FunctionTools.mask_field_value field_name (Py.times "*" (Nat.min (String.length v) 4))
  = Py.times "*" (Nat.min (String.length v) 4).
Proof.
  intros Hne Hmask. exact (proj2 (proj2 (stars_settled field_name v Hne Hmask))).
Qed.

Lemma digits_again (lead v : string) :
  Py.only_digits lead = "" -> Py.lstrip lead = lead -> lead <> "" ->
  (forall u, u <> "" ->
     FunctionTools.mask_field_value field_name u
     = if (4 <=? String.length (Py.only_digits u))%nat
       then lead ++ Py.last_chars 4 (Py.only_digits u)
       else lead ++ "****") ->
  let m := if (4 <=? String.length (Py.only_digits v))%nat
           then lead ++ Py.last_chars 4 (Py.only_digits v)
           else lead ++ "****" in
  FunctionTools.mask_field_value field_name m = m.
Proof.
  intros Hlead Hl Hne Hmask m.
  exact (proj2 (proj2 (digits_settled field_name lead v Hlead Hl Hne Hmask))).
Qed.

(** Masking a mask gives it back, whatever the value. *)
Lemma mask_again (v : string) :
  FunctionTools.mask_field_value field_name (FunctionTools.mask_field_value field_name v)
  = FunctionTools.mask_field_value field_name v.
Proof.
  destruct (string_dec v "") as [-> | Hne]; [reflexivity|].
  destruct (Py.contains "email" field_lower) eqn:He.
  { rewrite (mask_email field_name v Hne He).
    assert (Hplain : FunctionTools.mask_field_value field_name "***" = "***").
    { rewrite mask_email by (discriminate || exact He). reflexivity. }
    destruct (Py.contains "@" v); [|exact Hplain].
    destruct (Py.split "@" v) as [|a [|d [|x r]]] eqn:Hsplit; try exact Hplain.
    destruct (split_two _ _ _ _ Hsplit) as [_ Hd].
    rewrite mask_email by (discriminate || exact He).
    cbn. rewrite Hd. reflexivity. }
  destruct (Py.contains "phone" field_lower || Py.contains "telephone" field_lower) eqn:Hp.
  { rewrite (mask_phone field_name v Hne He Hp).
    apply (digits_again "***-***-"); try reflexivity; try discriminate.
    intros u Hu. apply (mask_phone field_name u Hu He Hp). }
  destruct (Py.contains "name" field_lower) eqn:Hn.
  { rewrite (mask_name field_name v Hne He Hp Hn).
    apply stars_again; [exact Hne|].
    intros u Hu. apply (mask_name field_name u Hu He Hp Hn). }
  destruct (Py.contains "address" field_lower) eqn:Ha.
  { rewrite (mask_address field_name v Hne He Hp Hn Ha).
    destruct (5 <? String.length v)%nat eqn:Hlen.
    - set (m := Py.take 2 v ++ Py.times "*" (String.length v - 2)).
      apply Nat.ltb_lt in Hlen.
      assert (Hm : String.length m = String.length v).
      { unfold m. rewrite length_append, length_take, length_times; lia. }
      assert (Hmne : m <> "").
      { intros Hm0. rewrite Hm0 in Hm. simpl in Hm. lia. }
      rewrite (mask_address field_name m Hmne He Hp Hn Ha), Hm.
      apply Nat.ltb_lt in Hlen. rewrite Hlen.
      unfold m at 1. rewrite take_take_append by (apply Nat.ltb_lt in Hlen; lia).
      reflexivity.
    - rewrite mask_address by (discriminate || assumption). reflexivity. }
  destruct (Py.contains "ssn" field_lower || Py.contains "social" field_lower) eqn:Hs.
  { rewrite (mask_ssn field_name v Hne He Hp Hn Ha Hs).
    apply (digits_again "***-**-"); try reflexivity; try discriminate.
    intros u Hu. apply (mask_ssn field_name u Hu He Hp Hn Ha Hs). }
  rewrite (mask_default field_name v Hne He Hp Hn Ha Hs).
  apply stars_again; [exact Hne|].
  intros u Hu. apply (mask_default field_name u Hu He Hp Hn Ha Hs).
Qed.

End MaskAgain.

(** X3. [mask_field_value] is idempotent: for every field name and every
    value, masking the masked value again returns the masked value. *)
Theorem mask_field_value_idempotent (field_name value : string) :
  FunctionTools.mask_field_value field_name
    (FunctionTools.mask_field_value field_name value)
  = FunctionTools.mask_field_value field_name value.
Proof. apply mask_again. Qed.

(** ** The shape of the protected text *)

Lemma mask_step_unflagged (pii_fields : set string) (line col : string)
      (notice : list string) :
  (forall p0 p1, Py.split1 ":" line = [p0; p1] ->
                 set_mem string_dec (Py.strip p0) pii_fields = false) ->
  FunctionTools.mask_step pii_fields (line, notice) col = (line, notice).
Proof.
  intros Hlabel. unfold FunctionTools.mask_step.
  destruct (Py.contains col line); [|reflexivity].
  destruct (Py.split1 ":" line) as [|p0 [|p1 [|p2 r]]]; try reflexivity.
  rewrite (Hlabel p0 p1 eq_refl). reflexivity.
Qed.

Lemma protect_line_unflagged (cols : list string) (pii_fields : set string)
      (line : string) (notice : list string) :
  (forall p0 p1, Py.split1 ":" line = [p0; p1] ->
                 set_mem string_dec (Py.strip p0) pii_fields = false) ->
  FunctionTools.protect_line cols pii_fields line notice = (line, notice).
Proof.
  intros Hlabel. unfold FunctionTools.protect_line.
  destruct (Py.contains ":" line && existsb _ cols); [|reflexivity].
  induction cols as [|col cols IH]; [reflexivity|].
  cbn [fold_left]. rewrite (mask_step_unflagged _ _ _ _ Hlabel). exact IH.
Qed.

(** X4. A line whose text before the first colon, once trimmed, is not a
    flagged column comes out of the PII tool as it went in; so does a line
    without a colon. Only the lines labelled with a flagged column are
    rewritten. *)
Theorem unflagged_line_is_unchanged (cols : list string) (line : string) :
  (forall p0 p1, Py.split1 ":" line = [p0; p1] ->
                 ~ (In (Py.strip p0) cols /\ matches_lexicon (Py.strip p0) = true)) ->
  rewrite_line cols line = line.
Proof.
  intros Hlabel. unfold rewrite_line.
  rewrite protect_line_unflagged; [reflexivity|].
  intros p0 p1 Hsplit.
  destruct (set_mem string_dec (Py.strip p0) (FunctionTools.detect_pii_fields cols))
    eqn:Hmem; [|reflexivity].
  exfalso. apply (Hlabel p0 p1 Hsplit).
  apply (set_mem_correct1 string_dec) in Hmem.
  unfold FunctionTools.detect_pii_fields in Hmem.
  apply detect_fold_in in Hmem as [[] | H]. exact H.
Qed.

Lemma unflagged_line_is_unchanged_witness :
  rewrite_line ["id"; "email"] "  id: bob@example.com" = "  id: bob@example.com".
Proof.
  apply (unflagged_line_is_unchanged ["id"; "email"] "  id: bob@example.com").
  intros p0 p1 Hsplit [_ Hmatch].
  injection Hsplit as <- _. vm_compute in Hmatch. discriminate Hmatch.
Defined.

Lemma join_split (s : string) : Py.join Py.nl (Py.split (Py.chr 10) s) = s.
Proof.
  induction s as [|c s IH]; [reflexivity|].
  cbn [Py.split].
  destruct (Ascii.eqb c (Py.chr 10)) eqn:Hc.
  - apply Ascii.eqb_eq in Hc as ->.
    pose proof (split_nonempty (Py.chr 10) s) as Hne.
    destruct (Py.split (Py.chr 10) s) as [|h r] eqn:Hs; [contradiction|].
    change (Py.join Py.nl ("" :: h :: r)) with (String (Py.chr 10) (Py.join Py.nl (h :: r))).
    rewrite IH. reflexivity.
  - pose proof (split_nonempty (Py.chr 10) s) as Hne.
    destruct (Py.split (Py.chr 10) s) as [|h r] eqn:Hs; [contradiction|].
    rewrite <- IH. destruct r; reflexivity.
Qed.

Lemma noted_sound (pii_fields : set string) (c : string) (notice : list string) :
  set_mem string_dec c pii_fields = true ->
  sound_notice pii_fields notice -> sound_notice pii_fields (noted c notice).
Proof.
  intros Hc [Hnodup Hsub]. unfold noted.
  destruct (set_mem string_dec c notice) eqn:Hmem; [split; assumption|].
  split.
  - apply NoDup_app; [exact Hnodup | repeat constructor; intros [] |].
    intros x Hx [<- | []].
    apply (set_mem_complete1 string_dec) in Hmem. contradiction.
  - intros x Hx. apply in_app_or in Hx as [Hx | [<- | []]]; [apply Hsub, Hx|].
    apply (set_mem_correct1 string_dec), Hc.
Qed.

Lemma mask_step_sound (pii_fields : set string) (st : string * list string) (col : string) :
  sound_notice pii_fields (snd st) ->
  sound_notice pii_fields (snd (FunctionTools.mask_step pii_fields st col)).
Proof.
  destruct st as [line notice]. unfold FunctionTools.mask_step. cbn [snd].
  intros Hsound.
  destruct (Py.contains col line); [|exact Hsound].
  destruct (Py.split1 ":" line) as [|p0 [|p1 [|p2 r]]]; try exact Hsound.
  destruct (set_mem string_dec (Py.strip p0) pii_fields) eqn:Hmem; [|exact Hsound].
  cbn [snd]. apply (noted_sound pii_fields (Py.strip p0) notice Hmem Hsound).
Qed.

Lemma protect_line_sound (cols : list string) (pii_fields : set string)
      (line : string) (notice : list string) :
  sound_notice pii_fields notice ->
  sound_notice pii_fields (snd (FunctionTools.protect_line cols pii_fields line notice)).
Proof.
  intros Hsound. unfold FunctionTools.protect_line.
  destruct (Py.contains ":" line && existsb _ cols); [|exact Hsound].
  assert (Hfold : forall st, sound_notice pii_fields (snd st) ->
            sound_notice pii_fields
              (snd (fold_left (FunctionTools.mask_step pii_fields) cols st))).
  { induction cols as [|col cols IH]; intros st Hst; [exact Hst|].
    cbn [fold_left]. apply IH, mask_step_sound, Hst. }
  apply Hfold, Hsound.
Qed.

Lemma protect_lines_sound (cols : list string) (pii_fields : set string)
      (lines : list string) :
  forall st, sound_notice pii_fields (snd st) ->
    sound_notice pii_fields
      (snd (fold_left (FunctionTools.protect_lines_step cols pii_fields) lines st)).
Proof.
  induction lines as [|line lines IH]; intros [protected notice] Hst; [exact Hst|].
  cbn [fold_left]. apply IH.
  unfold FunctionTools.protect_lines_step.
  pose proof (protect_line_sound cols pii_fields line notice Hst) as Hline.
  destruct (FunctionTools.protect_line cols pii_fields line notice). exact Hline.
Qed.

(** ** The disclosure and the labels of the lines *)

Lemma split1_parts (sep : ascii) (line : string) :
  forall p0 p1, Py.split1 sep line = [p0; p1] -> line = p0 ++ String sep p1.
Proof.
  induction line as [|c line IH]; intros p0 p1 Hsplit; [discriminate|].
  cbn [Py.split1] in Hsplit.
  destruct (Ascii.eqb c sep) eqn:Hc.
  - apply Ascii.eqb_eq in Hc as ->. injection Hsplit as <- <-. reflexivity.
  - destruct (Py.split1 sep line) as [|h [|r1 [|r2 r]]] eqn:Hrest; try discriminate.
    injection Hsplit as <- <-. rewrite (IH h r1 eq_refl). reflexivity.
Qed.

Lemma lstrip_is_suffix (s : string) : exists a, s = a ++ Py.lstrip s.
Proof.
  induction s as [|c s [a IH]]; [exists ""; reflexivity|].
  cbn [Py.lstrip]. destruct (Py.is_space c).
  - exists (String c a). cbn [append]. rewrite <- IH. reflexivity.
  - exists "". reflexivity.
Qed.

Lemma rstrip_is_prefix (s : string) : exists b, s = Py.rstrip s ++ b.
Proof.
  induction s as [|c s [b IH]]; [exists ""; reflexivity|].
  cbn [Py.rstrip]. destruct (Py.rstrip s) as [|d t] eqn:Hs.
  - destruct (Py.is_space c).
    + exists (String c s). reflexivity.
    + exists s. reflexivity.
  - exists b. rewrite IH at 1. reflexivity.
Qed.

Lemma contains_strip (s : string) : Py.contains (Py.strip s) s = true.
Proof.
  unfold Py.strip.
  destruct (lstrip_is_suffix s) as [a Ha].
  destruct (rstrip_is_prefix (Py.lstrip s)) as [b Hb].
  rewrite Ha at 2. rewrite Hb at 2.
  apply contains_later, contains_here.
Qed.

Lemma contains_label (line p0 p1 : string) :
  Py.split1 ":" line = [p0; p1] ->
  Py.contains ":" line = true /\ Py.contains (Py.strip p0) line = true.
Proof.
  intros Hsplit. rewrite (split1_parts _ _ _ _ Hsplit). split.
  - apply contains_later, (contains_here ":" p1).
  - apply contains_before, contains_strip.
Qed.

(** On a line whose label is a flagged name, the first turn of the loop
    over the columns that finds its column in the line notes the label. *)
Lemma fold_mask_notes (pii_fields : set string) (line p0 p1 : string) :
  Py.split1 ":" line = [p0; p1] ->
  set_mem string_dec (Py.strip p0) pii_fields = true ->
  forall cols notice,
    existsb (fun col => Py.contains col line) cols = true ->
    In (Py.strip p0)
       (snd (fold_left (FunctionTools.mask_step pii_fields) cols (line, notice))).
Proof.
  intros Hsplit Hflag. induction cols as [|col cols IH]; intros notice Hsome;
    [discriminate|].
  cbn [existsb] in Hsome. cbn [fold_left].
  destruct (Py.contains col line) eqn:Hcol.
  - apply fold_mask_grows.
    unfold FunctionTools.mask_step. rewrite Hcol, Hsplit, Hflag. cbn [snd].
    apply (In_noted (Py.strip p0) notice).
  - unfold FunctionTools.mask_step at 2. rewrite Hcol.
    apply IH. exact Hsome.
Qed.

Lemma protect_line_notes (cols : list string) (pii_fields : set string)
      (line p0 p1 : string) (notice : list string) :
  Py.split1 ":" line = [p0; p1] ->
  set_mem string_dec (Py.strip p0) pii_fields = true ->
  In (Py.strip p0) cols ->
  In (Py.strip p0) (snd (FunctionTools.protect_line cols pii_fields line notice)).
Proof.
  intros Hsplit Hflag Hin.
  destruct (contains_label line p0 p1 Hsplit) as [Hcolon Hlabel].
  assert (Hsome : existsb (fun col => Py.contains col line) cols = true).
  { apply existsb_exists. exists (Py.strip p0). split; assumption. }
  unfold FunctionTools.protect_line. rewrite Hcolon, Hsome. cbn [andb].
  apply (fold_mask_notes pii_fields line p0 p1 Hsplit Hflag cols notice Hsome).
Qed.

Lemma flagged_label_spec (cols : list string) (line x : string) :
  flagged_label cols line = Some x
  <-> exists p0 p1, Py.split1 ":" line = [p0; p1] /\ Py.strip p0 = x
                    /\ In x cols /\ matches_lexicon x = true.
Proof.
  unfold flagged_label. split.
  - destruct (Py.split1 ":" line) as [|p0 [|p1 [|p2 r]]]; try discriminate.
    destruct (set_mem string_dec (Py.strip p0) (FunctionTools.detect_pii_fields cols))
      eqn:Hmem; [|discriminate].
    intros Hx. injection Hx as <-. exists p0, p1.
    apply (set_mem_correct1 string_dec) in Hmem.
    unfold FunctionTools.detect_pii_fields in Hmem.
    apply detect_fold_in in Hmem as [[] | [Hin Hm]]. repeat split; assumption.
  - intros (p0 & p1 & -> & <- & Hin & Hm).
    rewrite (detect_pii_fields_flagged cols _ Hin Hm). reflexivity.
Qed.

Lemma protect_line_unlabelled (cols : list string) (line : string) (notice : list string) :
  flagged_label cols line = None ->
  FunctionTools.protect_line cols (FunctionTools.detect_pii_fields cols) line notice
  = (line, notice).
Proof.
  intros Hnone. apply protect_line_unflagged. intros p0 p1 Hsplit.
  unfold flagged_label in Hnone. rewrite Hsplit in Hnone.
  destruct (set_mem string_dec (Py.strip p0) (FunctionTools.detect_pii_fields cols));
    [discriminate | reflexivity].
Qed.

(** The notice after the loop over the lines: it holds the flagged label of
    every line, and it has grown only if some line has a flagged label. *)
Lemma protect_lines_notice (cols : list string) (lines : list string) :
  forall protected notice,
    let notice' :=
      snd (fold_left
             (FunctionTools.protect_lines_step cols (FunctionTools.detect_pii_fields cols))
             lines (protected, notice)) in
    (forall x, In x notice -> In x notice')
    /\ (forall line x, In line lines -> flagged_label cols line = Some x -> In x notice')
    /\ (Forall (fun line => flagged_label cols line = None) lines -> notice' = notice).
Proof.
  induction lines as [|line lines IH]; intros protected notice; cbn [fold_left].
  - cbv zeta. cbn [snd]. split; [auto|]. split; [intros ? ? []|reflexivity].
  - destruct (FunctionTools.protect_line cols (FunctionTools.detect_pii_fields cols)
                line notice) as [line' notice1] eqn:Hline.
    assert (Hstep :
      FunctionTools.protect_lines_step cols (FunctionTools.detect_pii_fields cols)
        (protected, notice) line = ((protected ++ [line'])%list, notice1)).
    { unfold FunctionTools.protect_lines_step. rewrite Hline. reflexivity. }
    cbv zeta. rewrite Hstep.
    destruct (IH (protected ++ [line'])%list notice1) as (Hgrow & Hnotes & Hnone).
    cbv zeta in *. split; [|split].
    + intros x Hx. apply Hgrow.
      pose proof (protect_line_grows cols (FunctionTools.detect_pii_fields cols)
                    line x notice Hx) as H.
      rewrite Hline in H. exact H.
    + intros l x [<- | Hl] Hlabel; [|apply (Hnotes l x Hl Hlabel)].
      apply Hgrow.
      apply flagged_label_spec in Hlabel as (p0 & p1 & Hsplit & <- & Hin & Hm).
      pose proof (protect_line_notes cols (FunctionTools.detect_pii_fields cols)
                    line p0 p1 notice Hsplit
                    (detect_pii_fields_flagged cols _ Hin Hm) Hin) as H.
      rewrite Hline in H. exact H.
    + intros Hall. inversion Hall as [|l ls Hl Hls]; subst.
      rewrite (protect_line_unlabelled cols line notice Hl) in Hline.
      injection Hline as <- <-. apply Hnone, Hls.
Qed.

Lemma some_flagged_label (cols : list string) (lines : list string) :
  ~ Forall (fun line => flagged_label cols line = None) lines ->
  exists line x, In line lines /\ flagged_label cols line = Some x.
Proof.
  induction lines as [|line lines IH]; intros Hnot; [contradiction Hnot; constructor|].
  destruct (flagged_label cols line) as [x|] eqn:Hlabel.
  - exists line, x. split; [left; reflexivity | exact Hlabel].
  - destruct IH as (l & x & Hl & Hx).
    + intros Hall. apply Hnot. constructor; assumption.
    + exists l, x. split; [right; exact Hl | exact Hx].
Qed.

(** X5. When the column names read as the list [cols], the PII tool returns
    the lines of the results in their order, each rewritten on its own, none
    dropped and none added, followed by the disclosure exactly when it lists
    a name. The disclosure lists names of [cols] that match the lexicon,
    each once; it lists the label of every line whose label is such a name,
    and it lists a name only if some line has such a label. *)
Theorem protected_text_shape
        (literal_eval : string -> outcome literal) (results : string)
        (column_names : FunctionTools.column_arg) (cols : list string) :
  FunctionTools.parse_columns literal_eval column_names = LitNames cols ->
  let lines := Py.split (Py.chr 10) results in
  exists masked_fields_notice,
    NoDup masked_fields_notice
    /\ (forall x, In x masked_fields_notice -> In x cols /\ matches_lexicon x = true)
    /\ (forall line x,
          In line lines -> flagged_label cols line = Some x -> In x masked_fields_notice)
    /\ (masked_fields_notice <> [] ->
        exists line x, In line lines /\ flagged_label cols line = Some x)
    /\ FunctionTools.pii_protection_tool literal_eval results column_names
       = Py.join Py.nl (map (rewrite_line cols) lines)
         ++ match masked_fields_notice with
            | [] => ""
            | _ => FunctionTools.applied_notice masked_fields_notice
            end.
Proof.
  intros Hparse lines.
  unfold FunctionTools.pii_protection_tool, FunctionTools.pii_protection_body.
  rewrite Hparse.
  destruct (FunctionTools.detect_pii_fields cols) as [|f fs] eqn:Hdetect.
  - exists []. split; [constructor|]. split; [intros x []|]. split; [|split].
    + intros line x _ Hlabel. unfold flagged_label in Hlabel. rewrite Hdetect in Hlabel.
      destruct (Py.split1 ":" line) as [|p0 [|p1 [|p2 r]]]; discriminate Hlabel.
    + intros Hne. contradiction Hne. reflexivity.
    + rewrite append_empty_r. unfold lines.
      rewrite (map_ext_in (rewrite_line cols) (fun line => line)), map_id, join_split;
        [reflexivity|].
      intros line _. unfold rewrite_line. rewrite Hdetect.
      rewrite protect_line_unflagged; reflexivity.
  - rewrite <- Hdetect. fold lines.
    destruct (protect_lines_fold cols lines [] []) as (notice & Hfold & _).
    pose proof (protect_lines_sound cols (FunctionTools.detect_pii_fields cols)
                  lines ([], [])) as Hsound.
    pose proof (protect_lines_notice cols lines [] []) as Hnotice.
    cbv zeta in Hnotice.
    rewrite Hfold in Hsound, Hnotice. cbn [snd app] in *.
    destruct Hsound as [Hnodup Hsub]; [split; [constructor | intros x []]|].
    destruct Hnotice as (_ & Hnotes & Hnone).
    rewrite Hfold. cbn [app].
    exists notice. split; [exact Hnodup|]. split; [|split; [exact Hnotes|split]].
    + intros x Hx. apply Hsub in Hx.
      unfold FunctionTools.detect_pii_fields in Hx.
      apply detect_fold_in in Hx as [[] | H]. exact H.
    + intros Hne. apply some_flagged_label. intros Hall. apply Hne, Hnone, Hall.
    + destruct notice; [rewrite append_empty_r|]; reflexivity.
Qed.

Lemma protected_text_shape_witness :
  let results := "  id: 1" ++ Py.nl ++ "  email: bob@example.com" in
  let cols := ["id"; "email"] in
  exists masked_fields_notice,
    NoDup masked_fields_notice
    /\ (forall x, In x masked_fields_notice -> In x cols /\ matches_lexicon x = true)
    /\ In "email" masked_fields_notice
    /\ FunctionTools.pii_protection_tool Catalog.literal_eval results
         (FunctionTools.ColumnsText "['id', 'email']")
       = Py.join Py.nl (map (rewrite_line cols) (Py.split (Py.chr 10) results))
         ++ match masked_fields_notice with
            | [] => ""
            | _ => FunctionTools.applied_notice masked_fields_notice
            end.
Proof.
  intros results cols.
  destruct (protected_text_shape Catalog.literal_eval results
              (FunctionTools.ColumnsText "['id', 'email']") cols eq_refl)
    as (notice & Hnodup & Hsub & Hnotes & _ & Htext).
  exists notice. split; [exact Hnodup|]. split; [exact Hsub|]. split; [|exact Htext].
  apply (Hnotes "  email: bob@example.com" "email"); [|reflexivity].
  right; left; reflexivity.
Defined.

(** ** The check of the coordinator *)

(** X6. The check of the coordinator fails open: when the result of the
    database tool has flagged columns and the call of the PII tool raises,
    the check returns the result unmasked, and raises nothing. *)
Theorem pii_tool_failure_returns_unmasked
        (literal_eval : string -> outcome literal) (function_tools : list FunctionTool)
        (W : Type) (h : handler W) (w w1 : W) (calls : list call)
        (tool_name result group1 e : string) (cols : list string)
        (pii_tool : FunctionTool) :
  Py.contains "database_query_tool" tool_name = true ->
  Py.contains "COLUMNS:" result = true ->
  AgentCoordinator.search_columns result = Some group1 ->
  literal_eval (Py.strip group1) = Ok (LitNames cols) ->
  FunctionTools.detect_pii_fields cols <> [] ->
  List.find (fun tool => Py.contains "pii" (Py.lower (fn_name tool))) function_tools
  = Some pii_tool ->
  run h (fn_call pii_tool (PiiKeywords result (Py.repr_list cols))) w = (Raise e, w1, calls) ->
  run h (AgentCoordinator._check_and_apply_pii_protection literal_eval function_tools
           tool_name result) w
  = (Ok result, w1, calls).
Proof.
  intros Hname Hmark Hsearch Hparse Hpii Hfind Hcall.
  unfold AgentCoordinator._check_and_apply_pii_protection.
  rewrite Hname, Hmark, Hsearch, Hparse. cbn [negb].
  rewrite coordinator_detection.
  destruct cols as [|col cols]; [contradiction Hpii; reflexivity|].
  cbn [AgentCoordinator.falsy].
  destruct (FunctionTools.detect_pii_fields (col :: cols)); [contradiction|].
  rewrite Hfind. unfold try_except.
  rewrite run_bind, Hcall. cbn. rewrite app_nil_r. reflexivity.
Qed.

Lemma pii_tool_failure_returns_unmasked_witness :
  let result := "COLUMNS: ['email']" ++ Py.nl ++ "  email: bob@example.com" in
  run offline
      (AgentCoordinator._check_and_apply_pii_protection Catalog.literal_eval
         [Catalog.db_tool ""; Catalog.market_tool; broken_pii_tool]
         "database_query_tool" result) tt
  = (Ok result, tt, []).
Proof.
  intros result.
  apply (pii_tool_failure_returns_unmasked Catalog.literal_eval
           [Catalog.db_tool ""; Catalog.market_tool; broken_pii_tool]
           unit offline tt tt [] "database_query_tool" result "['email']"
           "masking service unavailable" ["email"] broken_pii_tool);
    try reflexivity.
  discriminate.
Defined.

Section Provenance.

Variable literal_eval : string -> outcome literal.
Variable document_tools : list DocumentTool.
Variable function_tools : list FunctionTool.
Variable W : Type.
Variable h : handler W.

Let check := AgentCoordinator._check_and_apply_pii_protection literal_eval function_tools.
Let invoke_tool := AgentCoordinator.invoke_tool literal_eval function_tools.
Let execute_tool := AgentCoordinator.execute_tool literal_eval function_tools.
Let execute_tools :=
  AgentCoordinator.execute_tools literal_eval document_tools function_tools.
Let all_tools := AgentCoordinator.all_tools document_tools function_tools.

Lemma invoke_tool_not_passed_over (query tool_name : string)
      (tool : AgentCoordinator.tool_ref) (w : W) :
  passed_over tool_name tool = false ->
  run h (invoke_tool query tool_name tool) w
  = run h (called <- tool_invocation query tool ;;
           after_call literal_eval function_tools tool_name called) w.
Proof.
  intros Hover. unfold invoke_tool, AgentCoordinator.invoke_tool.
  assert (Hshape : forall p : prog (outcome string),
    run h (called <- (result <- p ;;
                      Ret (match result with
                           | Ok text => Ok (Some text)
                           | Raise e => Raise e
                           end)) ;;
           match called with
           | Raise e => Ret (Raise e)
           | Ok None => Ret (Ok None)
           | Ok (Some result_str) =>
               protected <- check tool_name result_str ;;
               Ret (match protected with Ok text => Ok (Some text) | Raise e => Raise e end)
           end) w
    = run h (called <- p ;; after_call literal_eval function_tools tool_name called) w).
  { intros p. rewrite !run_bind.
    destruct (run h p w) as [[[text | e] w1] t1]; cbn [run].
    - destruct (run h (after_call literal_eval function_tools tool_name (Ok text)) w1)
        as [[r w2] t2] eqn:Hafter.
      cbn [after_call] in Hafter. unfold check. cbn [app]. rewrite Hafter.
      rewrite app_nil_r. reflexivity.
    - cbn. rewrite app_nil_r. reflexivity. }
  destruct tool as [doc | fn]; cbn [tool_invocation passed_over] in *.
  - apply Hshape.
  - destruct (Py.contains "database" (Py.lower tool_name)); [apply Hshape|].
    destruct (Py.contains "market" (Py.lower tool_name)); [apply Hshape|].
    destruct (Py.contains "pii" (Py.lower tool_name)); [discriminate Hover|].
    apply Hshape.
Qed.

Lemma invoke_tool_passed_over (query tool_name : string)
      (tool : AgentCoordinator.tool_ref) (w : W) :
  passed_over tool_name tool = true ->
  run h (invoke_tool query tool_name tool) w = (Ok None, w, []).
Proof.
  intros Hover. unfold invoke_tool, AgentCoordinator.invoke_tool.
  destruct tool as [doc | fn]; cbn [passed_over] in Hover; [discriminate|].
  destruct (Py.contains "database" (Py.lower tool_name)); [discriminate|].
  destruct (Py.contains "market" (Py.lower tool_name)); [discriminate|].
  cbn [negb andb] in Hover. rewrite Hover. reflexivity.
Qed.

Lemma check_passes_other_tools (tool_name result : string) :
  Py.contains "database_query_tool" tool_name = false ->
  check tool_name result = Ret (Ok result).
Proof.
  intros Hname. unfold check, AgentCoordinator._check_and_apply_pii_protection.
  rewrite Hname. reflexivity.
Qed.

Lemma execute_tool_verbatim (query tool_name tool_desc text : string)
      (tool : AgentCoordinator.tool_ref) (w w1 : W) (calls : list call) :
  passed_over tool_name tool = false ->
  Py.contains "database_query_tool" tool_name = false ->
  run h (tool_invocation query tool) w = (Ok text, w1, calls) ->
  run h (execute_tool query (tool_name, tool_desc, tool)) w
  = ([(tool_name, tool_desc, text)], w1, calls).
Proof.
  intros Hover Hname Hcall.
  unfold execute_tool, AgentCoordinator.execute_tool.
  rewrite run_bind. fold invoke_tool.
  rewrite (invoke_tool_not_passed_over _ _ _ _ Hover).
  rewrite run_bind, Hcall. cbn [after_call].
  rewrite (check_passes_other_tools _ _ Hname). cbn.
  rewrite !app_nil_r. reflexivity.
Qed.

(** One turn of the loop appends nothing, or one entry under the name and
    the description of the tool, and nothing for a tool it passes over. *)
Lemma execute_tool_shape (query tool_name tool_desc : string)
      (tool : AgentCoordinator.tool_ref) (w : W) :
  let results := fst (fst (run h (execute_tool query (tool_name, tool_desc, tool)) w)) in
  results = []
  \/ (passed_over tool_name tool = false
      /\ exists text, results = [(tool_name, tool_desc, text)]).
Proof.
  cbv zeta. unfold execute_tool, AgentCoordinator.execute_tool.
  rewrite run_bind. fold invoke_tool.
  destruct (passed_over tool_name tool) eqn:Hover.
  - rewrite (invoke_tool_passed_over _ _ _ _ Hover). left. reflexivity.
  - destruct (run h (invoke_tool query tool_name tool) w) as [[[[text|] | e] w1] t1];
      cbn; [right | left | right]; try reflexivity; split; eauto.
Qed.

Lemma execute_tools_provenance (query : string) (valid_indices : list nat) :
  forall w : W,
    let results := fst (fst (run h (execute_tools query valid_indices) w)) in
    List.length results <= List.length valid_indices
    /\ forall tool_name tool_desc text,
         In (tool_name, tool_desc, text) results ->
         exists idx tool,
           In idx valid_indices
           /\ nth_error all_tools idx = Some (tool_name, tool_desc, tool)
           /\ passed_over tool_name tool = false.
Proof.
  induction valid_indices as [|idx rest IH]; intros w; cbv zeta.
  - cbn. split; [lia | intros ? ? ? []].
  - unfold execute_tools. rewrite execute_tools_cons. fold execute_tools.
    fold all_tools. fold execute_tool.
    destruct (nth_error all_tools idx) as [[[tool_name tool_desc] tool]|] eqn:Hnth.
    + pose proof (execute_tool_shape query tool_name tool_desc tool w) as Hshape.
      cbv zeta in Hshape.
      destruct (run h (execute_tool query (tool_name, tool_desc, tool)) w)
        as [[appended w1] t1].
      cbn [fst] in Hshape.
      specialize (IH w1). cbv zeta in IH.
      destruct (run h (execute_tools query rest) w1) as [[results w2] t2].
      cbn [fst] in *. destruct IH as [Hlen Hprov].
      destruct Hshape as [-> | (Hover & text & ->)]; cbn [app List.length].
      * split; [lia|]. intros n d x Hin.
        destruct (Hprov n d x Hin) as (i & t & Hi & Hn & Ho).
        exists i, t. split; [right; exact Hi | split; assumption].
      * split; [lia|]. intros n d x [Heq | Hin].
        -- injection Heq as <- <- <-. exists idx, tool.
           split; [left; reflexivity | split; assumption].
        -- destruct (Hprov n d x Hin) as (i & t & Hi & Hn & Ho).
           exists i, t. split; [right; exact Hi | split; assumption].
    + cbn [run]. specialize (IH w). cbv zeta in IH.
      destruct (run h (execute_tools query rest) w) as [[results w2] t2].
      cbn [fst app] in *. destruct IH as [Hlen Hprov].
      split; [cbn [List.length]; lia|]. intros n d x Hin.
      destruct (Hprov n d x Hin) as (i & t & Hi & Hn & Ho).
      exists i, t. split; [right; exact Hi | split; assumption].
Qed.

End Provenance.

(** X7. The answer of a document tool, of the market tool and of any tool
    whose name lacks "database_query_tool" reaches the results verbatim:
    its entry holds the name, the description and the text the call
    returned, and the turn makes the calls of the tool and no other. *)
Theorem other_tools_pass_verbatim
        (literal_eval : string -> outcome literal) (function_tools : list FunctionTool)
        (W : Type) (h : handler W) (query tool_name tool_desc text : string)
        (tool : AgentCoordinator.tool_ref) (w w1 : W) (calls : list call) :
  passed_over tool_name tool = false ->
  Py.contains "database_query_tool" tool_name = false ->
  run h (tool_invocation query tool) w = (Ok text, w1, calls) ->
  run h (AgentCoordinator.execute_tool literal_eval function_tools query
           (tool_name, tool_desc, tool)) w
  = ([(tool_name, tool_desc, text)], w1, calls).
Proof. apply execute_tool_verbatim. Qed.

Lemma other_tools_pass_verbatim_witness :
  run market_only
      (AgentCoordinator.execute_tool Catalog.literal_eval
         (Catalog.function_tools Catalog.literal_eval "") "COLUMNS: ['email']"
         ("TSLA_10k_filing_tool", "Tesla Inc. 10-K filing",
          AgentCoordinator.DocumentRef
            (Catalog.document_tool "TSLA_10k_filing_tool" "Tesla Inc. 10-K filing"))) tt
  = ([("TSLA_10k_filing_tool", "Tesla Inc. 10-K filing",
       "answer of TSLA_10k_filing_tool")], tt,
     [Call (Invoke "TSLA_10k_filing_tool" "COLUMNS: ['email']")]).
Proof.
  apply (other_tools_pass_verbatim Catalog.literal_eval
           (Catalog.function_tools Catalog.literal_eval "") unit market_only
           "COLUMNS: ['email']" "TSLA_10k_filing_tool" "Tesla Inc. 10-K filing"
           "answer of TSLA_10k_filing_tool"); reflexivity.
Defined.

(** X8. Every entry of the results of the loop over the selected indices
    carries the name and the description of a tool of the catalog found at
    one of the selected indices, and never of a function tool that the loop
    takes for the PII tool; there are at most as many entries as indices. *)
Theorem results_come_from_selected_tools
        (literal_eval : string -> outcome literal)
        (document_tools : list DocumentTool) (function_tools : list FunctionTool)
        (W : Type) (h : handler W) (w : W) (query : string) (valid_indices : list nat) :
  let results :=
    fst (fst (run h (AgentCoordinator.execute_tools literal_eval document_tools
                       function_tools query valid_indices) w)) in
  List.length results <= List.length valid_indices
  /\ forall tool_name tool_desc text,
       In (tool_name, tool_desc, text) results ->
       exists idx tool,
         In idx valid_indices
         /\ nth_error (AgentCoordinator.all_tools document_tools function_tools) idx
            = Some (tool_name, tool_desc, tool)
         /\ passed_over tool_name tool = false.
Proof. apply execute_tools_provenance. Qed.

(** ** The selected indices *)

Lemma insert_sorted_in (n : nat) (l : list nat) (x : nat) :
  In x (AgentCoordinator.insert_sorted n l) <-> x = n \/ In x l.
Proof.
  induction l as [|m r IH]; cbn [AgentCoordinator.insert_sorted].
  - cbn. intuition.
  - destruct (n <? m)%nat; [cbn; intuition|].
    destruct (n =? m)%nat eqn:Heq.
    + apply Nat.eqb_eq in Heq as ->. cbn. intuition.
    + cbn [In]. rewrite IH. intuition.
Qed.

Lemma insert_sorted_sorted (n : nat) (l : list nat) :
  StronglySorted lt l -> StronglySorted lt (AgentCoordinator.insert_sorted n l).
Proof.
  induction 1 as [|m r Hsorted IH Hall]; cbn [AgentCoordinator.insert_sorted].
  - repeat constructor.
  - destruct (n <? m)%nat eqn:Hlt.
    + apply Nat.ltb_lt in Hlt. constructor; [constructor; assumption|].
      constructor; [exact Hlt|].
      rewrite Forall_forall in *. intros x Hx. specialize (Hall x Hx). lia.
    + destruct (n =? m)%nat eqn:Heq; [constructor; assumption|].
      apply Nat.ltb_ge in Hlt. apply Nat.eqb_neq in Heq.
      constructor; [exact IH|].
      rewrite Forall_forall in *. intros x Hx.
      apply insert_sorted_in in Hx as [-> | Hx]; [lia | apply Hall, Hx].
Qed.

Lemma sorted_set_in (l : list nat) (x : nat) :
  In x (AgentCoordinator.sorted_set l) <-> In x l.
Proof.
  unfold AgentCoordinator.sorted_set.
  induction l as [|n l IH]; cbn [fold_right]; [reflexivity|].
  rewrite insert_sorted_in, IH. cbn. intuition.
Qed.

Lemma sorted_set_sorted (l : list nat) : StronglySorted lt (AgentCoordinator.sorted_set l).
Proof.
  unfold AgentCoordinator.sorted_set.
  induction l as [|n l IH]; cbn [fold_right]; [constructor|].
  apply insert_sorted_sorted, IH.
Qed.

Lemma fallback_from_range (names : list string) (query_lower : string) :
  forall idx x,
    In x (AgentCoordinator.fallback_from idx names query_lower) ->
    idx <= x < idx + List.length names.
Proof.
  induction names as [|name rest IH]; intros idx x Hx;
    cbn [AgentCoordinator.fallback_from] in Hx; [destruct Hx|].
  cbn [List.length].
  destruct (AgentCoordinator.fallback_selects name query_lower).
  - destruct Hx as [<- | Hx]; [lia|]. apply IH in Hx. lia.
  - apply IH in Hx. lia.
Qed.

(** X9. When [int] converts every run of digits of the answer of the model,
    the indices that [_route_query] executes are strictly ascending, hence
    without repetition, and each is an index of the catalog, whether or not
    the lexical fallback was used; when the answer holds an index in range,
    they are exactly the indices in range that it holds. When a run has more
    than 4300 digits, [int] raises: nothing is selected, and [_route_query]
    returns no result after its completion call, without fallback and
    without running a tool. *)
Theorem selected_indices_sorted_in_range
        (document_tools : list DocumentTool) (function_tools : list FunctionTool)
        (query response_text : string) :
  let tools := AgentCoordinator.all_tools document_tools function_tools in
  let prompt := AgentCoordinator.routing_prompt document_tools function_tools query in
  let runs := Py.findall_digits (Py.strip response_text) in
  let named :=
    filter (fun idx => idx <? List.length tools)%nat (map Py.int_of_digits runs) in
  match AgentCoordinator.select_indices document_tools function_tools query response_text with
  | Ok selected =>
      Forall (fun x => String.length x <= max_str_digits) runs
      /\ StronglySorted lt selected
      /\ (forall idx, In idx selected -> idx < List.length tools)
      /\ (named <> [] -> forall idx, In idx selected <-> In idx named)
  | Raise _ =>
      Exists (fun x => max_str_digits < String.length x) runs
      /\ forall (literal_eval : string -> outcome literal) (W : Type) (h : handler W)
                (w w1 : W),
           h _ (LlmComplete prompt) w = (Ok response_text, w1) ->
           run h (AgentCoordinator._route_query literal_eval document_tools function_tools
                    query) w
           = ([], w1, [Call (LlmComplete prompt)])
  end.
Proof.
  cbv zeta.
  pose proof (select_indices_cases document_tools function_tools query response_text)
    as Hcases.
  cbv zeta in Hcases.
  set (tools := AgentCoordinator.all_tools document_tools function_tools) in *.
  set (named := filter _ _) in *.
  destruct (AgentCoordinator.select_indices document_tools function_tools query
              response_text) as [selected | e] eqn:Hselect.
  - destruct Hcases as [Hshort ->].
    split; [exact Hshort|]. split; [apply sorted_set_sorted|]. split.
    + intros idx Hidx. apply (proj1 (sorted_set_in _ _)) in Hidx.
      destruct named as [|n ns] eqn:Hnamed.
      * apply fallback_from_range in Hidx. rewrite length_map in Hidx. lia.
      * rewrite <- Hnamed in Hidx. unfold named in Hidx.
        apply filter_In in Hidx as [_ Hlt]. apply Nat.ltb_lt, Hlt.
    + intros Hne idx. rewrite sorted_set_in.
      destruct named; [contradiction | reflexivity].
  - split; [exact Hcases|].
    intros literal_eval W h w w1 Hanswer.
    unfold AgentCoordinator._route_query, trigger. cbn [bind run].
    rewrite Hanswer, Hselect. reflexivity.
Qed.

(** ** The indices shown to the model *)

Lemma describe_nth (tools : list (string * string)) :
  forall start i tool_name tool_desc,
    nth_error tools i = Some (tool_name, tool_desc) ->
    nth_error (AgentCoordinator.describe start tools) i
    = Some (Py.str_of_nat (start + i) ++ ". " ++ tool_name ++ ": " ++ tool_desc).
Proof.
  induction tools as [|[n d] rest IH]; intros start i tool_name tool_desc Hnth.
  - destruct i; discriminate.
  - destruct i as [|i]; cbn in Hnth |- *.
    + injection Hnth as -> ->. rewrite Nat.add_0_r. reflexivity.
    + rewrite (IH (S start) i _ _ Hnth).
      replace (S start + i) with (start + S i) by lia. reflexivity.
Qed.

Lemma describe_length (tools : list (string * string)) :
  forall start, List.length (AgentCoordinator.describe start tools) = List.length tools.
Proof.
  induction tools as [|[n d] rest IH]; intros start; cbn; [|rewrite IH]; reflexivity.
Qed.

Lemma contains_join (sep x : string) (parts : list string) :
  In x parts -> Py.contains x (Py.join sep parts) = true.
Proof.
  induction parts as [|p rest IH]; intros Hin; [destruct Hin|].
  destruct rest as [|p2 rest].
  - destruct Hin as [-> | []]. apply contains_self.
  - change (Py.join sep (p :: p2 :: rest)) with (p ++ sep ++ Py.join sep (p2 :: rest)).
    destruct Hin as [-> | Hin]; [apply contains_here|].
    do 2 apply contains_later. apply IH, Hin.
Qed.

Lemma tool_description_nth
      (document_tools : list DocumentTool) (function_tools : list FunctionTool)
      (idx : nat) (tool_name tool_desc : string) (tool : AgentCoordinator.tool_ref) :
  nth_error (AgentCoordinator.all_tools document_tools function_tools) idx
  = Some (tool_name, tool_desc, tool) ->
  nth_error (AgentCoordinator.tool_descriptions document_tools function_tools) idx
  = Some (Py.str_of_nat idx ++ ". " ++ tool_name ++ ": " ++ tool_desc).
Proof.
  unfold AgentCoordinator.all_tools, AgentCoordinator.tool_descriptions.
  intros Hnth.
  destruct (Nat.lt_ge_cases idx (List.length document_tools)) as [Hlt | Hge].
  - rewrite nth_error_app1 in Hnth by (rewrite length_map; exact Hlt).
    rewrite nth_error_app1 by (rewrite describe_length, length_map; exact Hlt).
    rewrite nth_error_map in Hnth.
    destruct (nth_error document_tools idx) as [doc|] eqn:Hdoc; [|discriminate].
    injection Hnth as <- <- _.
    apply (describe_nth _ 0). rewrite nth_error_map, Hdoc. reflexivity.
  - rewrite nth_error_app2 in Hnth by (rewrite length_map; exact Hge).
    rewrite nth_error_app2 by (rewrite describe_length, length_map; exact Hge).
    rewrite length_map in Hnth. rewrite describe_length, length_map.
    rewrite nth_error_map in Hnth.
    destruct (nth_error function_tools (idx - List.length document_tools)) as [fn|] eqn:Hfn;
      [|discriminate].
    injection Hnth as <- <- _.
    rewrite (describe_nth _ (List.length document_tools)
               (idx - List.length document_tools) (fn_name fn) (fn_description fn)).
    + replace (List.length document_tools + (idx - List.length document_tools))
        with idx by lia. reflexivity.
    + rewrite nth_error_map, Hfn. reflexivity.
Qed.

(** X10. The number under which the routing prompt lists a tool is the index
    at which [_route_query] finds it: for the tool at index [idx] of
    [all_tools], the prompt holds the line "idx. name: description", and the
    prompt lists as many tools as the catalog has. *)
Theorem prompt_numbers_are_catalog_indices
        (document_tools : list DocumentTool) (function_tools : list FunctionTool)
        (query : string) (idx : nat) (tool_name tool_desc : string)
        (tool : AgentCoordinator.tool_ref) :
  nth_error (AgentCoordinator.all_tools document_tools function_tools) idx
  = Some (tool_name, tool_desc, tool) ->
  nth_error (AgentCoordinator.tool_descriptions document_tools function_tools) idx
  = Some (Py.str_of_nat idx ++ ". " ++ tool_name ++ ": " ++ tool_desc)
  /\ Py.contains (Py.str_of_nat idx ++ ". " ++ tool_name ++ ": " ++ tool_desc)
       (AgentCoordinator.routing_prompt document_tools function_tools query) = true
  /\ List.length (AgentCoordinator.tool_descriptions document_tools function_tools)
     = List.length (AgentCoordinator.all_tools document_tools function_tools).
Proof.
  intros Hnth.
  pose proof (tool_description_nth _ _ _ _ _ _ Hnth) as Hline.
  split; [exact Hline|]. split.
  - unfold AgentCoordinator.routing_prompt.
    do 9 apply contains_later. apply contains_before.
    apply contains_join. apply (nth_error_In _ _ Hline).
  - unfold AgentCoordinator.tool_descriptions, AgentCoordinator.all_tools.
    rewrite !length_app, !describe_length, !length_map. reflexivity.
Qed.

Lemma prompt_numbers_are_catalog_indices_witness :
  nth_error (AgentCoordinator.tool_descriptions Catalog.document_tools
               (Catalog.function_tools Catalog.literal_eval "")) 4
  = Some ("4. finance_market_search_tool: " ++ fn_description Catalog.market_tool)
  /\ Py.contains ("4. finance_market_search_tool: " ++ fn_description Catalog.market_tool)
       (AgentCoordinator.routing_prompt Catalog.document_tools
          (Catalog.function_tools Catalog.literal_eval "") "price of Tesla") = true
  /\ List.length (AgentCoordinator.tool_descriptions Catalog.document_tools
                    (Catalog.function_tools Catalog.literal_eval "")) = 6.
Proof.
  apply (prompt_numbers_are_catalog_indices Catalog.document_tools
           (Catalog.function_tools Catalog.literal_eval "") "price of Tesla" 4
           "finance_market_search_tool" (fn_description Catalog.market_tool)
           (AgentCoordinator.FunctionRef Catalog.market_tool)).
  reflexivity.
Defined.

(** ** The answer of [query], continued *)

(** X11. When routing yields no tool result, [query] answers with the fixed
    message "Unable to process query. No appropriate tools found or error
    occurred." and makes no call beyond those of the routing. *)
Theorem no_result_gives_fixed_message
        (literal_eval : string -> outcome literal)
        (document_tools : list DocumentTool) (function_tools : list FunctionTool)
        (W : Type) (h : handler W) (question : string) (w w1 : W) (calls : list call) :
  run h (AgentCoordinator._route_query literal_eval document_tools function_tools question) w
  = ([], w1, calls) ->
  run h (AgentCoordinator.query literal_eval document_tools function_tools question) w
  = (AgentCoordinator.unable_message, w1, calls).
Proof.
  intros Hroute. unfold AgentCoordinator.query.
  rewrite run_bind, Hroute. cbn. rewrite app_nil_r. reflexivity.
Qed.

Lemma no_result_gives_fixed_message_witness :
  run nothing_selected
      (AgentCoordinator.query Catalog.literal_eval Catalog.document_tools
         (Catalog.function_tools Catalog.literal_eval "") "hello") tt
  = (AgentCoordinator.unable_message, tt,
     [Call (LlmComplete
              (AgentCoordinator.routing_prompt Catalog.document_tools
                 (Catalog.function_tools Catalog.literal_eval "") "hello"))]).
Proof.
  apply (no_result_gives_fixed_message Catalog.literal_eval Catalog.document_tools
           (Catalog.function_tools Catalog.literal_eval "") unit nothing_selected
           "hello" tt tt).
  reflexivity.
Defined.

(** X12. When routing yields two results or more, [query] makes exactly one
    more completion call, with the synthesis prompt built from all results;
    it returns the trimmed answer of the model, and, when that call raises,
    the text "Query: <question>" followed by one block "From <tool>:" per
    result, in the order of the results. *)
Theorem several_results_are_synthesised
        (literal_eval : string -> outcome literal)
        (document_tools : list DocumentTool) (function_tools : list FunctionTool)
        (W : Type) (h : handler W) (question : string) (w w1 w2 : W)
        (first second : string * string * string)
        (others : list (string * string * string))
        (calls : list call) (answer : outcome string) :
  let tool_results := first :: second :: others in
  let prompt := AgentCoordinator.synthesis_prompt question tool_results in
  run h (AgentCoordinator._route_query literal_eval document_tools function_tools question) w
  = (tool_results, w1, calls) ->
  h _ (LlmComplete prompt) w1 = (answer, w2) ->
  run h (AgentCoordinator.query literal_eval document_tools function_tools question) w
  = (match answer with
     | Ok text => Py.strip text
     | Raise _ =>
         "Query: " ++ question ++ Py.nl ++ Py.nl
         ++ AgentCoordinator.fallback_blocks tool_results
     end,
     w2, (calls ++ [Call (LlmComplete prompt)])%list).
Proof.
  intros tool_results prompt Hroute Hanswer. unfold AgentCoordinator.query.
  rewrite run_bind, Hroute.
  destruct first as [[n1 d1] r1]. unfold tool_results. cbn [run bind trigger].
  fold tool_results. fold prompt. rewrite Hanswer.
  destruct answer; reflexivity.
Qed.

Lemma several_results_are_synthesised_witness :
  let question := "Tesla strategy and stock price" in
  let tool_results :=
    [("TSLA_10k_filing_tool", "Tesla Inc. 10-K filing", "answer of TSLA_10k_filing_tool");
     ("finance_market_search_tool", fn_description Catalog.market_tool,
      "answer of finance_market_search_tool")] in
  fst (fst (run synthesis_down
              (AgentCoordinator.query Catalog.literal_eval Catalog.document_tools
                 (Catalog.function_tools Catalog.literal_eval "") question) 0))
  = "Query: " ++ question ++ Py.nl ++ Py.nl
    ++ AgentCoordinator.fallback_blocks tool_results.
Proof.
  intros question tool_results.
  rewrite (several_results_are_synthesised Catalog.literal_eval Catalog.document_tools
             (Catalog.function_tools Catalog.literal_eval "") nat synthesis_down
             question 0 1 2
             ("TSLA_10k_filing_tool", "Tesla Inc. 10-K filing",
              "answer of TSLA_10k_filing_tool")
             ("finance_market_search_tool", fn_description Catalog.market_tool,
              "answer of finance_market_search_tool")
             []
             [Call (LlmComplete
                      (AgentCoordinator.routing_prompt Catalog.document_tools
                         (Catalog.function_tools Catalog.literal_eval "") question));
              Call (Invoke "TSLA_10k_filing_tool" question);
              Call (Invoke "finance_market_search_tool" question)]
             (Raise "Connection error.")); reflexivity.
Defined.

(** ** The database tool, continued *)



(** ** The statement handed to sqlite *)

Lemma free_of_contains (c : ascii) (s : string) :
  free_of c s = negb (Py.contains (String c "") s).
Proof.
  unfold free_of. induction s as [|d s IH]; [reflexivity|].
  cbn [list_ascii_of_string forallb Py.contains Py.startswith].
  rewrite andb_true_r, IH, (Ascii.eqb_sym c d).
  destruct (Ascii.eqb d c); reflexivity.
Qed.

Lemma free_of_append (c : ascii) (a b : string) :
  free_of c (a ++ b) = free_of c a && free_of c b.
Proof.
  unfold free_of. induction a as [|d a IH]; [reflexivity|].
  cbn. rewrite IH, andb_assoc. reflexivity.
Qed.

Lemma free_of_lstrip (c : ascii) (s : string) :
  free_of c s = true -> free_of c (Py.lstrip s) = true.
Proof.
  unfold free_of. induction s as [|d s IH]; [reflexivity|].
  cbn [Py.lstrip]. destruct (Py.is_space d); [|auto].
  cbn. intros H. apply andb_true_iff in H as [_ H]. apply IH, H.
Qed.

Lemma free_of_rstrip (c : ascii) (s : string) :
  free_of c s = true -> free_of c (Py.rstrip s) = true.
Proof.
  unfold free_of. induction s as [|d s IH]; [reflexivity|].
  cbn [Py.rstrip list_ascii_of_string forallb]. intros H.
  apply andb_true_iff in H as [Hd Hs]. specialize (IH Hs).
  destruct (Py.rstrip s) as [|e t].
  - destruct (Py.is_space d); [reflexivity|]. cbn. rewrite Hd. reflexivity.
  - cbn [list_ascii_of_string forallb] in *. rewrite Hd. exact IH.
Qed.

Lemma free_of_strip (c : ascii) (s : string) :
  free_of c s = true -> free_of c (Py.strip s) = true.
Proof. intros H. apply free_of_rstrip, free_of_lstrip, H. Qed.

Lemma split_head_free (sep : ascii) (s : string) :
  free_of sep (hd "" (Py.split sep s)) = true.
Proof.
  induction s as [|d s IH]; [reflexivity|].
  cbn [Py.split]. destruct (Ascii.eqb d sep) eqn:Hd; [reflexivity|].
  pose proof (split_nonempty sep s) as Hne.
  destruct (Py.split sep s) as [|h r]; [contradiction|].
  cbn [hd] in *. unfold free_of in *. cbn. rewrite Hd. exact IH.
Qed.

Lemma rstrip_rstrip (s : string) : Py.rstrip (Py.rstrip s) = Py.rstrip s.
Proof.
  induction s as [|c s IH]; [reflexivity|].
  cbn [Py.rstrip].
  destruct (Py.rstrip s) as [|d t] eqn:Hr.
  - destruct (Py.is_space c) eqn:Hc; [reflexivity|]. cbn. rewrite Hc. reflexivity.
  - apply rstrip_cons; [exact IH | discriminate].
Qed.

Lemma strip_strip (s : string) : Py.strip (Py.strip s) = Py.strip s.
Proof.
  unfold Py.strip.
  pose proof (lstrip_head s) as Hhead.
  destruct (Py.lstrip s) as [|c t] eqn:Hl; [reflexivity|].
  destruct (rstrip_keeps_head c t Hhead) as [t' Ht].
  rewrite Ht. cbn [Py.lstrip]. rewrite Hhead, <- Ht. apply rstrip_rstrip.
Qed.

Lemma clean_sql_clean (text : string) :
  Py.contains ";" (FunctionTools.clean_sql text) = false
  /\ Py.strip (FunctionTools.clean_sql text) = FunctionTools.clean_sql text.
Proof.
  unfold FunctionTools.clean_sql.
  set (q := Py.strip (FunctionTools.remove_fence "```" 0 false
                        (FunctionTools.remove_fence "```sql" 0 false (Py.strip text)))).
  destruct (Py.contains ";" q) eqn:Hsemi.
  - split; [|apply strip_strip].
    pose proof (free_of_strip ";" _ (split_head_free ";" q)) as Hfree.
    rewrite free_of_contains in Hfree. apply negb_true_iff, Hfree.
  - split; [exact Hsemi | apply strip_strip].
Qed.

(** X14. The statement that [generate_sql] hands over for execution never
    holds a semicolon and is trimmed, whatever the model answered: of several
    statements only the first is kept, and a failed completion call gives
    "SELECT 1". *)
Theorem generated_sql_is_one_statement
        (db_schema : string) (W : Type) (h : handler W)
        (query_text : string) (error_context : option string) (w : W) :
  let sql := fst (fst (run h (FunctionTools.generate_sql db_schema query_text error_context) w)) in
  Py.contains ";" sql = false
  /\ Py.strip sql = sql
  /\ (forall e w1,
        h _ (LlmComplete (FunctionTools.sql_prompt db_schema query_text error_context)) w
        = (Raise e, w1) -> sql = "SELECT 1").
Proof.
  cbv zeta. unfold FunctionTools.generate_sql, trigger. cbn [bind run].
  destruct (h _ (LlmComplete (FunctionTools.sql_prompt db_schema query_text error_context)) w)
    as [[text | e] w1]; cbn [run fst].
  - destruct (clean_sql_clean text) as [Hsemi Htrim].
    split; [exact Hsemi|]. split; [exact Htrim|]. intros ? ? [=].
  - repeat split; reflexivity.
Qed.

(** ** Rows as dicts *)

Lemma dict_set_fresh (k v : string) (d : FunctionTools.row_dict) :
  ~ In k (map fst d) -> FunctionTools.dict_set k v d = (d ++ [(k, v)])%list.
Proof.
  induction d as [|[k' v'] d IH]; intros Hfresh; [reflexivity|].
  cbn [FunctionTools.dict_set].
  destruct (String.eqb_spec k' k) as [-> | Hne].
  - exfalso. apply Hfresh. left. reflexivity.
  - rewrite IH; [reflexivity|]. intros Hin. apply Hfresh. right. exact Hin.
Qed.

Lemma fill_row_combine (column_names : list string) :
  forall (row : list string) (d : FunctionTools.row_dict),
    NoDup column_names ->
    (forall k, In k column_names -> ~ In k (map fst d)) ->
    List.length column_names <= List.length row ->
    FunctionTools.fill_row column_names row d = Ok (d ++ combine column_names row)%list.
Proof.
  induction column_names as [|c cs IH]; intros row d Hnodup Hfresh Hlen.
  - cbn. rewrite app_nil_r. reflexivity.
  - destruct row as [|v vs]; [cbn in Hlen; lia|].
    cbn [FunctionTools.fill_row combine].
    inversion Hnodup as [|? ? Hc Hcs]; subst.
    rewrite dict_set_fresh by (apply Hfresh; left; reflexivity).
    rewrite IH.
    + rewrite <- app_assoc. reflexivity.
    + exact Hcs.
    + intros k Hk Hin. rewrite map_app in Hin.
      apply in_app_or in Hin as [Hin | [Heq | []]].
      * apply (Hfresh k); [right; exact Hk | exact Hin].
      * cbn in Heq. subst k. contradiction.
    + cbn in Hlen. lia.
Qed.

Lemma fill_row_short (column_names : list string) :
  forall (row : list string) (d : FunctionTools.row_dict),
    List.length row < List.length column_names ->
    FunctionTools.fill_row column_names row d = Raise "tuple index out of range".
Proof.
  induction column_names as [|c cs IH]; intros row d Hlen; [cbn in Hlen; lia|].
  destruct row as [|v vs]; [reflexivity|].
  cbn [FunctionTools.fill_row]. apply IH. cbn in Hlen. lia.
Qed.

(** X15. When the column names are distinct and every fetched row has at
    least that many cells, [execute_sql] succeeds with one dict per row, in
    the order of the rows, that pairs each column with the cell at its
    position, in the order of the columns. *)
Theorem rows_become_dicts
        (W : Type) (h : handler W) (sql_query : string) (w w1 : W) (t : table) :
  h _ (SqlExecute sql_query) w = (Ok t, w1) ->
  NoDup (columns t) ->
  Forall (fun row => List.length (columns t) <= List.length row) (fetched t) ->
  run h (FunctionTools.execute_sql sql_query) w
  = ((true, Some (map (combine (columns t)) (fetched t)), Some (columns t), ""),
     w1, [Call (SqlExecute sql_query)]).
Proof.
  intros Hanswer Hnodup Hwide.
  unfold FunctionTools.execute_sql, trigger. cbn [bind run]. rewrite Hanswer.
  assert (Hfill : FunctionTools.fill_rows (columns t) (fetched t)
                  = Ok (map (combine (columns t)) (fetched t))).
  { induction Hwide as [|row rows Hrow Hrows IH]; [reflexivity|].
    cbn [FunctionTools.fill_rows map].
    rewrite (fill_row_combine (columns t) row [] Hnodup); [|intros k _ []|exact Hrow].
    rewrite IH. reflexivity. }
  rewrite Hfill. reflexivity.
Qed.

Lemma rows_become_dicts_witness :
  run healthy_database (FunctionTools.execute_sql "SELECT id, phone FROM customers") 0
  = ((true, Some [[("id", "1"); ("phone", "555-123-4567")]], Some ["id"; "phone"], ""),
     1, [Call (SqlExecute "SELECT id, phone FROM customers")]).
Proof.
  apply (rows_become_dicts nat healthy_database "SELECT id, phone FROM customers" 0 1
           {| columns := ["id"; "phone"]; fetched := [["1"; "555-123-4567"]] |}).
  - reflexivity.
  - repeat constructor; cbn; intuition discriminate.
  - repeat constructor.
Defined.

(** X16. When a fetched row has fewer cells than there are columns,
    [execute_sql] reports a failure with the message of the IndexError, and
    the database tool treats the statement as one that failed to execute. *)
Theorem short_row_is_a_failure
        (W : Type) (h : handler W) (sql_query : string) (w w1 : W) (t : table)
        (before after : list (list string)) (row : list string) :
  h _ (SqlExecute sql_query) w = (Ok t, w1) ->
  fetched t = (before ++ row :: after)%list ->
  Forall (fun r => List.length (columns t) <= List.length r) before ->
  List.length row < List.length (columns t) ->
  run h (FunctionTools.execute_sql sql_query) w
  = ((false, None, None, "tuple index out of range"), w1, [Call (SqlExecute sql_query)]).
Proof.
  intros Hanswer Hrows Hbefore Hshort.
  unfold FunctionTools.execute_sql, trigger. cbn [bind run]. rewrite Hanswer, Hrows.
  assert (Hfill : FunctionTools.fill_rows (columns t) (before ++ row :: after)
                  = Raise "tuple index out of range").
  { clear Hrows Hanswer.
    induction Hbefore as [|r rs Hr Hrs IH]; cbn [app FunctionTools.fill_rows].
    - rewrite (fill_row_short _ _ _ Hshort). reflexivity.
    - destruct (FunctionTools.fill_row (columns t) r []) as [d | e] eqn:Hfill.
      + rewrite IH. reflexivity.
      + exfalso. clear - Hfill Hr.
        assert (Hok : forall cs rw d0, List.length cs <= List.length rw ->
                        exists d1, FunctionTools.fill_row cs rw d0 = Ok d1).
        { induction cs as [|c cs IHc]; intros rw d0 Hl; [eexists; reflexivity|].
          destruct rw as [|v vs]; [cbn in Hl; lia|].
          cbn [FunctionTools.fill_row]. apply IHc. cbn in Hl. lia. }
        destruct (Hok _ _ [] Hr) as [d1 Hd1]. congruence. }
  rewrite Hfill. reflexivity.
Qed.

Lemma short_row_is_a_failure_witness :
  run short_rows (FunctionTools.execute_sql "SELECT id, phone FROM customers") tt
  = ((false, None, None, "tuple index out of range"), tt,
     [Call (SqlExecute "SELECT id, phone FROM customers")]).
Proof.
  apply (short_row_is_a_failure unit short_rows "SELECT id, phone FROM customers" tt tt
           {| columns := ["id"; "phone"]; fetched := [["1"]] |} [] [] ["1"]);
    try reflexivity.
  - constructor.
  - cbn. lia.
Defined.

(** ** From the text of the database tool back to its columns *)

Lemma startswith_through (c : ascii) (pat p rest : string) :
  free_of c pat = true ->
  Py.startswith pat (p ++ String c rest) = Py.startswith pat p.
Proof.
  revert p; induction pat as [|a pat IH]; intros p Hfree; [reflexivity|].
  unfold free_of in Hfree. cbn [list_ascii_of_string forallb] in Hfree.
  apply andb_true_iff in Hfree as [Ha Hpat]. apply negb_true_iff in Ha.
  destruct p as [|b p]; cbn [append Py.startswith].
  - rewrite Ha. reflexivity.
  - rewrite (IH p Hpat). reflexivity.
Qed.

Lemma search_columns_skip (p rest : string) :
  Py.contains "COLUMNS:" p = false ->
  AgentCoordinator.search_columns (p ++ String (Py.chr 10) rest)
  = AgentCoordinator.search_columns (String (Py.chr 10) rest).
Proof.
  induction p as [|b p IH]; intros Hno; [reflexivity|].
  cbn [Py.contains] in Hno.
  destruct (Py.startswith "COLUMNS:" (String b p)) eqn:Hpre; [discriminate|].
  change (String b p ++ String (Py.chr 10) rest)
    with (String b (p ++ String (Py.chr 10) rest)).
  cbn [AgentCoordinator.search_columns].
  change (String b (p ++ String (Py.chr 10) rest))
    with (String b p ++ String (Py.chr 10) rest).
  rewrite (startswith_through (Py.chr 10) "COLUMNS:" (String b p) rest eq_refl), Hpre.
  apply IH, Hno.
Qed.

Lemma line_head_append (x y : string) :
  free_of (Py.chr 10) x = true ->
  AgentCoordinator.line_head (x ++ String (Py.chr 10) y) = x.
Proof.
  unfold free_of. induction x as [|c x IH]; intros Hfree.
  - reflexivity.
  - cbn [list_ascii_of_string forallb] in Hfree.
    apply andb_true_iff in Hfree as [Hc Hx].
    apply negb_true_iff in Hc.
    cbn [append AgentCoordinator.line_head]. rewrite Hc, (IH Hx). reflexivity.
Qed.

Lemma repr_char_one_line (q : ascii) (c : ascii) :
  q = Py.chr 34 \/ q = Py.chr 39 -> free_of (Py.chr 10) (Py.repr_char q c) = true.
Proof.
  intros [-> | ->]; destruct c as [[] [] [] [] [] [] [] []]; reflexivity.
Qed.

Lemma repr_body_one_line (q : ascii) (s : string) :
  q = Py.chr 34 \/ q = Py.chr 39 -> free_of (Py.chr 10) (Py.repr_body q s) = true.
Proof.
  intros Hq. induction s as [|c s IH]; [reflexivity|].
  cbn [Py.repr_body]. rewrite free_of_append, (repr_char_one_line q c Hq). exact IH.
Qed.

Lemma free_of_cons (c d : ascii) (s : string) :
  free_of c (String d s) = negb (Ascii.eqb d c) && free_of c s.
Proof. reflexivity. Qed.

Lemma repr_str_one_line (s : string) : free_of (Py.chr 10) (Py.repr_str s) = true.
Proof.
  unfold Py.repr_str.
  destruct (Py.contains Py.squote s && negb (Py.contains Py.dquote s)).
  - change (String (Py.chr 34) (Py.repr_body (Py.chr 34) s) ++ String (Py.chr 34) "")
      with (String (Py.chr 34) (Py.repr_body (Py.chr 34) s ++ String (Py.chr 34) "")).
    rewrite free_of_cons, free_of_append, repr_body_one_line by auto. reflexivity.
  - change (String (Py.chr 39) (Py.repr_body (Py.chr 39) s) ++ String (Py.chr 39) "")
      with (String (Py.chr 39) (Py.repr_body (Py.chr 39) s ++ String (Py.chr 39) "")).
    rewrite free_of_cons, free_of_append, repr_body_one_line by auto. reflexivity.
Qed.

Lemma join_one_line (parts : list string) :
  Forall (fun p => free_of (Py.chr 10) p = true) parts ->
  free_of (Py.chr 10) (Py.join ", " parts) = true.
Proof.
  induction 1 as [|p rest Hp Hrest IH]; [reflexivity|].
  destruct rest as [|p2 rest]; [exact Hp|].
  change (Py.join ", " (p :: p2 :: rest)) with (p ++ ", " ++ Py.join ", " (p2 :: rest)).
  rewrite !free_of_append, Hp, IH. reflexivity.
Qed.

Lemma repr_list_one_line (names : list string) :
  free_of (Py.chr 10) (Py.repr_list names) = true.
Proof.
  unfold Py.repr_list. rewrite !free_of_append, join_one_line; [reflexivity|].
  apply Forall_forall. intros p Hp. apply in_map_iff in Hp as (s & <- & _).
  apply repr_str_one_line.
Qed.

Lemma repr_list_trimmed (names : list string) :
  Py.strip (Py.repr_list names) = Py.repr_list names.
Proof.
  unfold Py.repr_list. apply strip_of_parts; [reflexivity|].
  rewrite <- append_assoc.
  apply rstrip_append; [reflexivity | discriminate].
Qed.

Lemma search_columns_of_result (sql_query : string)
      (results : option (list FunctionTools.row_dict)) (names : list string) :
  Py.contains "COLUMNS:" ("SQL Query: " ++ sql_query) = false ->
  AgentCoordinator.search_columns
    (FunctionTools.format_result sql_query results (Some names))
  = Some (Py.repr_list names).
Proof.
  intros Hno. unfold FunctionTools.format_result.
  cbn [FunctionTools.str_of_columns].
  set (tail := Py.nl ++ "Database Results:" ++ Py.nl ++ _).
  rewrite <- (append_assoc "SQL Query: " sql_query).
  change (Py.nl ++ Py.nl ++ "COLUMNS: " ++ Py.repr_list names ++ Py.nl ++ tail)
    with (String (Py.chr 10)
            (String (Py.chr 10)
               ("COLUMNS: " ++ Py.repr_list names ++ String (Py.chr 10) tail))).
  rewrite (search_columns_skip _ _ Hno).
  unfold Py.repr_list at 1.
  change (AgentCoordinator.search_columns _)
    with (Some (AgentCoordinator.line_head
                  (("[" ++ Py.join ", " (map Py.repr_str names) ++ "]")
                   ++ String (Py.chr 10) tail))).
  fold (Py.repr_list names).
  rewrite line_head_append by apply repr_list_one_line. reflexivity.
Qed.

(** X17. The coordinator reads back the column text that the database tool
    printed: when the statement does not itself hold the marker "COLUMNS:",
    the search of the coordinator in the formatted result finds [str] of the
    column names, already trimmed; and when [ast.literal_eval] reads that
    text back as the names and one of them is flagged, the check hands the
    whole result, with that text, to the PII tool. *)
Theorem coordinator_reads_back_columns
        (sql_query : string) (results : option (list FunctionTools.row_dict))
        (names : list string) :
  Py.contains "COLUMNS:" ("SQL Query: " ++ sql_query) = false ->
  let text := FunctionTools.format_result sql_query results (Some names) in
  Py.contains "COLUMNS:" text = true
  /\ AgentCoordinator.search_columns text = Some (Py.repr_list names)
  /\ Py.strip (Py.repr_list names) = Py.repr_list names
  /\ (forall literal_eval function_tools,
        literal_eval (Py.repr_list names) = Ok (LitNames names) ->
        FunctionTools.detect_pii_fields names <> [] ->
        List.find (fun tool => Py.contains "pii" (Py.lower (fn_name tool))) function_tools
        = Some (Catalog.pii_tool literal_eval) ->
        AgentCoordinator._check_and_apply_pii_protection literal_eval function_tools
          "database_query_tool" text
        = Ret (Ok (FunctionTools.pii_protection_tool literal_eval text
                     (FunctionTools.ColumnsText (Py.repr_list names))))).
Proof.
  intros Hno text.
  assert (Hmark : Py.contains "COLUMNS:" text = true).
  { unfold text, FunctionTools.format_result.
    do 4 apply contains_later. apply contains_of_startswith. reflexivity. }
  pose proof (search_columns_of_result sql_query results names Hno) as Hsearch.
  pose proof (repr_list_trimmed names) as Htrim.
  split; [exact Hmark|]. split; [exact Hsearch|]. split; [exact Htrim|].
  intros literal_eval function_tools Hread Hpii Hfind.
  apply (coordinator_hands_over literal_eval function_tools "database_query_tool" text
           (Py.repr_list names) names); try assumption.
  - reflexivity.
  - rewrite Htrim. exact Hread.
Qed.

Lemma coordinator_reads_back_columns_witness :
  AgentCoordinator.search_columns
    (FunctionTools.format_result "SELECT id, phone FROM customers"
       (Some [[("id", "1"); ("phone", "555-123-4567")]]) (Some ["id"; "phone"]))
  = Some "['id', 'phone']".
Proof.
  refine (proj1 (proj2 (coordinator_reads_back_columns "SELECT id, phone FROM customers"
                          (Some [[("id", "1"); ("phone", "555-123-4567")]])
                          ["id"; "phone"] _))).
  reflexivity.
Defined.

(** ** The cells of the formatted result *)

Lemma format_row_from (row : FunctionTools.row_dict) :
  forall acc,
    exists tail,
      fold_left (fun acc kv => acc ++ "  " ++ fst kv ++ ": " ++ snd kv ++ Py.nl) row acc
      = acc ++ tail
      /\ forall col value, In (col, value) row ->
                           Py.contains (cell_line col value ++ Py.nl) tail = true.
Proof.
  induction row as [|[k x] row IH]; intros acc.
  - exists "". split; [cbn; rewrite append_empty_r; reflexivity | intros ? ? []].
  - cbn [fold_left fst snd].
    destruct (IH (acc ++ "  " ++ k ++ ": " ++ x ++ Py.nl)) as (tail & Htail & Hcells).
    exists (("  " ++ k ++ ": " ++ x ++ Py.nl) ++ tail). split.
    + rewrite Htail, append_assoc. reflexivity.
    + intros col value [Heq | Hin].
      * injection Heq as <- <-. apply contains_before.
        unfold cell_line. cbn [append]. rewrite !append_assoc. apply contains_self.
      * apply contains_later, Hcells, Hin.
Qed.

Lemma format_rows_cells (results : list FunctionTools.row_dict) :
  forall i row col value,
    In row results -> In (col, value) row ->
    Py.contains (cell_line col value ++ Py.nl) (FunctionTools.format_rows i results) = true.
Proof.
  induction results as [|r rest IH]; intros i row col value Hrow Hcell; [destruct Hrow|].
  cbn [FunctionTools.format_rows].
  destruct Hrow as [-> | Hrow].
  - do 4 apply contains_later. apply contains_before.
    unfold FunctionTools.format_row.
    destruct (format_row_from row "") as (tail & -> & Hcells).
    apply Hcells, Hcell.
  - do 6 apply contains_later. apply (IH (S i) row); assumption.
Qed.

(** X18. Every cell of every row of a result is printed by the database tool
    as a line "  column: value": the formatted text holds that line, newline
    included, for each item of each row dict. *)
Theorem every_cell_is_printed
        (sql_query : string) (results : list FunctionTools.row_dict)
        (column_names : option (list string))
        (row : FunctionTools.row_dict) (col value : string) :
  In row results -> In (col, value) row ->
  Py.contains (cell_line col value ++ Py.nl)
    (FunctionTools.format_result sql_query (Some results) column_names) = true.
Proof.
  intros Hrow Hcell. unfold FunctionTools.format_result.
  do 10 apply contains_later.
  destruct results as [|r rest]; [destruct Hrow|].
  apply (format_rows_cells (r :: rest) 1 row); assumption.
Qed.

Lemma every_cell_is_printed_witness :
  Py.contains (cell_line "phone" "555-123-4567" ++ Py.nl)
    (FunctionTools.format_result "SELECT id, phone FROM customers"
       (Some [[("id", "1"); ("phone", "555-123-4567")]]) (Some ["id"; "phone"])) = true.
Proof.
  apply (every_cell_is_printed "SELECT id, phone FROM customers"
           [[("id", "1"); ("phone", "555-123-4567")]] (Some ["id"; "phone"])
           [("id", "1"); ("phone", "555-123-4567")]).
  - left; reflexivity.
  - right; left; reflexivity.
Defined.

(** ** The retry of the database tool, and the text it returns *)

Lemma fill_rows_length (column_names : list string) (rows : list (list string)) :
  forall results,
    FunctionTools.fill_rows column_names rows = Ok results ->
    List.length results = List.length rows.
Proof.
  induction rows as [|r rs IH]; intros results Hfill; cbn [FunctionTools.fill_rows] in Hfill.
  - injection Hfill as <-. reflexivity.
  - destruct (FunctionTools.fill_row column_names r []) as [d | e]; [|discriminate].
    destruct (FunctionTools.fill_rows column_names rs) as [ds | e]; [|discriminate].
    injection Hfill as <-. cbn [List.length]. rewrite (IH ds eq_refl). reflexivity.
Qed.

(** A successful [execute_sql] has read a table from sqlite and turned
    every fetched row into a dict. *)
Lemma execute_sql_success (W : Type) (h : handler W) (sql : string) (w w1 : W)
      (results : option (list FunctionTools.row_dict)) (column_names : option (list string))
      (error : string) (calls : list call) :
  run h (FunctionTools.execute_sql sql) w = ((true, results, column_names, error), w1, calls) ->
  exists t rows,
    h _ (SqlExecute sql) w = (Ok t, w1)
    /\ FunctionTools.fill_rows (columns t) (fetched t) = Ok rows
    /\ results = Some rows
    /\ column_names = Some (columns t).
Proof.
  unfold FunctionTools.execute_sql, trigger. cbn [bind run].
  destruct (h _ (SqlExecute sql) w) as [[t | e] w'] eqn:Hcall; cbn.
  - destruct (FunctionTools.fill_rows (columns t) (fetched t)) as [rows | e] eqn:Hfill; cbn;
      intros Hrun; [|discriminate].
    inversion Hrun; subst. exists t, rows. repeat split; assumption || reflexivity.
  - intros Hrun. discriminate.
Qed.

(** C6. When the first generated statement fails to execute, the statement is
    generated once more, by one completion call whose prompt carries the error
    of the first execution, and executed; the tool makes these four calls and
    no other. If the second execution fails too, the tool returns the text
    "Database query failed: <error>" with the statement attempted. If it
    succeeds, the text that the tool returns is that of the second
    execution: its first line is "SQL Query: " with the second statement, its
    COLUMNS line prints the column names that sqlite reported for that
    statement, and under "Database Results:" it has "No results found." when
    no row was fetched and else the line "  column: value" of every cell of
    the dicts made from the rows fetched by that statement. *)
Theorem database_query_tool_retries_once
        (db_schema : string) (W : Type) (h : handler W) (query : string)
        (w w1 w2 w3 w4 : W) (sql1 sql2 error1 error2 : string)
        (results1 results2 : option (list FunctionTools.row_dict))
        (columns1 columns2 : option (list string)) (success2 : bool)
        (t1 t2 t3 t4 : list call) :
  run h (FunctionTools.generate_sql db_schema query None) w = (sql1, w1, t1) ->
  run h (FunctionTools.execute_sql sql1) w1 = ((false, results1, columns1, error1), w2, t2) ->
  run h (FunctionTools.generate_sql db_schema query (Some error1)) w2 = (sql2, w3, t3) ->
  run h (FunctionTools.execute_sql sql2) w3
  = ((success2, results2, columns2, error2), w4, t4) ->
  run h (FunctionTools.database_query_tool db_schema query) w
  = (if success2
     then FunctionTools.format_result sql2 results2 columns2
     else "Database query failed: " ++ error2 ++ Py.nl ++ "SQL attempted: " ++ sql2,
     w4,
     [Call (LlmComplete (FunctionTools.sql_prompt db_schema query None));
      Call (SqlExecute sql1);
      Call (LlmComplete (FunctionTools.sql_prompt db_schema query (Some error1)));
      Call (SqlExecute sql2)])
  /\ Py.contains error1 (FunctionTools.sql_prompt db_schema query (Some error1)) = true
  /\ (success2 = true ->
      exists (t : table) (rows : list FunctionTools.row_dict) (body : string),
        h _ (SqlExecute sql2) w3 = (Ok t, w4)
        /\ FunctionTools.fill_rows (columns t) (fetched t) = Ok rows
        /\ List.length rows = List.length (fetched t)
        /\ fst (fst (run h (FunctionTools.database_query_tool db_schema query) w))
           = "SQL Query: " ++ sql2 ++ Py.nl ++ Py.nl
             ++ "COLUMNS: " ++ Py.repr_list (columns t) ++ Py.nl ++ Py.nl
             ++ "Database Results:" ++ Py.nl
             ++ body
        /\ (fetched t = [] -> body = "No results found.")
        /\ (forall row col value,
              In row rows -> In (col, value) row ->
              Py.contains (cell_line col value ++ Py.nl) body = true)).
Proof.
  intros Hgen1 Hexe1 Hgen2 Hexe2.
  assert (Hrun :
    run h (FunctionTools.database_query_tool db_schema query) w
    = (if success2
       then FunctionTools.format_result sql2 results2 columns2
       else "Database query failed: " ++ error2 ++ Py.nl ++ "SQL attempted: " ++ sql2,
       w4,
       [Call (LlmComplete (FunctionTools.sql_prompt db_schema query None));
        Call (SqlExecute sql1);
        Call (LlmComplete (FunctionTools.sql_prompt db_schema query (Some error1)));
        Call (SqlExecute sql2)])).
  { destruct (run_generate_sql db_schema W h query None w) as (s1 & v1 & E1).
    destruct (run_execute_sql W h sql1 w1) as (a1 & v2 & E2).
    destruct (run_generate_sql db_schema W h query (Some error1) w2) as (s2 & v3 & E3).
    destruct (run_execute_sql W h sql2 w3) as (a2 & v4 & E4).
    rewrite Hgen1 in E1. rewrite Hexe1 in E2. rewrite Hgen2 in E3. rewrite Hexe2 in E4.
    injection E1 as _ _ ->. injection E2 as _ _ ->.
    injection E3 as _ _ ->. injection E4 as _ _ ->.
    unfold FunctionTools.database_query_tool.
    rewrite run_bind, Hgen1.
    rewrite run_bind, Hexe1.
    cbn [negb].
    rewrite run_bind. rewrite run_bind, Hgen2.
    rewrite run_bind, Hexe2.
    destruct success2; reflexivity. }
  split; [exact Hrun|]. split.
  - unfold FunctionTools.sql_prompt.
    destruct error1 as [|c error1]; [apply contains_empty|].
    do 11 apply contains_later. apply contains_before.
    do 2 apply contains_later. apply contains_here.
  - intros ->. rewrite Hrun. cbn [fst].
    destruct (execute_sql_success W h sql2 w3 w4 results2 columns2 error2 t4 Hexe2)
      as (t & rows & Hcall & Hfill & -> & ->).
    pose proof (fill_rows_length _ _ _ Hfill) as Hlen.
    exists t, rows,
      (match rows with [] => "No results found." | _ => FunctionTools.format_rows 1 rows end).
    split; [exact Hcall|]. split; [exact Hfill|]. split; [exact Hlen|]. split; [|split].
    + unfold FunctionTools.format_result, FunctionTools.str_of_columns.
      destruct rows; reflexivity.
    + intros Hnone. rewrite Hnone in Hlen. destruct rows; [reflexivity | discriminate Hlen].
    + intros row col value Hrow Hcell.
      destruct rows as [|r rest]; [destruct Hrow|].
      apply (format_rows_cells (r :: rest) 1 row); assumption.
Qed.

(** The first statement names a column that does not exist; the second one
    executes, and the text returned is that of its single row. *)
Lemma database_query_tool_retries_once_witness :
  run flaky_database (FunctionTools.database_query_tool "" "phone of customer 1") 0
  = ("SQL Query: SELECT id, phone FROM customers" ++ Py.nl ++ Py.nl
     ++ "COLUMNS: ['id', 'phone']" ++ Py.nl ++ Py.nl
     ++ "Database Results:" ++ Py.nl
     ++ "Row 1:" ++ Py.nl
     ++ "  id: 1" ++ Py.nl
     ++ "  phone: 555-123-4567" ++ Py.nl ++ Py.nl,
     2,
     [Call (LlmComplete (FunctionTools.sql_prompt "" "phone of customer 1" None));
      Call (SqlExecute first_sql);
      Call (LlmComplete (FunctionTools.sql_prompt "" "phone of customer 1"
                           (Some "no such column: fone")));
      Call (SqlExecute second_sql)])
  /\ Py.contains "no such column: fone"
       (FunctionTools.sql_prompt "" "phone of customer 1" (Some "no such column: fone"))
     = true
  /\ exists (t : table) (rows : list FunctionTools.row_dict) (body : string),
       flaky_database _ (SqlExecute second_sql) 1 = (Ok t, 2)
       /\ FunctionTools.fill_rows (columns t) (fetched t) = Ok rows
       /\ List.length rows = List.length (fetched t)
       /\ fst (fst (run flaky_database
                      (FunctionTools.database_query_tool "" "phone of customer 1") 0))
          = "SQL Query: " ++ second_sql ++ Py.nl ++ Py.nl
            ++ "COLUMNS: " ++ Py.repr_list (columns t) ++ Py.nl ++ Py.nl
            ++ "Database Results:" ++ Py.nl
            ++ body
       /\ (fetched t = [] -> body = "No results found.")
       /\ (forall row col value,
             In row rows -> In (col, value) row ->
             Py.contains (cell_line col value ++ Py.nl) body = true).
Proof.
  destruct (database_query_tool_retries_once
              "" nat flaky_database "phone of customer 1" 0 0 1 1 2
              first_sql second_sql "no such column: fone" ""
              None (Some [[("id", "1"); ("phone", "555-123-4567")]])
              None (Some ["id"; "phone"]) true
              [Call (LlmComplete (FunctionTools.sql_prompt "" "phone of customer 1" None))]
              [Call (SqlExecute first_sql)]
              [Call (LlmComplete (FunctionTools.sql_prompt "" "phone of customer 1"
                                    (Some "no such column: fone")))]
              [Call (SqlExecute second_sql)])
    as (Hrun & Hprompt & Htext); try reflexivity.
  split; [exact Hrun|]. split; [exact Hprompt|]. exact (Htext eq_refl).
Defined.

(** ** The tickers of the market tool *)

(** X19. The market tool fetches the tickers of the companies that the
    lower-cased query names, in the fixed order AAPL, TSLA, GOOGL and each
    once, and all three when the query names none; the list is never
    empty. *)
Theorem symbols_to_fetch_exact (query : string) :
  let q := Py.lower query in
  let apple := Py.contains "apple" q || Py.contains "aapl" q in
  let tesla := Py.contains "tesla" q || Py.contains "tsla" q in
  let google :=
    Py.contains "google" q || Py.contains "googl" q || Py.contains "alphabet" q in
  FunctionTools.symbols_to_fetch query
  = (if apple || tesla || google
     then (if apple then ["AAPL"] else [])
          ++ (if tesla then ["TSLA"] else [])
          ++ (if google then ["GOOGL"] else [])
     else ["AAPL"; "TSLA"; "GOOGL"])%list
  /\ FunctionTools.symbols_to_fetch query <> []
  /\ NoDup (FunctionTools.symbols_to_fetch query).
Proof.
  cbv zeta.
  set (apple := Py.contains "apple" (Py.lower query) || Py.contains "aapl" (Py.lower query)).
  set (tesla := Py.contains "tesla" (Py.lower query) || Py.contains "tsla" (Py.lower query)).
  set (google := Py.contains "google" (Py.lower query)
                 || Py.contains "googl" (Py.lower query)
                 || Py.contains "alphabet" (Py.lower query)).
  assert (Hexact :
    FunctionTools.symbols_to_fetch query
    = (if apple || tesla || google
       then (if apple then ["AAPL"] else [])
            ++ (if tesla then ["TSLA"] else [])
            ++ (if google then ["GOOGL"] else [])
       else ["AAPL"; "TSLA"; "GOOGL"])%list).
  { unfold apple, tesla, google, FunctionTools.symbols_to_fetch,
      FunctionTools.company_mappings.
    cbn [fold_left FunctionTools.symbol_step].
    generalize (Py.contains "apple" (Py.lower query)),
               (Py.contains "aapl" (Py.lower query)),
               (Py.contains "tesla" (Py.lower query)),
               (Py.contains "tsla" (Py.lower query)),
               (Py.contains "google" (Py.lower query)),
               (Py.contains "googl" (Py.lower query)),
               (Py.contains "alphabet" (Py.lower query)).
    intros [] [] [] [] [] [] []; vm_compute; reflexivity. }
  split; [exact Hexact|]. rewrite Hexact.
  assert (Hab : "AAPL" <> "TSLA") by discriminate.
  assert (Hac : "AAPL" <> "GOOGL") by discriminate.
  assert (Hbc : "TSLA" <> "GOOGL") by discriminate.
  destruct apple, tesla, google; cbn [orb app]; (split; [discriminate|]);
    repeat constructor; cbn [In]; intuition congruence.
Qed.

(** ** Status and the list of tools *)

Lemma fold_names {A : Type} (name : A -> string) (tools : list A) :
  forall acc,
    fold_left (fun tool_names tool => (tool_names ++ [name tool])%list) tools acc
    = (acc ++ map name tools)%list.
Proof.
  induction tools as [|t tools IH]; intros acc; cbn [fold_left map].
  - rewrite app_nil_r. reflexivity.
  - rewrite IH, <- app_assoc. reflexivity.
Qed.

(** X20. [list_available_tools] names the tools in the order of the indices
    of the router; its length is the [total_tools] of [get_status] and of
    [get_available_tools]; and [get_status] reports the system ready exactly
    when [get_available_tools] names both groups of tools. *)
Theorem status_agrees_with_catalog
        (companies : list string)
        (document_tools : list DocumentTool) (function_tools : list FunctionTool) :
  let names := AgentCoordinator.list_available_tools document_tools function_tools in
  let status := AgentCoordinator.get_status companies document_tools function_tools in
  let available := AgentCoordinator.get_available_tools document_tools function_tools in
  names = map (fun entry => fst (fst entry))
              (AgentCoordinator.all_tools document_tools function_tools)
  /\ List.length names = AgentCoordinator.status_total_tools status
  /\ AgentCoordinator.status_total_tools status
     = AgentCoordinator.available_total_tools available
  /\ (AgentCoordinator.status_ready status = true
      <-> AgentCoordinator.available_document_tools available <> []
          /\ AgentCoordinator.available_function_tools available <> []).
Proof.
  cbv zeta.
  assert (Hnames :
    AgentCoordinator.list_available_tools document_tools function_tools
    = (map doc_name document_tools ++ map fn_name function_tools)%list).
  { unfold AgentCoordinator.list_available_tools. rewrite !fold_names. reflexivity. }
  split; [|split; [|split]].
  - rewrite Hnames. unfold AgentCoordinator.all_tools.
    rewrite map_app, !map_map. reflexivity.
  - rewrite Hnames, length_app, !length_map. reflexivity.
  - reflexivity.
  - cbn [AgentCoordinator.get_status AgentCoordinator.get_available_tools
         AgentCoordinator.status_ready AgentCoordinator.available_document_tools
         AgentCoordinator.available_function_tools].
    destruct (3 <=? List.length document_tools)%nat,
             (3 <=? List.length function_tools)%nat; cbn;
      split; try discriminate; try (intros [H1 H2]; congruence);
      intros _; split; discriminate.
Qed.

(** ** The fallback and the function tools *)

(** X21. In the lexical fallback the database tool is selected exactly when
    the lower-cased query holds one of "customer", "portfolio", "holding",
    "database", the market tool exactly when it holds one of "price",
    "stock", "market", "current", and the PII tool never. *)
Theorem fallback_function_tools (query_lower : string) :
  AgentCoordinator.fallback_selects "database_query_tool" query_lower
  = AgentCoordinator.any_in AgentCoordinator.database_keywords query_lower
  /\ AgentCoordinator.fallback_selects "finance_market_search_tool" query_lower
     = AgentCoordinator.any_in AgentCoordinator.market_keywords query_lower
  /\ AgentCoordinator.fallback_selects "pii_protection_tool" query_lower = false.
Proof.
  unfold AgentCoordinator.fallback_selects.
  change (Py.lower "database_query_tool") with "database_query_tool".
  change (Py.lower "finance_market_search_tool") with "finance_market_search_tool".
  change (Py.lower "pii_protection_tool") with "pii_protection_tool".
  repeat match goal with
         | |- context [Py.contains ?k (String ?c ?t)] =>
             let v := eval vm_compute in (Py.contains k (String c t)) in
             change (Py.contains k (String c t)) with v
         end.
  cbn [andb orb].
  destruct (AgentCoordinator.any_in AgentCoordinator.database_keywords query_lower),
           (AgentCoordinator.any_in AgentCoordinator.market_keywords query_lower);
    repeat split; reflexivity.
Qed.

(** ** What the router does with odd selections *)

(** X22. Applied to the text of a result of the database tool whose COLUMNS
    line evaluates to a value that is true and cannot be iterated, such as a
    number, the check of the coordinator raises the TypeError of the
    detection, "'<type>' object is not iterable": the call of
    [_detect_pii_fields] stands outside the two [try] blocks of the check,
    and no tool is called. *)
Theorem scalar_columns_raise_in_check
        (literal_eval : string -> outcome literal) (function_tools : list FunctionTool)
        (W : Type) (h : handler W) (w : W)
        (tool_name result group1 type_name : string) :
  Py.contains "database_query_tool" tool_name = true ->
  Py.contains "COLUMNS:" result = true ->
  AgentCoordinator.search_columns result = Some group1 ->
  literal_eval (Py.strip group1) = Ok (LitScalar true type_name) ->
  run h (AgentCoordinator._check_and_apply_pii_protection literal_eval function_tools
           tool_name result) w
  = (Raise (not_iterable type_name), w, []).
Proof.
  intros Hname Hmark Hsearch Hscalar.
  unfold AgentCoordinator._check_and_apply_pii_protection.
  rewrite Hname, Hmark, Hsearch, Hscalar. reflexivity.
Qed.

Lemma scalar_columns_raise_in_check_witness :
  run offline
      (AgentCoordinator._check_and_apply_pii_protection Catalog.literal_eval
         (Catalog.function_tools Catalog.literal_eval "") "database_query_tool"
         ("COLUMNS: 5" ++ Py.nl ++ "Database Results:")) tt
  = (Raise "'int' object is not iterable", tt, []).
Proof.
  apply (scalar_columns_raise_in_check Catalog.literal_eval
           (Catalog.function_tools Catalog.literal_eval "") unit offline tt
           "database_query_tool" ("COLUMNS: 5" ++ Py.nl ++ "Database Results:") "5" "int");
    reflexivity.
Defined.

(** X23. When the only index that the model selects is that of a function
    tool the loop takes for the PII tool, no tool is run: [_route_query]
    returns no result after its single completion call and [query] answers
    with the fixed message. *)
Theorem pii_tool_alone_is_never_run
        (literal_eval : string -> outcome literal)
        (document_tools : list DocumentTool) (function_tools : list FunctionTool)
        (W : Type) (h : handler W) (question response_text tool_name tool_desc : string)
        (tool : AgentCoordinator.tool_ref) (idx : nat) (w w1 : W) :
  let prompt := AgentCoordinator.routing_prompt document_tools function_tools question in
  h _ (LlmComplete prompt) w = (Ok response_text, w1) ->
  AgentCoordinator.select_indices document_tools function_tools question response_text
  = Ok [idx] ->
  nth_error (AgentCoordinator.all_tools document_tools function_tools) idx
  = Some (tool_name, tool_desc, tool) ->
  passed_over tool_name tool = true ->
  run h (AgentCoordinator.query literal_eval document_tools function_tools question) w
  = (AgentCoordinator.unable_message, w1, [Call (LlmComplete prompt)]).
Proof.
  intros prompt Hanswer Hselect Hnth Hover.
  assert (Hroute :
    run h (AgentCoordinator._route_query literal_eval document_tools function_tools
             question) w = ([], w1, [Call (LlmComplete prompt)])).
  { unfold AgentCoordinator._route_query, trigger. cbn [bind run].
    fold prompt. rewrite Hanswer, Hselect.
    rewrite execute_tools_cons, Hnth.
    unfold AgentCoordinator.execute_tool. rewrite run_bind.
    rewrite (invoke_tool_passed_over literal_eval function_tools W h _ _ _ _ Hover).
    reflexivity. }
  unfold AgentCoordinator.query. rewrite run_bind, Hroute. reflexivity.
Qed.

Lemma pii_tool_alone_is_never_run_witness :
  run pii_selected
      (AgentCoordinator.query Catalog.literal_eval Catalog.document_tools
         (Catalog.function_tools Catalog.literal_eval "") "mask my data") tt
  = (AgentCoordinator.unable_message, tt,
     [Call (LlmComplete
              (AgentCoordinator.routing_prompt Catalog.document_tools
                 (Catalog.function_tools Catalog.literal_eval "") "mask my data"))]).
Proof.
  apply (pii_tool_alone_is_never_run Catalog.literal_eval Catalog.document_tools
           (Catalog.function_tools Catalog.literal_eval "") unit pii_selected
           "mask my data" "5" "pii_protection_tool"
           (fn_description (Catalog.pii_tool Catalog.literal_eval))
           (AgentCoordinator.FunctionRef (Catalog.pii_tool Catalog.literal_eval)) 5 tt tt);
    reflexivity.
Defined.

(** ** The raw value after masking *)

Lemma startswith_stops (c : ascii) (v : string) :
  free_of c v = true ->
  forall a b, Py.startswith v (a ++ String c b) = Py.startswith v a.
Proof.
  induction v as [|x v IH]; intros Hfree a b; [reflexivity|].
  rewrite free_of_cons in Hfree. apply andb_true_iff in Hfree as [Hx Hv].
  destruct a as [|y a]; cbn [append Py.startswith].
  - apply negb_true_iff in Hx. rewrite Hx. reflexivity.
  - rewrite (IH Hv a b). reflexivity.
Qed.

Lemma contains_nothing (v : string) : v <> "" -> Py.contains v "" = false.
Proof. destruct v; [contradiction | reflexivity]. Qed.

(** A text without the character [c] stands in [a ++ c ++ b] only inside
    [a] or inside [b]. *)
Lemma contains_around (c : ascii) (v : string) :
  free_of c v = true -> v <> "" ->
  forall a b,
    Py.contains v (a ++ String c b) = Py.contains v a || Py.contains v b.
Proof.
  intros Hfree Hv a b. induction a as [|y a IH].
  - pose proof (startswith_stops c v Hfree "" b) as Hs. cbn [append] in *.
    rewrite (contains_nothing v Hv). cbn [orb].
    destruct v as [|x v]; [contradiction|].
    cbn [Py.contains]. rewrite Hs. reflexivity.
  - change ((String y a) ++ String c b) with (String y (a ++ String c b)).
    cbn [Py.contains].
    change (String y (a ++ String c b)) with ((String y a) ++ String c b).
    rewrite (startswith_stops c v Hfree (String y a) b), IH.
    destruct (Py.startswith v (String y a)); reflexivity.
Qed.

Lemma contains_length (v s : string) :
  Py.contains v s = true -> String.length v <= String.length s.
Proof.
  intros H. apply contains_split in H as (before & rest & ->).
  rewrite !length_append. lia.
Qed.

Lemma contains_digits (v s : string) :
  Py.contains v s = true ->
  String.length (Py.only_digits v) <= String.length (Py.only_digits s).
Proof.
  intros H. apply contains_split in H as (before & rest & ->).
  rewrite !only_digits_append, !length_append. lia.
Qed.

(** Before its first occurrence ends, a text does not occur. *)
Lemma find_prefix_free (v : string) :
  forall p q n,
    Py.find v (p ++ q) = Some n ->
    String.length p < n + String.length v ->
    Py.contains v p = false.
Proof.
  induction p as [|y p IH]; intros q n Hfind Hlen.
  - destruct v as [|x v]; [|reflexivity].
    cbn in Hfind. destruct q; cbn in Hfind; injection Hfind as <-; cbn in Hlen; lia.
  - change ((String y p) ++ q) with (String y (p ++ q)) in Hfind.
    cbn [Py.find] in Hfind. cbn [Py.contains].
    destruct (Py.startswith v (String y (p ++ q))) eqn:Hstart.
    + injection Hfind as <-.
      destruct (Py.contains v (String y p)) eqn:Hc.
      * apply contains_length in Hc. cbn [String.length] in *. lia.
      * cbn [Py.contains] in Hc. exact Hc.
    + destruct (Py.find v (p ++ q)) as [n'|] eqn:Hrest; [|discriminate].
      injection Hfind as <-.
      destruct (Py.startswith v (String y p)) eqn:Hhead.
      * apply (startswith_before v (String y p) q) in Hhead.
        cbn [append] in Hhead. congruence.
      * apply (IH q n' Hrest). cbn [String.length] in Hlen. lia.
Qed.

Lemma split_concat (sep : ascii) (s : string) :
  String.concat (String sep "") (Py.split sep s) = s.
Proof.
  induction s as [|c s IH]; [reflexivity|].
  cbn [Py.split].
  pose proof (split_nonempty sep s) as Hne.
  destruct (Py.split sep s) as [|h r] eqn:Hs; [contradiction|].
  destruct (Ascii.eqb c sep) eqn:Hc.
  - apply Ascii.eqb_eq in Hc as ->.
    change (String.concat (String sep "") ("" :: h :: r))
      with (String sep (String.concat (String sep "") (h :: r))).
    rewrite IH. reflexivity.
  - rewrite <- IH. destruct r; reflexivity.
Qed.

Lemma take_drop (n : nat) (s : string) : Py.take n s ++ Py.drop n s = s.
Proof.
  revert s; induction n as [|n IH]; intros [|c s]; cbn; try reflexivity.
  rewrite IH. reflexivity.
Qed.

Lemma length_nonempty (s : string) : s <> "" -> 0 < String.length s.
Proof. destruct s; [contradiction | cbn; lia]. Qed.

Section HiddenValue.

Variables c v : string.

Hypothesis v_not_empty : v <> "".
Hypothesis v_first : Py.find v (cell_line c v) = Some (String.length (label c)).
Hypothesis v_no_star : Py.contains "*" v = false.

Let m := FunctionTools.mask_field_value c v.

Lemma value_free_of_star : free_of "*" v = true.
Proof. rewrite free_of_contains, v_no_star. reflexivity. Qed.

Lemma label_free_of_value : Py.contains v (label c) = false.
Proof.
  apply (find_prefix_free v (label c) v (String.length (label c))).
  - rewrite <- cell_line_label. exact v_first.
  - pose proof (length_nonempty v v_not_empty). lia.
Qed.

(** Behind a run of asterisks that follows a text without the value, the
    value stands only in what comes after the run. *)
Lemma hidden_after_stars (k : nat) (tail : string) :
  forall a, Py.contains v a = false ->
            Py.contains v (a ++ Py.times "*" (S k) ++ tail) = Py.contains v tail.
Proof.
  induction k as [|k IH]; intros a Ha.
  - change (Py.times "*" 1 ++ tail) with (String "*" tail).
    rewrite (contains_around "*" v value_free_of_star v_not_empty), Ha. reflexivity.
  - change (Py.times "*" (S (S k)) ++ tail) with (String "*" (Py.times "*" (S k) ++ tail)).
    rewrite (contains_around "*" v value_free_of_star v_not_empty), Ha. cbn [orb].
    apply (IH ""), contains_nothing, v_not_empty.
Qed.

Lemma hidden_by_stars (k : nat) :
  Py.contains v (label c ++ Py.times "*" (S k)) = false.
Proof.
  rewrite <- (append_empty_r (Py.times "*" (S k))).
  rewrite (hidden_after_stars k "" (label c) label_free_of_value).
  apply contains_nothing, v_not_empty.
Qed.

Lemma hidden_by_short_stars :
  Py.contains v (label c ++ Py.times "*" (Nat.min (String.length v) 4)) = false.
Proof.
  pose proof (length_nonempty v v_not_empty) as Hlen.
  destruct (Nat.min (String.length v) 4) as [|k] eqn:Hmin; [lia|].
  apply hidden_by_stars.
Qed.

Lemma hidden_last_four (stars : nat) :
  4 < String.length (Py.only_digits v) ->
  Py.contains v (label c ++ "***-" ++ Py.times "*" (S stars) ++ "-"
                 ++ Py.last_chars 4 (Py.only_digits v)) = false.
Proof.
  intros Hdigits.
  assert (Hdash : Py.contains v "-" = false).
  { destruct (Py.contains v "-") eqn:Hc; [|reflexivity].
    apply contains_digits in Hc.
    change (Py.only_digits "-") with "" in Hc. cbn [String.length] in Hc. lia. }
  change ("***-" ++ Py.times "*" (S stars) ++ "-" ++ Py.last_chars 4 (Py.only_digits v))
    with (Py.times "*" 3
          ++ ("-" ++ Py.times "*" (S stars) ++ "-" ++ Py.last_chars 4 (Py.only_digits v))).
  rewrite (hidden_after_stars 2 _ (label c) label_free_of_value).
  rewrite (hidden_after_stars stars _ "-" Hdash).
  destruct (Py.contains v ("-" ++ Py.last_chars 4 (Py.only_digits v))) eqn:Hc; [|reflexivity].
  apply contains_digits in Hc.
  destruct (last_four (Py.only_digits v) (only_digits_all v)) as (Hall & Hlen & _); [lia|].
  change (Py.only_digits ("-" ++ Py.last_chars 4 (Py.only_digits v)))
    with (Py.only_digits (Py.last_chars 4 (Py.only_digits v))) in Hc.
  rewrite (only_digits_fixed _ Hall), Hlen in Hc. lia.
Qed.

Lemma hidden_email :
  Py.startswith "@" v = false ->
  Py.contains v
    (label c ++ (if Py.contains "@" v
                 then match Py.split "@" v with
                      | [_; domain] => "***@" ++ domain
                      | _ => "***"
                      end
                 else "***")) = false.
Proof.
  intros Hat.
  assert (Hstars : Py.contains v (label c ++ "***") = false) by apply (hidden_by_stars 2).
  destruct (Py.contains "@" v); [|exact Hstars].
  pose proof (split_concat "@" v) as Hjoin.
  destruct (Py.split "@" v) as [|local [|domain [|x r]]]; try exact Hstars.
  cbn in Hjoin.
  change ("***@" ++ domain) with (Py.times "*" 3 ++ ("@" ++ domain)).
  rewrite (hidden_after_stars 2 _ (label c) label_free_of_value).
  destruct (Py.contains v ("@" ++ domain)) eqn:Hc; [|reflexivity].
  apply contains_length in Hc. rewrite <- Hjoin in Hc, Hat.
  rewrite length_append in Hc. cbn [String.length append] in Hc.
  destruct local; [discriminate Hat|]. cbn [String.length] in Hc. lia.
Qed.

Lemma hidden_address :
  Py.contains v
    (label c ++ (if (5 <? String.length v)%nat
                 then Py.take 2 v ++ Py.times "*" (String.length v - 2)
                 else "***")) = false.
Proof.
  destruct (5 <? String.length v)%nat eqn:Hlong; [|apply (hidden_by_stars 2)].
  apply Nat.ltb_lt in Hlong.
  assert (Hhead : Py.contains v (label c ++ Py.take 2 v) = false).
  { apply (find_prefix_free v (label c ++ Py.take 2 v) (Py.drop 2 v)
             (String.length (label c))).
    - rewrite append_assoc, take_drop, <- cell_line_label. exact v_first.
    - rewrite length_append, length_take by lia. lia. }
  destruct (String.length v - 2) as [|k] eqn:Hk; [lia|].
  rewrite <- append_assoc.
  rewrite <- (append_empty_r (Py.times "*" (S k))).
  rewrite (hidden_after_stars k "" _ Hhead).
  apply contains_nothing, v_not_empty.
Qed.

(** The line of the cell, once masked, no longer holds the value. *)
Lemma masked_cell_hides_value :
  mask_hides c v = true -> Py.contains v (cell_line c m) = false.
Proof.
  unfold mask_hides, category_of. intros Hhides.
  rewrite cell_line_label. unfold m.
  destruct (Py.contains "email" (Py.lower c)) eqn:He.
  { rewrite (mask_email c v v_not_empty He).
    apply hidden_email. apply negb_true_iff, Hhides. }
  destruct (Py.contains "phone" (Py.lower c) || Py.contains "telephone" (Py.lower c))
    eqn:Hp.
  { rewrite (mask_phone c v v_not_empty He Hp).
    apply Nat.ltb_lt in Hhides.
    replace (4 <=? String.length (Py.only_digits v))%nat with true
      by (symmetry; apply Nat.leb_le; lia).
    apply (hidden_last_four 2 Hhides). }
  destruct (Py.contains "name" (Py.lower c)) eqn:Hn.
  { rewrite (mask_name c v v_not_empty He Hp Hn). apply hidden_by_short_stars. }
  destruct (Py.contains "address" (Py.lower c)) eqn:Ha.
  { rewrite (mask_address c v v_not_empty He Hp Hn Ha). apply hidden_address. }
  destruct (Py.contains "ssn" (Py.lower c) || Py.contains "social" (Py.lower c)) eqn:Hs.
  { rewrite (mask_ssn c v v_not_empty He Hp Hn Ha Hs).
    apply Nat.ltb_lt in Hhides.
    replace (4 <=? String.length (Py.only_digits v))%nat with true
      by (symmetry; apply Nat.leb_le; lia).
    apply (hidden_last_four 1 Hhides). }
  rewrite (mask_default c v v_not_empty He Hp Hn Ha Hs). apply hidden_by_short_stars.
Qed.

End HiddenValue.

(** ** Where a value can stand in the whole text *)

(** A text without a newline stands in the joined lines only inside one of
    them. *)
Lemma contains_join_lines (v : string) (lines : list string) :
  free_of (Py.chr 10) v = true -> v <> "" ->
  Py.contains v (Py.join Py.nl lines) = existsb (Py.contains v) lines.
Proof.
  intros Hfree Hv. induction lines as [|l [|l2 ls] IH].
  - apply contains_nothing, Hv.
  - cbn [Py.join String.concat existsb]. rewrite orb_false_r. reflexivity.
  - change (Py.join Py.nl (l :: l2 :: ls))
      with (l ++ String (Py.chr 10) (Py.join Py.nl (l2 :: ls))).
    rewrite (contains_around (Py.chr 10) v Hfree Hv), IH. reflexivity.
Qed.

Lemma free_of_suffix (ch : ascii) (v a : string) :
  Py.contains (String ch "") (a ++ v) = false -> free_of ch v = true.
Proof.
  intros Hno. rewrite free_of_contains.
  destruct (Py.contains (String ch "") v) eqn:Hv; [|reflexivity].
  rewrite (contains_later _ a _ Hv) in Hno. discriminate Hno.
Qed.

Lemma nodup_singleton (a : string) (l : list string) :
  NoDup l -> (forall x, In x l -> x = a) -> In a l -> l = [a].
Proof.
  intros Hnodup Hall Hin.
  destruct l as [|x [|y r]]; [destruct Hin| |].
  - rewrite (Hall x (or_introl eq_refl)). reflexivity.
  - exfalso. inversion Hnodup as [|? ? Hx _]; subst. apply Hx.
    rewrite (Hall x (or_introl eq_refl)), (Hall y (or_intror (or_introl eq_refl))).
    left; reflexivity.
Qed.

(** A text without a newline does not stand across the empty line that
    precedes the disclosure. *)
Lemma contains_before_notice (v text : string) (notice : list string) :
  free_of (Py.chr 10) v = true -> v <> "" ->
  Py.contains v (text ++ FunctionTools.applied_notice notice)
  = Py.contains v text || Py.contains v (FunctionTools.applied_notice notice).
Proof.
  intros Hfree Hv. unfold FunctionTools.applied_notice.
  match goal with |- context [Py.nl ++ ?r] => remember r as rest end.
  change (Py.nl ++ rest) with (String (Py.chr 10) rest).
  rewrite (contains_around (Py.chr 10) v Hfree Hv text rest).
  pose proof (contains_around (Py.chr 10) v Hfree Hv "" rest) as Hhead.
  cbn [append] in Hhead. rewrite Hhead, (contains_nothing v Hv). reflexivity.
Qed.

(** C1, as stated, fails: the database tool reports a phone column whose one
    cell is "4567"; the check of the coordinator, given that text, has the
    PII tool mask it, and the text that comes back still holds "4567", since
    the phone mask keeps the last four digits. *)
Lemma masked_output_keeps_raw_value :
  let result :=
    FunctionTools.format_result "SELECT phone FROM customers"
      (Some [[("phone", "4567")]]) (Some ["phone"]) in
  let protected :=
    "SQL Query: SELECT phone FROM customers" ++ Py.nl ++ Py.nl
    ++ "COLUMNS: ['phone']" ++ Py.nl ++ Py.nl
    ++ "Database Results:" ++ Py.nl
    ++ "Row 1:" ++ Py.nl
    ++ "  phone: ***-***-4567" ++ Py.nl ++ Py.nl ++ Py.nl ++ Py.nl
    ++ "[PII Protection Applied] The following fields have been masked for privacy: phone" in
  matches_lexicon "phone" = true
  /\ AgentCoordinator._check_and_apply_pii_protection Catalog.literal_eval
       (Catalog.function_tools Catalog.literal_eval "") "database_query_tool" result
     = Ret (Ok protected)
  /\ Py.contains "4567" protected = true.
Proof. repeat split; reflexivity. Qed.

(** C1, amended. Let the column text evaluate to the list [cols], let [c] be
    a name of [cols] that matches the lexicon, trimmed and without a colon,
    and let the results hold the line "  c: v" of a cell whose value [v] is
    not empty, is trimmed, and does not occur in that line before the cell
    itself. Then the PII tool returns the results with that line rewritten to
    "  c: mask_field_value(c, v)", every other line rewritten on its own, and
    a disclosure that lists [c]; and this is the text the coordinator returns
    for a result of the database tool, given as a [str], whose COLUMNS line
    reads as [cols], when the column text is [str(cols)] and the PII tool is
    the one found among the function tools. The rewritten line of the cell
    no longer holds the raw value when the value has no asterisk and the
    mask of the field keeps no copy of it: for every value under the name,
    address and default masks, for a value that does not start with "@"
    under the e-mail mask, for a value with more than four digits under the
    phone and SSN masks. The disclosure lists names of [cols] that match
    the lexicon, each once, and the whole text is then free of the raw value
    as soon as the value stands neither in another line, as rewritten, nor
    in the disclosure. *)
Theorem flagged_cell_is_masked
        (literal_eval : string -> outcome literal) (s : string)
        (cols pre post : list string) (c v : string) :
  literal_eval s = Ok (LitNames cols) ->
  In c cols ->
  matches_lexicon c = true ->
  Py.strip c = c ->
  Py.contains ":" c = false ->
  v <> "" ->
  Py.strip v = v ->
  Py.find v (cell_line c v) = Some (String.length (label c)) ->
  Forall (fun line => Py.contains Py.nl line = false) (pre ++ cell_line c v :: post) ->
  exists masked_fields_notice,
    let results := Py.join Py.nl (pre ++ cell_line c v :: post) in
    let protected :=
      Py.join Py.nl
        (map (rewrite_line cols) pre
         ++ cell_line c (FunctionTools.mask_field_value c v)
         :: map (rewrite_line cols) post)
      ++ FunctionTools.applied_notice masked_fields_notice in
    In c masked_fields_notice
    /\ FunctionTools.pii_protection_tool literal_eval results (FunctionTools.ColumnsText s)
       = protected
    /\ (forall function_tools tool_name group1,
          s = Py.repr_list cols ->
          Py.contains "database_query_tool" tool_name = true ->
          Py.contains "COLUMNS:" results = true ->
          AgentCoordinator.search_columns results = Some group1 ->
          literal_eval (Py.strip group1) = Ok (LitNames cols) ->
          List.find (fun tool => Py.contains "pii" (Py.lower (fn_name tool))) function_tools
          = Some (Catalog.pii_tool literal_eval) ->
          AgentCoordinator._check_and_apply_pii_protection literal_eval function_tools
            tool_name results = Ret (Ok protected))
    /\ (Py.contains "*" v = false ->
        mask_hides c v = true ->
        Py.contains v (cell_line c (FunctionTools.mask_field_value c v)) = false)
    /\ NoDup masked_fields_notice
    /\ (forall x, In x masked_fields_notice -> In x cols /\ matches_lexicon x = true)
    /\ (Py.contains "*" v = false ->
        mask_hides c v = true ->
        Forall (fun line => Py.contains v (rewrite_line cols line) = false) (pre ++ post) ->
        Py.contains v (FunctionTools.applied_notice masked_fields_notice) = false ->
        Py.contains v protected = false).
Proof.
  intros Hparse Hin Hmatch Hc Hcolon Hv Hvtrim Hfirst Hlines.
  pose proof (detect_pii_fields_flagged cols c Hin Hmatch) as Hflag.
  assert (Hsome : FunctionTools.detect_pii_fields cols <> []).
  { intros Hnone. rewrite Hnone in Hflag. discriminate Hflag. }
  assert (Hfold : exists masked_fields_notice,
    In c masked_fields_notice
    /\ sound_notice (FunctionTools.detect_pii_fields cols) masked_fields_notice
    /\ fold_left
         (FunctionTools.protect_lines_step cols (FunctionTools.detect_pii_fields cols))
         (pre ++ cell_line c v :: post) ([], [])
       = ((map (rewrite_line cols) pre
           ++ cell_line c (FunctionTools.mask_field_value c v)
           :: map (rewrite_line cols) post)%list, masked_fields_notice)).
  { destruct (protect_lines_fold cols pre [] []) as (n1 & Hpre & _).
    destruct (protect_lines_fold cols post
                (map (rewrite_line cols) pre
                 ++ [cell_line c (FunctionTools.mask_field_value c v)])%list
                (noted c n1)) as (n2 & Hpost & Hkeep).
    assert (Hall :
      fold_left
        (FunctionTools.protect_lines_step cols (FunctionTools.detect_pii_fields cols))
        (pre ++ cell_line c v :: post) ([], [])
      = ((map (rewrite_line cols) pre
          ++ cell_line c (FunctionTools.mask_field_value c v)
          :: map (rewrite_line cols) post)%list, n2)).
    { rewrite fold_left_app. cbn [fold_left]. rewrite Hpre. cbn [app].
      unfold FunctionTools.protect_lines_step at 2.
      rewrite (protect_cell_line _ c v Hflag Hc Hcolon Hv Hvtrim Hfirst cols n1 Hin).
      rewrite Hpost, <- app_assoc. reflexivity. }
    pose proof (protect_lines_sound cols (FunctionTools.detect_pii_fields cols)
                  (pre ++ cell_line c v :: post) ([], [])) as Hsound.
    rewrite Hall in Hsound. cbn [snd] in Hsound.
    exists n2. split; [apply Hkeep, In_noted|]. split; [|exact Hall].
    apply Hsound. split; [constructor | intros x []]. }
  destruct Hfold as (notice & Hnoted & Hsound & Hfold).
  assert (Htool :
    FunctionTools.pii_protection_tool literal_eval
      (Py.join Py.nl (pre ++ cell_line c v :: post)) (FunctionTools.ColumnsText s)
    = Py.join Py.nl
        (map (rewrite_line cols) pre
         ++ cell_line c (FunctionTools.mask_field_value c v)
         :: map (rewrite_line cols) post)
      ++ FunctionTools.applied_notice notice).
  { unfold FunctionTools.pii_protection_tool, FunctionTools.pii_protection_body.
    cbn [FunctionTools.parse_columns]. rewrite Hparse.
    destruct (FunctionTools.detect_pii_fields cols) as [|f fs] eqn:Hdetect;
      [contradiction Hsome; reflexivity|].
    rewrite <- Hdetect in *. clear f fs Hdetect.
    rewrite split_join by (try exact Hlines; destruct pre; discriminate).
    rewrite Hfold.
    destruct notice; [destruct Hnoted | reflexivity]. }
  destruct Hsound as [Hnodup Hsub].
  assert (Hgone : Py.contains "*" v = false -> mask_hides c v = true ->
            Py.contains v (cell_line c (FunctionTools.mask_field_value c v)) = false).
  { intros Hstar Hhides. apply masked_cell_hides_value; assumption. }
  exists notice. cbv zeta. split; [exact Hnoted|]. split; [exact Htool|].
  split; [|split; [exact Hgone|split; [exact Hnodup|split]]].
  - intros function_tools tool_name group1 Hs Hname Hmark Hsearch Hcols Hfind.
    rewrite (coordinator_hands_over literal_eval function_tools tool_name _ group1 cols
               Hname Hmark Hsearch Hcols Hsome Hfind).
    rewrite <- Hs, Htool. reflexivity.
  - intros x Hx. apply Hsub in Hx.
    unfold FunctionTools.detect_pii_fields in Hx.
    apply detect_fold_in in Hx as [[] | H]. exact H.
  - intros Hstar Hhides Hothers Hnotice.
    assert (Hline : free_of (Py.chr 10) v = true).
    { rewrite Forall_forall in Hlines.
      pose proof (Hlines (cell_line c v) (in_elt _ _ _)) as Hcell.
      rewrite cell_line_label in Hcell.
      apply (free_of_suffix (Py.chr 10) v (label c)), Hcell. }
    rewrite (contains_before_notice v _ notice Hline Hv), Hnotice, orb_false_r.
    rewrite (contains_join_lines v _ Hline Hv).
    rewrite existsb_app. cbn [existsb]. rewrite (Hgone Hstar Hhides). cbn [orb].
    rewrite Forall_app in Hothers. destruct Hothers as [Hpre Hpost].
    assert (Hnone : forall ls,
              Forall (fun line => Py.contains v (rewrite_line cols line) = false) ls ->
              existsb (Py.contains v) (map (rewrite_line cols) ls) = false).
    { induction 1 as [|l ls Hl _ IH]; [reflexivity|].
      cbn [map existsb]. rewrite Hl, IH. reflexivity. }
    rewrite (Hnone pre Hpre), (Hnone post Hpost). reflexivity.
Qed.

Lemma flagged_cell_is_masked_witness :
  let pre := ["SQL Query: SELECT id, phone FROM customers"; "";
              "COLUMNS: ['id', 'phone']"; ""; "Database Results:"; "Row 1:";
              "  id: 1"] in
  let post := [""; ""] in
  let cols := ["id"; "phone"] in
  exists masked_fields_notice,
    let results := Py.join Py.nl (pre ++ cell_line "phone" "555-123-4567" :: post) in
    let protected :=
      Py.join Py.nl
        (map (rewrite_line cols) pre
         ++ cell_line "phone" (FunctionTools.mask_field_value "phone" "555-123-4567")
         :: map (rewrite_line cols) post)
      ++ FunctionTools.applied_notice masked_fields_notice in
    In "phone" masked_fields_notice
    /\ FunctionTools.pii_protection_tool Catalog.literal_eval results
         (FunctionTools.ColumnsText "['id', 'phone']") = protected
    /\ AgentCoordinator._check_and_apply_pii_protection Catalog.literal_eval
         (Catalog.function_tools Catalog.literal_eval "") "database_query_tool" results
       = Ret (Ok protected)
    /\ cell_line "phone" (FunctionTools.mask_field_value "phone" "555-123-4567")
       = "  phone: ***-***-4567"
    /\ Py.contains "555-123-4567"
         (cell_line "phone" (FunctionTools.mask_field_value "phone" "555-123-4567"))
       = false
    /\ masked_fields_notice = ["phone"]
    /\ Py.contains "555-123-4567" protected = false.
Proof.
  intros pre post cols.
  destruct (flagged_cell_is_masked Catalog.literal_eval "['id', 'phone']"
              cols pre post "phone" "555-123-4567")
    as (notice & Hnoted & Htool & Hcoordinator & Hgone & Hnodup & Hsub & Hfree);
    try reflexivity.
  - right; left; reflexivity.
  - discriminate.
  - repeat constructor.
  - assert (Hnotice : notice = ["phone"]).
    { apply nodup_singleton; [exact Hnodup | | exact Hnoted].
      intros x Hx. destruct (Hsub x Hx) as [[<- | [<- | []]] Hm];
        [discriminate Hm | reflexivity]. }
    exists notice. cbv zeta. split; [exact Hnoted|]. split; [exact Htool|].
    split; [|split; [reflexivity|split; [apply Hgone; reflexivity|split; [exact Hnotice|]]]].
    + apply (Hcoordinator (Catalog.function_tools Catalog.literal_eval "")
               "database_query_tool" "['id', 'phone']"); reflexivity.
    + apply Hfree; try reflexivity.
      * repeat constructor.
      * rewrite Hnotice. reflexivity.
Defined.
